(** * RFP Alignment Assistant: the pipeline's core, embedded and verified

    The repository is a Python program.  Each function the properties below
    are about is written here as a Rocq function with the same name and the
    same control flow; library calls whose code is not part of the
    repository (the JSON decoder, the PDF reader, the LLM endpoint, the
    rendering libraries) are modelled by the data they exchange with the
    repository's code. *)

From Stdlib Require Import ZArith NArith QArith List Strings.Byte Lia.
From Corelib Require Import SpecFloat.
From stdpp Require Import base option list gmap fin_maps.
Import ListNotations.

#[local] Open Scope Z_scope.

(** ** Python text

    A Python [str] is a sequence of Unicode code points; it is modelled as
    the list of their numbers, so that indices, slices, [strip] and the
    decoder's [\uXXXX] escapes mean here what they mean in Python.  String
    literals of this file are read as UTF-8, as Python reads its sources. *)
Module Py.

Definition str := list N.

Fixpoint utf8_decode (fuel : nat) (l : list N) : list N :=
  match fuel with
  | O => []
  | S fuel =>
    match l with
    | [] => []
    | b0 :: t =>
      if (b0 <? 128)%N then b0 :: utf8_decode fuel t
      else if (b0 <? 224)%N then
        match t with
        | b1 :: t' => ((b0 - 192) * 64 + (b1 - 128))%N :: utf8_decode fuel t'
        | _ => [b0]
        end
      else if (b0 <? 240)%N then
        match t with
        | b1 :: b2 :: t' =>
            ((b0 - 224) * 4096 + (b1 - 128) * 64 + (b2 - 128))%N
            :: utf8_decode fuel t'
        | _ => b0 :: t
        end
      else
        match t with
        | b1 :: b2 :: b3 :: t' =>
            ((b0 - 240) * 262144 + (b1 - 128) * 4096
             + (b2 - 128) * 64 + (b3 - 128))%N :: utf8_decode fuel t'
        | _ => b0 :: t
        end
    end
  end.

Definition utf8_encode (c : N) : list N :=
  if (c <? 128)%N then [c]
  else if (c <? 2048)%N then [192 + c / 64; 128 + c mod 64]%N
  else if (c <? 65536)%N then
    [224 + c / 4096; 128 + (c / 64) mod 64; 128 + c mod 64]%N
  else [240 + c / 262144; 128 + (c / 4096) mod 64;
        128 + (c / 64) mod 64; 128 + c mod 64]%N.

(** The carrier of the literal notation. *)
Inductive literal := lit_nil | lit_cons (c : N) (t : literal).

Fixpoint literal_of_str (l : list N) : literal :=
  match l with [] => lit_nil | c :: t => lit_cons c (literal_of_str t) end.

Fixpoint str_of_literal (l : literal) : list N :=
  match l with lit_nil => [] | lit_cons c t => c :: str_of_literal t end.

Definition read_literal (l : list byte) : literal :=
  literal_of_str (utf8_decode (length l) (map Byte.to_N l)).

Fixpoint all_some {A} (l : list (option A)) : option (list A) :=
  match l with
  | [] => Some []
  | Some a :: t => option_map (cons a) (all_some t)
  | None :: _ => None
  end.

(** The empty list is shown as a list. *)
Definition show_literal (l : literal) : option (list byte) :=
  match l with
  | lit_nil => None
  | _ => all_some (map Byte.of_N (flat_map utf8_encode (str_of_literal l)))
  end.

Declare Scope str_scope.
Delimit Scope str_scope with str.
#[warnings="-via-type-remapping,-via-type-mismatch"]
String Notation str read_literal show_literal
  (via literal mapping [[nil] => lit_nil, [cons] => lit_cons]) : str_scope.
Bind Scope str_scope with str.

(** [len(s)] *)
Definition len {A} (l : list A) : Z := Z.of_nat (length l).

(** [s.startswith(sub)] *)
Fixpoint startswith (sub s : str) : bool :=
  match sub, s with
  | [], _ => true
  | _ :: _, [] => false
  | a :: sub', b :: s' => if (a =? b)%N then startswith sub' s' else false
  end.

(** The offset of the first occurrence of [sub] in [s]. *)
Fixpoint index_of (sub s : str) : option nat :=
  if startswith sub s then Some O
  else match s with
       | [] => None
       | _ :: t => option_map S (index_of sub t)
       end.

(** The offset of the last occurrence of [sub] in [s]. *)
Fixpoint last_index_of (sub s : str) : option nat :=
  match s with
  | [] => if startswith sub [] then Some O else None
  | _ :: t =>
    match last_index_of sub t with
    | Some k => Some (S k)
    | None => if startswith sub s then Some O else None
    end
  end.

(** How Python turns a slice bound into an offset of a sequence of
    length [n]: a negative bound counts from the end, and the result is
    clamped to [0..n]. *)
Definition clamp (n i : Z) : Z :=
  let i := if i <? 0 then i + n else i in
  Z.max 0 (Z.min n i).

(** [s[start:stop]] *)
Definition slice {A} (s : list A) (start stop : Z) : list A :=
  let a := clamp (len s) start in
  let b := clamp (len s) stop in
  take (Z.to_nat (b - a)) (drop (Z.to_nat a) s).

(** [s.find(sub, start)]: the lowest index at or after [start] where [sub]
    occurs, and [-1] when it does not. *)
Definition find_from (s sub : str) (start : Z) : Z :=
  let a := if start <? 0 then Z.max 0 (start + len s) else start in
  if len s <? a then -1
  else match index_of sub (drop (Z.to_nat a) s) with
       | Some k => a + Z.of_nat k
       | None => -1
       end.

(** [s.find(sub)] *)
Definition find (s sub : str) : Z := find_from s sub 0.

(** [s.rfind(sub)] *)
Definition rfind (s sub : str) : Z :=
  match last_index_of sub s with
  | Some k => Z.of_nat k
  | None => -1
  end.

(** [sub in s] *)
Definition contains (sub s : str) : bool :=
  match index_of sub s with Some _ => true | None => false end.

(** [c.isspace()] for one code point: the characters whose bidirectional
    class is WS, B or S, or whose category is Zs. *)
Definition isspace (c : N) : bool :=
  ((9 <=? c) && (c <=? 13) || (28 <=? c) && (c <=? 32)
   || (c =? 133) || (c =? 160) || (c =? 5760)
   || (8192 <=? c) && (c <=? 8202)
   || (c =? 8232) || (c =? 8233) || (c =? 8239) || (c =? 8287)
   || (c =? 12288))%N.

(** [s.lstrip()], [s.rstrip()], [s.strip()] *)
Fixpoint lstrip (s : str) : str :=
  match s with
  | c :: t => if isspace c then lstrip t else s
  | [] => []
  end.

Definition rstrip (s : str) : str := rev (lstrip (rev s)).

Definition strip (s : str) : str := rstrip (lstrip s).

(** A text of whitespace only. *)
Definition blank (w : str) : Prop := Forall (fun c => isspace c = true) w.

(** [sep.join(parts)] *)
Fixpoint join (sep : str) (parts : list str) : str :=
  match parts with
  | [] => []
  | [p] => p
  | p :: rest => p ++ sep ++ join sep rest
  end.

(** [str(n)] for an integer. *)
Fixpoint digits_of (fuel : nat) (n : N) (acc : str) : str :=
  match fuel with
  | O => acc
  | S fuel =>
    let acc := (48 + n mod 10)%N :: acc in
    if (n <? 10)%N then acc else digits_of fuel (n / 10)%N acc
  end.

Definition str_of_int (z : Z) : str :=
  let n := Z.to_N (Z.abs z) in
  let d := digits_of (S (N.to_nat (N.log2 n))) n [] in
  if z <? 0 then 45%N :: d else d.

End Py.
Export Py.
#[global] Open Scope str_scope.
#[global] Open Scope list_scope.


(** A literal with double quotes in it is written with single quotes and
    passed through [qq]: [qq "{'a': 1}"] is the text [{"a": 1}]. *)
Definition qq (s : str) : str :=
  map (fun c => if (c =? 39)%N then 34%N else c) s.

(** ** Python values and exceptions *)
Module Obj.

(** The values [json.loads] can return, which are the values the analysis
    result is made of.  A dict keeps its keys in insertion order. *)
#[warnings="-register-all"]
Inductive pyobj :=
| PyNone
| PyBool (b : bool)
| PyInt (z : Z)
| PyFloat (f : spec_float)
| PyStr (s : str)
| PyList (l : list pyobj)
| PyDict (d : list (str * pyobj)).

Definition dict := list (str * pyobj).

(** [k in d] and [d.get(k)] for a dict. *)
Fixpoint dict_get (k : str) (d : dict) : option pyobj :=
  match d with
  | [] => None
  | (k', v) :: rest => if bool_decide (k = k') then Some v else dict_get k rest
  end.

Definition dict_contains (k : str) (d : dict) : bool :=
  match dict_get k d with Some _ => true | None => false end.

(** [d[k] = v]: an existing key keeps its place and takes the new value, a
    new key goes last. *)
Fixpoint dict_set (k : str) (v : pyobj) (d : dict) : dict :=
  match d with
  | [] => [(k, v)]
  | (k', v') :: rest =>
    if bool_decide (k = k') then (k', v) :: rest else (k', v') :: dict_set k v rest
  end.

(** The exception classes that can reach the handlers of this repository,
    with their direct base class.  The [API...] classes are those of the
    [anthropic] package, where [APITimeoutError] derives from
    [APIConnectionError], which derives from [APIError]. *)
Inductive pyclass :=
| BaseException_ | Exception_ | ValueError_ | JSONDecodeError_ | TypeError_
| AttributeError_ | LookupError_ | IndexError_
| AnthropicError_ | APIError_ | APIResponseValidationError_
| APIStatusError_ | APIConnectionError_ | APITimeoutError_
| BadRequestError_ | AuthenticationError_ | PermissionDeniedError_
| NotFoundError_ | RateLimitError_ | InternalServerError_.

#[global] Instance pyclass_eq_dec : EqDecision pyclass.
Proof. solve_decision. Defined.

Definition base (c : pyclass) : option pyclass :=
  match c with
  | BaseException_ => None
  | Exception_ => Some BaseException_
  | ValueError_ | TypeError_ | AttributeError_ | LookupError_
  | AnthropicError_ => Some Exception_
  | JSONDecodeError_ => Some ValueError_
  | IndexError_ => Some LookupError_
  | APIError_ => Some AnthropicError_
  | APIResponseValidationError_ | APIStatusError_
  | APIConnectionError_ => Some APIError_
  | APITimeoutError_ => Some APIConnectionError_
  | BadRequestError_ | AuthenticationError_ | PermissionDeniedError_
  | NotFoundError_ | RateLimitError_ | InternalServerError_ =>
      Some APIStatusError_
  end.

(** [issubclass(c, d)], following [base] upwards (the hierarchy is six
    classes deep). *)
Fixpoint issubclass_upto (n : nat) (c d : pyclass) : bool :=
  if bool_decide (c = d) then true
  else match n with
       | O => false
       | S n => match base c with
                | Some b => issubclass_upto n b d
                | None => false
                end
       end.

Definition issubclass : pyclass -> pyclass -> bool := issubclass_upto 6.

(** An exception value.  A [JSONDecodeError] carries its message, the
    document it is about and a position; the one [json.loads] raises on a
    document is [DecoderError doc]: its [doc] is the argument of
    [json.loads], its message and position are the decoder's and are not
    modelled.  [Error c text] is any other exception, of class [c], with
    [str(e) = text]. *)
Inductive exn :=
| JSONDecodeError (msg doc : str) (pos : Z)
| DecoderError (doc : str)
| Error (c : pyclass) (text : str).

Definition class_of (e : exn) : pyclass :=
  match e with
  | JSONDecodeError _ _ _ | DecoderError _ => JSONDecodeError_
  | Error c _ => c
  end.

(** [isinstance(e, c)], which is how an [except c] clause selects. *)
Definition isinstance (e : exn) (c : pyclass) : bool :=
  issubclass (class_of e) c.

(** The outcome of a call: a value, or a raised exception. *)
Inductive result (A : Type) :=
| Return (a : A)
| Raise (e : exn).
Arguments Return {A} a.
Arguments Raise {A} e.

#[global] Instance result_bind : MBind result := fun A B f m =>
  match m with Return a => f a | Raise e => Raise e end.
#[global] Instance result_ret : MRet result := fun A a => Return a.

(** [type(o).__name__] *)
Definition type_name (o : pyobj) : str :=
  match o with
  | PyNone => "NoneType"
  | PyBool _ => "bool"
  | PyInt _ => "int"
  | PyFloat _ => "float"
  | PyStr _ => "str"
  | PyList _ => "list"
  | PyDict _ => "dict"
  end.

(** [bool(o)], the test of [if o:] *)
Definition truthy (o : pyobj) : bool :=
  match o with
  | PyNone => false
  | PyBool b => b
  | PyInt z => negb (z =? 0)
  | PyFloat (S754_zero _) => false
  | PyFloat _ => true
  | PyStr s => negb (bool_decide (s = []))
  | PyList l => match l with [] => false | _ => true end
  | PyDict d => match d with [] => false | _ => true end
  end.

(** [len(o)] *)
Definition py_len (o : pyobj) : result Z :=
  match o with
  | PyStr s => Return (len s)
  | PyList l => Return (len l)
  | PyDict d => Return (len d)
  | _ => Raise (Error TypeError_
                  ("object of type '" ++ type_name o ++ "' has no len()"))
  end.

(** The items [for x in o] visits: the elements of a list, the characters
    of a string, the keys of a dict. *)
Definition py_iter (o : pyobj) : result (list pyobj) :=
  match o with
  | PyList l => Return l
  | PyStr s => Return (map (fun c => PyStr [c]) s)
  | PyDict d => Return (map (fun kv => PyStr (fst kv)) d)
  | _ => Raise (Error TypeError_
                  ("'" ++ type_name o ++ "' object is not iterable"))
  end.

(** [o.get(key, default)]: only a dict has the method. *)
Definition py_get (o : pyobj) (key : str) (default : pyobj) : result pyobj :=
  match o with
  | PyDict d => Return (match dict_get key d with Some v => v | None => default end)
  | _ => Raise (Error AttributeError_
                  ("'" ++ type_name o ++ "' object has no attribute 'get'"))
  end.

(** [key in o] for a string [key]: a key of a dict, an element of a list,
    a substring of a string. *)
Fixpoint list_has_str (key : str) (l : list pyobj) : bool :=
  match l with
  | [] => false
  | PyStr s :: rest => bool_decide (key = s) || list_has_str key rest
  | _ :: rest => list_has_str key rest
  end.

Definition py_in (key : str) (o : pyobj) : result bool :=
  match o with
  | PyDict d => Return (dict_contains key d)
  | PyList l => Return (list_has_str key l)
  | PyStr s => Return (contains key s)
  | _ => Raise (Error TypeError_
                  ("argument of type '" ++ type_name o ++ "' is not iterable"))
  end.

End Obj.
Export Obj.

(** ** The JSON decoder

    [json.loads] belongs to Python's standard library.  The client below
    takes the decoder as a parameter; [Json.loads] is the reference decoder
    the closed examples run: the JSON grammar as [json.loads] reads a [str]
    (with its [NaN], [Infinity] and [-Infinity] literals), [None] standing
    for a raised [JSONDecodeError].  The limits of the interpreter (its
    recursion depth, the number of digits it converts to an [int]) are not
    part of it. *)
Module Json.

Definition is_ws (c : N) : bool :=
  ((c =? 32) || (c =? 9) || (c =? 10) || (c =? 13))%N.

Fixpoint skip_ws (s : str) : str :=
  match s with
  | c :: t => if is_ws c then skip_ws t else s
  | [] => []
  end.

Definition is_digit (c : N) : bool := ((48 <=? c) && (c <=? 57))%N.

Definition hex_value (c : N) : option N :=
  if is_digit c then Some (c - 48)%N
  else if ((97 <=? c) && (c <=? 102))%N then Some (c - 87)%N
  else if ((65 <=? c) && (c <=? 70))%N then Some (c - 55)%N
  else None.

Definition hex4 (a b c d : N) : option N :=
  match hex_value a, hex_value b, hex_value c, hex_value d with
  | Some a, Some b, Some c, Some d => Some (((a * 16 + b) * 16 + c) * 16 + d)%N
  | _, _, _, _ => None
  end.

Definition is_high_surrogate (c : N) : bool := ((55296 <=? c) && (c <=? 56319))%N.
Definition is_low_surrogate (c : N) : bool := ((56320 <=? c) && (c <=? 57343))%N.

(** The body of a string, from after its opening quote: the decoded text
    and what follows the closing quote.  Control characters are refused
    (the decoder is strict); a [\uXXXX] high surrogate followed by a
    [\uXXXX] low surrogate is one character. *)
Fixpoint scan_string (s : str) (acc : str) : option (str * str) :=
  match s with
  | [] => None
  | 34%N :: rest => Some (rev acc, rest)
  | 92%N :: esc =>
    match esc with
    | 34%N :: r => scan_string r (34%N :: acc)
    | 92%N :: r => scan_string r (92%N :: acc)
    | 47%N :: r => scan_string r (47%N :: acc)
    | 98%N :: r => scan_string r (8%N :: acc)
    | 102%N :: r => scan_string r (12%N :: acc)
    | 110%N :: r => scan_string r (10%N :: acc)
    | 114%N :: r => scan_string r (13%N :: acc)
    | 116%N :: r => scan_string r (9%N :: acc)
    | 117%N :: h1 :: h2 :: h3 :: h4 :: r =>
      match hex4 h1 h2 h3 h4 with
      | None => None
      | Some c =>
        match r with
        | 92%N :: 117%N :: l1 :: l2 :: l3 :: l4 :: r' =>
          if is_high_surrogate c then
            match hex4 l1 l2 l3 l4 with
            | None => None
            | Some c2 =>
              if is_low_surrogate c2
              then scan_string r'
                     ((65536 + (c - 55296) * 1024 + (c2 - 56320))%N :: acc)
              else scan_string r (c :: acc)
            end
          else scan_string r (c :: acc)
        | _ => scan_string r (c :: acc)
        end
      end
    | _ => None
    end
  | c :: rest => if (c <? 32)%N then None else scan_string rest (c :: acc)
  end.

(** A run of decimal digits and what follows it. *)
Fixpoint scan_digits (s : str) (acc : str) : str * str :=
  match s with
  | c :: t => if is_digit c then scan_digits t (c :: acc) else (rev acc, s)
  | [] => (rev acc, [])
  end.

Definition value_of_digits (d : str) : Z :=
  fold_left (fun a c => a * 10 + Z.of_N (c - 48)) d 0.

(** [float(text)] for the decimal [(-1)^neg * m * 10^e]: the nearest
    binary64 number, ties to even. *)
Definition float_of_decimal (neg : bool) (m e : Z) : spec_float :=
  match m with
  | Zpos p =>
    if 0 <=? e
    then binary_normalize 53 1024 ((if neg then -1 else 1) * m * 10 ^ e) 0 neg
    else SFdiv 53 1024 (S754_finite neg p 0)
                       (S754_finite false (Z.to_pos (10 ^ (- e))) 0)
  | _ => S754_zero neg
  end.

(** The integer part of a number: [0], or a nonzero digit and more digits. *)
Definition scan_int (s : str) : option (str * str) :=
  match s with
  | 48%N :: t => Some ([48%N], t)
  | c :: t => if is_digit c then Some (scan_digits s []) else None
  | [] => None
  end.

Definition scan_frac (s : str) : str * str :=
  match s with
  | 46%N :: t =>
    match scan_digits t [] with
    | ([], _) => ([], s)
    | (d, r) => (d, r)
    end
  | _ => ([], s)
  end.

(** The exponent: its sign, its digits (none when there is no exponent). *)
Definition scan_exp (s : str) : bool * str * str :=
  match s with
  | c :: t =>
    if ((c =? 101) || (c =? 69))%N then
      let '(sign, t') :=
        match t with
        | 45%N :: u => (true, u)
        | 43%N :: u => (false, u)
        | _ => (false, t)
        end in
      match scan_digits t' [] with
      | ([], _) => (false, [], s)
      | (d, r) => (sign, d, r)
      end
    else (false, [], s)
  | [] => (false, [], s)
  end.

Definition scan_number (s : str) : option (pyobj * str) :=
  let '(neg, s1) := match s with 45%N :: t => (true, t) | _ => (false, s) end in
  match scan_int s1 with
  | None => None
  | Some (int, s2) =>
    let '(frac, s3) := scan_frac s2 in
    let '(esign, edigits, s4) := scan_exp s3 in
    match frac, edigits with
    | [], [] =>
      let v := value_of_digits int in
      Some (PyInt (if neg then - v else v), s4)
    | _, _ =>
      let e := value_of_digits edigits in
      let e := if esign then - e else e in
      Some (PyFloat (float_of_decimal neg (value_of_digits (int ++ frac))
                       (e - len frac)), s4)
    end
  end.

Definition after (word s : str) : option str :=
  if startswith word s then Some (drop (length word) s) else None.

(** One JSON value at the head of [s], and what follows it.  Every call
    consumes a character before it calls again, so a fuel of one more than
    the length of the text is enough for any value the text holds. *)
Fixpoint scan_value (fuel : nat) (s : str) : option (pyobj * str) :=
  match fuel with
  | O => None
  | S fuel =>
    match s with
    | 34%N :: r =>
      match scan_string r [] with
      | Some (t, r') => Some (PyStr t, r')
      | None => None
      end
    | 123%N :: r =>
      match skip_ws r with
      | 125%N :: r' => Some (PyDict [], r')
      | r' => scan_members fuel r' []
      end
    | 91%N :: r =>
      match skip_ws r with
      | 93%N :: r' => Some (PyList [], r')
      | r' => scan_elements fuel r' []
      end
    | 110%N :: _ => r ← after "null" s; Some (PyNone, r)
    | 116%N :: _ => r ← after "true" s; Some (PyBool true, r)
    | 102%N :: _ => r ← after "false" s; Some (PyBool false, r)
    | 78%N :: _ => r ← after "NaN" s; Some (PyFloat S754_nan, r)
    | 73%N :: _ => r ← after "Infinity" s; Some (PyFloat (S754_infinity false), r)
    | _ =>
      match after "-Infinity" s with
      | Some r => Some (PyFloat (S754_infinity true), r)
      | None => scan_number s
      end
    end
  end
with scan_elements (fuel : nat) (s : str) (acc : list pyobj)
  : option (pyobj * str) :=
  match fuel with
  | O => None
  | S fuel =>
    match scan_value fuel s with
    | None => None
    | Some (v, r) =>
      match skip_ws r with
      | 93%N :: r' => Some (PyList (rev (v :: acc)), r')
      | 44%N :: r' => scan_elements fuel (skip_ws r') (v :: acc)
      | _ => None
      end
    end
  end
with scan_members (fuel : nat) (s : str) (acc : dict)
  : option (pyobj * str) :=
  match fuel with
  | O => None
  | S fuel =>
    match s with
    | 34%N :: r =>
      match scan_string r [] with
      | None => None
      | Some (k, r1) =>
        match skip_ws r1 with
        | 58%N :: r2 =>
          match scan_value fuel (skip_ws r2) with
          | None => None
          | Some (v, r3) =>
            match skip_ws r3 with
            | 125%N :: r' => Some (PyDict (dict_set k v acc), r')
            | 44%N :: r' => scan_members fuel (skip_ws r') (dict_set k v acc)
            | _ => None
            end
          end
        | _ => None
        end
      end
    | _ => None
    end
  end.

(** [json.loads(s)]: one value, with blanks allowed around it and nothing
    else; a leading byte-order mark is refused. *)
Definition loads (s : str) : option pyobj :=
  match s with
  | 65279%N :: _ => None
  | _ =>
    match scan_value (S (length s)) (skip_ws s) with
    | Some (v, r) => match skip_ws r with [] => Some v | _ => None end
    | None => None
    end
  end.

End Json.

(** ** utils/claude_client.py *)
Module ClaudeRFPClient.

(** What the endpoint returns: the content blocks of the message. *)
Inductive content_block :=
| TextBlock (text : str)
| OtherBlock (class_name : str).

(** The request [self.client.messages.create] is called with. *)
Record request := {
  model : str;
  max_tokens : Z;
  media_type : str;
  document : str;
  text : str
}.

(** [required_fields] of [validate_analysis_structure]. *)
Definition required_fields : list str :=
  ["client_problems"; "requirements"; "gotchas"; "timeline"; "next_steps";
   "alignment_questions"].

(** [[f for f in fields if f not in analysis]] *)
Fixpoint missing_in (analysis : pyobj) (fields : list str) : result (list str) :=
  match fields with
  | [] => Return []
  | f :: rest =>
    present ← py_in f analysis;
    others ← missing_in analysis rest;
    Return (if (present : bool) then others else f :: others)
  end.

Definition validate_analysis_structure (analysis : pyobj) : result bool :=
  missing_fields ← missing_in analysis required_fields;
  match missing_fields with
  | _ :: _ =>
    Raise (Error Exception_
             ("Analysis missing required fields: " ++ join ", " missing_fields))
  | [] => Return true
  end.

(** [str(e)] of a [JSONDecodeError]: the message, then the line, the column
    and the position the error is at. *)
Definition count_newlines (s : str) : Z :=
  len (filter (fun c => c = 10%N) s).

Definition errmsg (msg doc : str) (pos : Z) : str :=
  let before := slice doc 0 pos in
  let lineno := count_newlines before + 1 in
  let colno := pos - rfind before [10%N] in
  msg ++ ": line " ++ str_of_int lineno ++ " column " ++ str_of_int colno
      ++ " (char " ++ str_of_int pos ++ ")".

(** The client, over the three things it calls that are not the
    repository's. *)
Section Client.

(** [json.loads]: the decoded value, or [None] when it raises
    [JSONDecodeError]. *)
Variable json_loads : str -> option pyobj.

(** [str(e)] of the error [json.loads] raises on a document. *)
Variable decoder_message : str -> str.

(** [self.client.messages.create(...)] *)
Variable create : request -> result (list content_block).

Definition loads (s : str) : result pyobj :=
  match json_loads s with
  | Some v => Return v
  | None => Raise (DecoderError s)
  end.

Definition _parse_json_response (response_text : str) : result pyobj :=
  (* Try direct JSON parse first *)
  match json_loads response_text with
  | Some v => Return v
  | None =>
    (* Try extracting JSON from markdown code blocks *)
    if contains "```json" response_text then
      let start := find response_text "```json" + 7 in
      let end_ := find_from response_text "```" start in
      let json_str := strip (slice response_text start end_) in
      loads json_str
    else if contains "```" response_text then
      let start := find response_text "```" + 3 in
      let end_ := find_from response_text "```" start in
      let json_str := strip (slice response_text start end_) in
      loads json_str
    else
      (* Last resort: try to find JSON object in text *)
      let start := find response_text "{" in
      let end_ := rfind response_text "}" + 1 in
      if negb (start =? -1) && (start <? end_) then
        let json_str := slice response_text start end_ in
        loads json_str
      else
        Raise (JSONDecodeError "Could not find valid JSON in response"
                 response_text 0)
  end.

Definition str_of_exn (e : exn) : str :=
  match e with
  | JSONDecodeError msg doc pos => errmsg msg doc pos
  | DecoderError doc => decoder_message doc
  | Error _ text => text
  end.

(** [message.content[0].text] *)
Definition first_text (content : list content_block) : result str :=
  match content with
  | [] => Raise (Error IndexError_ "list index out of range")
  | TextBlock t :: _ => Return t
  | OtherBlock c :: _ =>
    Raise (Error AttributeError_ ("'" ++ c ++ "' object has no attribute 'text'"))
  end.

(** The [except] clauses of [analyze_rfp], tried in the order they are
    written: the first whose class the exception is an instance of runs. *)
Definition analyze_rfp_handlers (e : exn) : exn :=
  if isinstance e APIError_ then
    Error Exception_ ("Claude API error: " ++ str_of_exn e)
  else if isinstance e APITimeoutError_ then
    Error Exception_ "Request timed out. Please try again."
  else if isinstance e JSONDecodeError_ then
    Error Exception_ ("Failed to parse Claude response as JSON: " ++ str_of_exn e)
  else if isinstance e Exception_ then
    Error Exception_ ("Unexpected error during RFP analysis: " ++ str_of_exn e)
  else e.

Definition analyze_rfp (pdf_base64 prompt : str) : result pyobj :=
  let body :=
    message ← create {| model := "claude-sonnet-4-20250514";
                        max_tokens := 16000;
                        media_type := "application/pdf";
                        document := pdf_base64;
                        text := prompt |};
    (* Extract text response *)
    response_text ← first_text message;
    (* Parse JSON response *)
    analysis ← _parse_json_response response_text;
    Return analysis in
  match body with
  | Return analysis => Return analysis
  | Raise e => Raise (analyze_rfp_handlers e)
  end.

End Client.
End ClaudeRFPClient.

(** ** Base 64

    [base64.standard_b64encode] belongs to Python's standard library: the
    encoding of RFC 4648, with the standard alphabet and [=] padding.  What
    it returns is ASCII, so that [.decode('utf-8')] gives one character per
    byte; the encoder below returns that text. *)
Module Base64.

Definition alphabet : str :=
  "ABCDEFGHIJKLMNOPQRSTUVWXYZabcdefghijklmnopqrstuvwxyz0123456789+/".

(** The character of a six-bit group. *)
Definition digit (n : N) : N := nth (N.to_nat n) alphabet 61%N.

(** [base64.standard_b64encode(data).decode('utf-8')] *)
Fixpoint standard_b64encode (data : list byte) : str :=
  match data with
  | a :: b :: c :: rest =>
    let n := ((Byte.to_N a * 256 + Byte.to_N b) * 256 + Byte.to_N c)%N in
    [digit (n / 262144); digit ((n / 4096) mod 64);
     digit ((n / 64) mod 64); digit (n mod 64)]%N
    ++ standard_b64encode rest
  | [a; b] =>
    let n := ((Byte.to_N a * 256 + Byte.to_N b) * 4)%N in
    [digit (n / 4096); digit ((n / 64) mod 64); digit (n mod 64); 61]%N
  | [a] =>
    let n := (Byte.to_N a * 16)%N in
    [digit (n / 64); digit (n mod 64); 61; 61]%N
  | [] => []
  end.

(** The six-bit group of a character of the alphabet. *)
Definition value_of (c : N) : option N :=
  option_map N.of_nat (index_of [c] alphabet).

Definition bytes_of (n : N) (count : nat) : option (list byte) :=
  match count with
  | 3%nat =>
    a ← Byte.of_N (n / 65536)%N; b ← Byte.of_N ((n / 256) mod 256)%N;
    c ← Byte.of_N (n mod 256)%N; Some [a; b; c]
  | 2%nat =>
    a ← Byte.of_N (n / 65536)%N; b ← Byte.of_N ((n / 256) mod 256)%N;
    Some [a; b]
  | _ => a ← Byte.of_N (n / 65536)%N; Some [a]
  end.

(** The bytes a base-64 text stands for: four characters give three bytes,
    and a last group padded with [=] gives two bytes, or one. *)
Fixpoint standard_b64decode (s : str) : option (list byte) :=
  match s with
  | [] => Some []
  | c0 :: c1 :: c2 :: c3 :: rest =>
    v0 ← value_of c0; v1 ← value_of c1;
    if (c3 =? 61)%N then
      match rest with
      | [] =>
        if (c2 =? 61)%N then bytes_of ((v0 * 64 + v1) * 4096) 1
        else v2 ← value_of c2; bytes_of (((v0 * 64 + v1) * 64 + v2) * 64) 2
      | _ => None
      end
    else
      v2 ← value_of c2; v3 ← value_of c3;
      group ← bytes_of (((v0 * 64 + v1) * 64 + v2) * 64 + v3) 3;
      more ← standard_b64decode rest;
      Some (group ++ more)
  | _ => None
  end.

End Base64.

(** ** utils/pdf_handler.py and the upload check of app.py *)
Module PdfHandler.

(** The uploaded file: a named in-memory byte stream with a read position. *)
Record UploadedFile := {
  name : str;
  getvalue : list byte;
  tell : Z
}.

(** [uploaded_file.seek(offset)] *)
Definition seek (offset : Z) (f : UploadedFile) : UploadedFile :=
  {| name := name f; getvalue := getvalue f; tell := offset |}.

(** What [PyPDF2.PdfReader(stream)] followed by [len(reader.pages)] comes
    to: the number of pages, or the exception raised on the way. *)
Inductive read_outcome :=
| PageCount (n : N)
| RaisesPdfReadError
| RaisesOther (text : str).

Section Reader.

(** The PDF reader, which is PyPDF2's: the outcome of reading the bytes, and
    the position it leaves the stream at. *)
Variable PdfReader : list byte -> read_outcome * Z.

(** [validate_pdf]: the pair it returns, and the stream after the call.
    The reader moves the position of the stream it reads; [seek(0)] runs on
    the path where the reader and [len(reader.pages)] have returned. *)
Definition validate_pdf (uploaded_file : UploadedFile)
  : (bool * str) * UploadedFile :=
  let '(outcome, position) := PdfReader (getvalue uploaded_file) in
  let uploaded_file := seek position uploaded_file in
  match outcome with
  | PageCount page_count =>
    (* Reset file pointer *)
    let uploaded_file := seek 0 uploaded_file in
    if (page_count =? 0)%N then
      ((false, "PDF appears to be empty (0 pages)"), uploaded_file)
    else ((true, ""), uploaded_file)
  | RaisesPdfReadError =>
    ((false, "File is not a valid PDF or is corrupted"), uploaded_file)
  | RaisesOther text =>
    ((false, "Error reading PDF: " ++ text), uploaded_file)
  end.

End Reader.

(** [uploaded_file.read()]: the bytes from the position on; the position
    moves to the end of the stream. *)
Definition read (f : UploadedFile) : list byte * UploadedFile :=
  (drop (Z.to_nat (tell f)) (getvalue f),
   seek (Z.max (tell f) (len (getvalue f))) f).

Section Conversion.
Variable PdfReader : list byte -> read_outcome * Z.

(** [str(e)] of the [PdfReadError] the reader raises on these bytes. *)
Variable read_error_text : list byte -> str.

(** [round(x, 2)] of the float [x]. *)
Variable round_2 : Q -> spec_float.

(** [pdf_to_base64]: what it returns or raises, and the stream after the
    call.  The reader is given a stream of its own, [BytesIO(pdf_bytes)]. *)
Definition pdf_to_base64 (uploaded_file : UploadedFile)
  : result (str * N) * UploadedFile :=
  (* Read the uploaded file *)
  let '(pdf_bytes, uploaded_file) := read uploaded_file in
  (* Get page count *)
  match fst (PdfReader pdf_bytes) with
  | PageCount page_count =>
    (* Convert to base64 *)
    let base64_pdf := Base64.standard_b64encode pdf_bytes in
    (* Reset file pointer for potential reuse *)
    let uploaded_file := seek 0 uploaded_file in
    (Return (base64_pdf, page_count), uploaded_file)
  | RaisesPdfReadError =>
    (Raise (Error Exception_
              ("Failed to process PDF: " ++ read_error_text pdf_bytes)),
     uploaded_file)
  | RaisesOther text =>
    (Raise (Error Exception_ ("Failed to process PDF: " ++ text)),
     uploaded_file)
  end.

(** [get_pdf_info]: the dictionary it returns.  Where the reader leaves
    the position of the stream is the reader's; [validate_pdf], which is
    called next, reads the stream whatever its position. *)
Definition get_pdf_info (uploaded_file : UploadedFile) : dict :=
  match fst (PdfReader (getvalue uploaded_file)) with
  | PageCount pages =>
    let file_size_mb :=
      (inject_Z (len (getvalue uploaded_file)) / inject_Z (1024 * 1024))%Q in
    [("name", PyStr (name uploaded_file));
     ("pages", PyInt (Z.of_N pages));
     ("size_mb", PyFloat (round_2 file_size_mb))]
  | RaisesPdfReadError =>
    [("name", PyStr (name uploaded_file));
     ("pages", PyInt 0);
     ("size_mb", PyInt 0);
     ("error", PyStr (read_error_text (getvalue uploaded_file)))]
  | RaisesOther text =>
    [("name", PyStr (name uploaded_file));
     ("pages", PyInt 0);
     ("size_mb", PyInt 0);
     ("error", PyStr text)]
  end.

End Conversion.
End PdfHandler.

Module App.
Import PdfHandler.

Section Upload.
Variable PdfReader : list byte -> read_outcome * Z.

(** [f"{x:.2f}"] *)
Variable format_2f : Q -> str.

(** [validate_file_upload]: the verdict, the messages shown with
    [st.error], and the stream after the check.  The size in MB is the
    quotient of the length by 2^20, which the float division of Python
    computes exactly for any length a stream can have; it is a rational
    here. *)
Definition validate_file_upload (uploaded_file : UploadedFile)
  : bool * list str * UploadedFile :=
  (* Check file size (10MB limit) *)
  let file_size_mb := (inject_Z (len (getvalue uploaded_file)) / inject_Z (1024 * 1024))%Q in
  if Qlt_le_dec 10 file_size_mb then
    (false,
     ["❌ File too large (" ++ format_2f file_size_mb ++ "MB). Maximum size is 10MB."],
     uploaded_file)
  else
    (* Validate PDF *)
    let '((is_valid, error_msg), uploaded_file) := validate_pdf PdfReader uploaded_file in
    if negb is_valid then (false, ["❌ " ++ error_msg], uploaded_file)
    else (true, [], uploaded_file).

End Upload.
End App.

(** ** utils/pdf_generator.py

    ReportLab lays the document out from a list of flowables, the "story";
    the story is what the generator decides, and it is the document here:
    what ReportLab does with a story (the markup it reads in a paragraph,
    the layout, the bytes) is its own.  A paragraph style is named, as in
    [self.styles[name]].  Lengths are in points. *)
Module RFPAnalysisGenerator.

Definition inch : Q := 72.

(** An argument of a table style command. *)
#[warnings="-register-all"]
Inductive style_arg :=
| HexColor (code : str)
| NamedColor (name : str)
| Word (w : str)
| Number (n : Z)
| Colors (l : list style_arg).

(** A table style command: its name, the cell range it applies to, its
    arguments. *)
Record style_command := {
  command : str;
  from_cell : Z * Z;
  to_cell : Z * Z;
  arguments : list style_arg
}.

Inductive flowable :=
| Spacer (width height : Q)
| Paragraph (text : str) (style : str)
| PageBreak
| Table (data : list (list pyobj)) (colWidths : list Q)
        (style : list style_command).

Definition timeline_table_style : list style_command :=
  let cmd c a b args :=
    {| command := c; from_cell := a; to_cell := b; arguments := args |} in
  [ (* Header styling *)
    cmd "BACKGROUND" (0, 0) (-1, 0) [HexColor "#2563eb"];
    cmd "TEXTCOLOR" (0, 0) (-1, 0) [NamedColor "whitesmoke"];
    cmd "ALIGN" (0, 0) (-1, -1) [Word "LEFT"];
    cmd "FONTNAME" (0, 0) (-1, 0) [Word "Helvetica-Bold"];
    cmd "FONTSIZE" (0, 0) (-1, 0) [Number 12];
    cmd "BOTTOMPADDING" (0, 0) (-1, 0) [Number 12];
    cmd "TOPPADDING" (0, 0) (-1, 0) [Number 12];
    (* Body styling *)
    cmd "FONTNAME" (0, 1) (-1, -1) [Word "Helvetica"];
    cmd "FONTSIZE" (0, 1) (-1, -1) [Number 11];
    cmd "ROWBACKGROUNDS" (0, 1) (-1, -1)
        [Colors [NamedColor "white"; HexColor "#f3f4f6"]];
    cmd "GRID" (0, 0) (-1, -1) [Number 1; HexColor "#d1d5db"];
    cmd "VALIGN" (0, 0) (-1, -1) [Word "MIDDLE"];
    cmd "PADDING" (0, 0) (-1, -1) [Number 10] ].

Section Generator.

(** [repr(o)], Python's, which is what [str(o)] gives for a float, a list
    and a dict. *)
Variable repr : pyobj -> str.

(** [str(o)] *)
Definition py_str (o : pyobj) : str :=
  match o with
  | PyStr s => s
  | PyNone => "None"
  | PyBool true => "True"
  | PyBool false => "False"
  | PyInt z => str_of_int z
  | PyFloat _ | PyList _ | PyDict _ => repr o
  end.

(** The bullets of a section: one paragraph per item. *)
Definition bullet (item : pyobj) : flowable :=
  (* Clean and format text *)
  let item_text := strip (py_str item) in
  Paragraph ("• " ++ item_text) "BulletText".

Definition _create_bullet_section (title : str) (items : pyobj)
    (intro : option str) : result (list flowable) :=
  (* Section header *)
  let elements := [Paragraph title "SectionHeader"] in
  (* Intro text if provided *)
  let elements :=
    match intro with
    | Some (c :: i) =>
      elements ++ [Paragraph (c :: i) "Normal"; Spacer 1 12]
    | _ => elements
    end in
  (* Bullet points *)
  elements ←
    (if truthy items then
       each ← py_iter items;
       Return (elements ++ map bullet each)
     else
       Return (elements ++ [Paragraph "No items identified." "Normal"]));
  Return (elements ++ [Spacer 1 20]).

(** The rows the loop of [_create_timeline_section] appends. *)
Fixpoint timeline_rows (items : list pyobj) : result (list (list pyobj)) :=
  match items with
  | [] => Return []
  | item :: rest =>
    event ← py_get item "event" (PyStr "Unknown Event");
    date ← py_get item "date" (PyStr "TBD");
    rows ← timeline_rows rest;
    Return ([event; date] :: rows)
  end.

Definition _create_timeline_section (timeline : pyobj)
  : result (list flowable) :=
  (* Section header *)
  let elements :=
    [Paragraph "Timeline & Key Dates" "SectionHeader";
     Paragraph "Important milestones and deadlines:" "Normal";
     Spacer 1 12] in
  nonempty ←
    (if truthy timeline then n ← py_len timeline; Return (0 <? n)
     else Return false);
  elements ←
    (if (nonempty : bool) then
       (* Prepare table data *)
       let table_data := [[PyStr "Event"; PyStr "Date"]] in
       items ← py_iter timeline;
       rows ← timeline_rows items;
       (* Create table *)
       let table := Table (table_data ++ rows) [4 * inch; 2 * inch]%Q
                          timeline_table_style in
       Return (elements ++ [table])
     else
       Return (elements ++
               [Paragraph "No timeline information available." "Normal"]));
  Return (elements ++ [Spacer 1 20]).

(** [generate_analysis_pdf]; [now] is
    [datetime.now().strftime('%B %d, %Y at %I:%M %p')]. *)
Definition generate_analysis_pdf (analysis : pyobj) (rfp_filename : str)
    (now : str) : result (list flowable) :=
  (* Title page *)
  let story :=
    [Spacer 1 (1.5 * inch);
     Paragraph "RFP Analysis Report" "CustomTitle";
     Spacer 1 (0.3 * inch);
     Paragraph ("Source: " ++ rfp_filename) "Metadata";
     Paragraph ("Generated: " ++ now) "Metadata";
     PageBreak] in
  (* Section 1: Client Problems *)
  items ← py_get analysis "client_problems" (PyList []);
  section ← _create_bullet_section "Client Problems & Challenges" items
    (Some "Key issues and challenges the client is trying to resolve:");
  let story := story ++ section in
  (* Section 2: Requirements *)
  items ← py_get analysis "requirements" (PyList []);
  section ← _create_bullet_section "Specific Requirements" items
    (Some "Must-have requirements, deliverables, and constraints:");
  let story := story ++ section in
  (* Section 3: Gotchas *)
  items ← py_get analysis "gotchas" (PyList []);
  section ← _create_bullet_section "Gotchas & Ambiguities" items
    (Some "Red-flag items that need clarification:");
  let story := story ++ section in
  (* Section 4: Timeline *)
  timeline ← py_get analysis "timeline" (PyList []);
  section ← _create_timeline_section timeline;
  let story := story ++ section in
  (* Build PDF *)
  Return story.

End Generator.
End RFPAnalysisGenerator.

(** ** utils/excel_generator.py

    A worksheet is the cells written so far, by column letter and row
    number, with the merged ranges and the column widths.  A cell keeps
    the value assigned to it; what openpyxl checks or converts when a value
    is assigned, and the bytes it saves, are its own. *)
Module RFPExcelGenerator.

Inductive column := col_A | col_B | col_C.

#[global] Instance column_eq_dec : EqDecision column.
Proof. solve_decision. Defined.

#[global] Instance column_countable : Countable column.
Proof.
  refine (inj_countable'
            (fun c => match c with col_A => 0%nat | col_B => 1%nat | col_C => 2%nat end)
            (fun n => match n with O => col_A | S O => col_B | _ => col_C end) _).
  intros []; reflexivity.
Defined.

Record Font := {
  bold : bool;
  italic : bool;
  size : Z;
  color : option str
}.

Record PatternFill := {
  start_color : str;
  end_color : str;
  fill_type : str
}.

Record Alignment := {
  horizontal : option str;
  vertical : option str;
  wrap_text : bool
}.

(** The line style of the four sides. *)
Record Border := {
  left : str;
  right : str;
  top : str;
  bottom : str
}.

Record cell := {
  value : pyobj;
  font : option Font;
  fill : option PatternFill;
  alignment : option Alignment;
  border : option Border
}.

Definition empty_cell : cell :=
  {| value := PyNone; font := None; fill := None; alignment := None;
     border := None |}.

Record worksheet := {
  cells : gmap (column * Z) cell;
  merged_cells : list str;
  column_width : gmap column Z
}.

Definition empty_sheet : worksheet :=
  {| cells := ∅; merged_cells := []; column_width := ∅ |}.

(** [ws[coordinate]]: the cell, which exists from then on. *)
Definition get_cell (ws : worksheet) (coord : column * Z) : cell :=
  default empty_cell (cells ws !! coord).

Definition update_cell (f : cell -> cell) (coord : column * Z)
    (ws : worksheet) : worksheet :=
  {| cells := <[coord := f (get_cell ws coord)]> (cells ws);
     merged_cells := merged_cells ws;
     column_width := column_width ws |}.

(** [ws[coordinate] = v] *)
Definition set_value (coord : column * Z) (v : pyobj) : worksheet -> worksheet :=
  update_cell (fun c => {| value := v; font := font c; fill := fill c;
                           alignment := alignment c; border := border c |}) coord.

(** [ws[coordinate].font = f], and likewise for the other styles. *)
Definition set_font (coord : column * Z) (f : Font) : worksheet -> worksheet :=
  update_cell (fun c => {| value := value c; font := Some f; fill := fill c;
                           alignment := alignment c; border := border c |}) coord.

Definition set_fill (coord : column * Z) (f : PatternFill) : worksheet -> worksheet :=
  update_cell (fun c => {| value := value c; font := font c; fill := Some f;
                           alignment := alignment c; border := border c |}) coord.

Definition set_alignment (coord : column * Z) (a : Alignment) : worksheet -> worksheet :=
  update_cell (fun c => {| value := value c; font := font c; fill := fill c;
                           alignment := Some a; border := border c |}) coord.

Definition set_border (coord : column * Z) (b : Border) : worksheet -> worksheet :=
  update_cell (fun c => {| value := value c; font := font c; fill := fill c;
                           alignment := alignment c; border := Some b |}) coord.

(** [ws.merge_cells(range)] *)
Definition merge_cells (range : str) (ws : worksheet) : worksheet :=
  {| cells := cells ws; merged_cells := merged_cells ws ++ [range];
     column_width := column_width ws |}.

(** [ws.column_dimensions[c].width = w] *)
Definition set_width (c : column) (w : Z) (ws : worksheet) : worksheet :=
  {| cells := cells ws; merged_cells := merged_cells ws;
     column_width := <[c := w]> (column_width ws) |}.

(** The styles [__init__] prepares. *)
Definition header_fill : PatternFill :=
  {| start_color := "2563EB"; end_color := "2563EB"; fill_type := "solid" |}.

Definition header_font : Font :=
  {| bold := true; italic := false; size := 12; color := Some "FFFFFF" |}.

Definition thin_border : Border :=
  {| left := "thin"; right := "thin"; top := "thin"; bottom := "thin" |}.

(** [for col in ['A', 'B', 'C']: ...] *)
Definition for_columns (body : column -> worksheet -> worksheet)
    (ws : worksheet) : worksheet :=
  foldl (fun ws col => body col ws) ws [col_A; col_B; col_C].

(** The title and the two metadata lines both sheets start with. *)
Definition sheet_heading (title rfp_filename now : str) (ws : worksheet)
  : worksheet :=
  (* Title *)
  let ws := set_value (col_A, 1) (PyStr title) ws in
  let ws := set_font (col_A, 1)
              {| bold := true; italic := false; size := 16; color := None |} ws in
  let ws := merge_cells "A1:C1" ws in
  (* Metadata *)
  let ws := set_value (col_A, 2) (PyStr ("RFP: " ++ rfp_filename)) ws in
  let ws := set_font (col_A, 2)
              {| bold := false; italic := true; size := 10; color := None |} ws in
  let ws := merge_cells "A2:C2" ws in
  let ws := set_value (col_A, 3) (PyStr ("Generated: " ++ now)) ws in
  let ws := set_font (col_A, 3)
              {| bold := false; italic := true; size := 10; color := None |} ws in
  merge_cells "A3:C3" ws.

(** The header row of a sheet, at [row]. *)
Definition header_row (row : Z) (a b c : str) (ws : worksheet) : worksheet :=
  let ws := set_value (col_A, row) (PyStr a) ws in
  let ws := set_value (col_B, row) (PyStr b) ws in
  let ws := set_value (col_C, row) (PyStr c) ws in
  for_columns (fun col ws =>
    let ws := set_fill (col, row) header_fill ws in
    let ws := set_font (col, row) header_font ws in
    let ws := set_alignment (col, row)
                {| horizontal := Some "center"; vertical := Some "center";
                   wrap_text := false |} ws in
    set_border (col, row) thin_border ws) ws.

(** The formatting every data row gets. *)
Definition format_row (row : Z) (ws : worksheet) : worksheet :=
  (* Apply formatting *)
  let ws := for_columns (fun col ws =>
    let ws := set_border (col, row) thin_border ws in
    set_alignment (col, row)
      {| horizontal := None; vertical := Some "top"; wrap_text := true |} ws) ws in
  set_alignment (col_A, row)
    {| horizontal := Some "center"; vertical := Some "top"; wrap_text := false |} ws.

(** [enumerate(items, start)] *)
Fixpoint enumerate (items : list pyobj) (start : Z) : list (Z * pyobj) :=
  match items with
  | [] => []
  | x :: rest => (start, x) :: enumerate rest (start + 1)
  end.

(** The data rows of the "Next Steps" sheet: the body of its loop, run
    over the enumerated steps from [row] on. *)
Fixpoint next_steps_rows (steps : list (Z * pyobj)) (row : Z)
    (ws : worksheet) : worksheet :=
  match steps with
  | [] => ws
  | (idx, step) :: rest =>
    let ws := set_value (col_A, row) (PyInt idx) ws in
    let ws := set_value (col_B, row) step ws in
    let ws := set_value (col_C, row) (PyStr "Pending") ws in
    let ws := format_row row ws in
    next_steps_rows rest (row + 1) ws
  end.

(** [now] is [datetime.now().strftime('%Y-%m-%d %H:%M')]. *)
Definition _create_next_steps_sheet (ws : worksheet) (next_steps : pyobj)
    (rfp_filename now : str) : result worksheet :=
  let ws := sheet_heading "Next Steps for Proposal Team" rfp_filename now ws in
  (* Header row *)
  let row := 5 in
  let ws := header_row row "#" "Action Item" "Status" ws in
  (* Data rows *)
  let row := row + 1 in
  steps ← py_iter next_steps;
  let ws := next_steps_rows (enumerate steps 1) row ws in
  (* Column widths *)
  let ws := set_width col_A 8 ws in
  let ws := set_width col_B 70 ws in
  let ws := set_width col_C 15 ws in
  Return ws.

Fixpoint alignment_questions_rows (questions : list (Z * pyobj)) (row : Z)
    (ws : worksheet) : worksheet :=
  match questions with
  | [] => ws
  | (idx, question) :: rest =>
    let ws := set_value (col_A, row) (PyInt idx) ws in
    let ws := set_value (col_B, row) question ws in
    (* Empty for team to fill in *)
    let ws := set_value (col_C, row) (PyStr "") ws in
    let ws := format_row row ws in
    (* Add light background for answer column *)
    let ws := set_fill (col_C, row)
                {| start_color := "F3F4F6"; end_color := "F3F4F6";
                   fill_type := "solid" |} ws in
    alignment_questions_rows rest (row + 1) ws
  end.

Definition _create_alignment_questions_sheet (ws : worksheet)
    (questions : pyobj) (rfp_filename now : str) : result worksheet :=
  let ws := sheet_heading "Strategic Alignment Questions" rfp_filename now ws in
  (* Header row *)
  let row := 5 in
  let ws := header_row row "#" "Question" "Answer / Notes" ws in
  (* Data rows *)
  let row := row + 1 in
  items ← py_iter questions;
  let ws := alignment_questions_rows (enumerate items 1) row ws in
  (* Column widths *)
  let ws := set_width col_A 8 ws in
  let ws := set_width col_B 50 ws in
  let ws := set_width col_C 50 ws in
  Return ws.

(** A workbook: its sheets, by title, in tab order. *)
Definition workbook := list (str * worksheet).

(** [Workbook()] comes with one sheet, the active one. *)
Definition Workbook : workbook := [("Sheet", empty_sheet)].

(** [wb.remove(wb.active)] *)
Definition remove_active (wb : workbook) : workbook := tail wb.

Definition generate_workbook (next_steps alignment_questions : pyobj)
    (rfp_filename now : str) : result workbook :=
  let wb := Workbook in
  (* Remove default sheet *)
  let wb := remove_active wb in
  (* Tab 1: Next Steps *)
  ws_steps ← _create_next_steps_sheet empty_sheet next_steps rfp_filename now;
  let wb := wb ++ [("Next Steps", ws_steps)] in
  (* Tab 2: Alignment Questions *)
  ws_questions ← _create_alignment_questions_sheet empty_sheet
                   alignment_questions rfp_filename now;
  let wb := wb ++ [("Alignment Questions", ws_questions)] in
  (* Save to buffer *)
  Return wb.

(** Reading a sheet back, as [ws.max_row] and
    [ws.iter_rows(min_row, values_only=True)] do: the rows from [min_row]
    to the last row that has a cell, each as the values of its three
    columns ([None] where there is no cell). *)
Definition max_row (ws : worksheet) : Z :=
  map_fold (fun coord _ m => Z.max (snd coord) m) 1 (cells ws).

Definition row_values (ws : worksheet) (row : Z) : pyobj * pyobj * pyobj :=
  (value (get_cell ws (col_A, row)),
   value (get_cell ws (col_B, row)),
   value (get_cell ws (col_C, row))).

Definition iter_rows (ws : worksheet) (min_row : Z)
  : list (pyobj * pyobj * pyobj) :=
  map (row_values ws) (seqZ min_row (max_row ws - min_row + 1)).

(** [wb[title]] *)
Fixpoint sheet (wb : workbook) (title : str) : option worksheet :=
  match wb with
  | [] => None
  | (t, ws) :: rest => if bool_decide (t = title) then Some ws else sheet rest title
  end.

(** The rows of a sheet are within [last]. *)
Definition rows_within (ws : worksheet) (last : Z) : Prop :=
  forall c r, is_Some (cells ws !! (c, r)) -> r <= last.

(** One data row: the three values written at [row], then its format. *)
Definition written (row : Z) (a b c : pyobj) (ws : worksheet) : worksheet :=
  format_row row
    (set_value (col_C, row) c
       (set_value (col_B, row) b (set_value (col_A, row) a ws))).

(** Unfolds the helpers of the two sheet builders down to single cell
    updates. *)
Ltac sheet_updates :=
  unfold format_row, header_row, sheet_heading, for_columns,
    set_value, set_font, set_fill, set_alignment, set_border;
  cbn [foldl].

End RFPExcelGenerator.
(** ** More Python text: [str.replace] *)
Module PyReplace.

(** The scan of [s.replace(old, new)] for a non-empty [old]: occurrences
    are replaced from the left and do not overlap; [skip] counts the
    characters of an occurrence that are still to be passed over. *)
Fixpoint replace_from (old new : str) (skip : nat) (s : str) : str :=
  match s with
  | [] => []
  | c :: t =>
    match skip with
    | S k => replace_from old new k t
    | O =>
      if startswith old s
      then new ++ replace_from old new (length old - 1) t
      else c :: replace_from old new O t
    end
  end.

(** [s.replace(old, new)]; an empty [old] matches before every character
    and at the end. *)
Definition replace (s old new : str) : str :=
  match old with
  | [] => new ++ flat_map (fun c => c :: new) s
  | _ => replace_from old new O s
  end.

End PyReplace.
Export PyReplace.

(** ** Streamlit: what a run of the script shows

    The calls of the [st] module are kept in the order they are made, each
    with the container it is made in.  A function of app.py is a
    computation that shows elements, may change a state, and returns or
    raises. *)
Module Streamlit.

Inductive container :=
| page
| column (i : nat)
| inside (expander_label : str).

Inductive element :=
| st_title (body : str)
| st_markdown (body : str)
| st_subheader (body : str)
| st_divider
| st_columns (n : nat)
| st_expander (label : str) (expanded : bool)
| st_metric (label : str) (value : pyobj)
| st_write (body : str)
| st_info (body : str)
| st_warning (body : str)
| st_success (body : str)
| st_error (body : str)
| st_caption (body : str)
| st_file_uploader (label : str)
| st_button (label : str)
| st_download_button (label : str) (data : list byte) (file_name mime : str)
| st_progress (value : Z)
| st_empty
| progress_bar_progress (value : Z)
| progress_bar_empty
| status_text_text (body : str)
| status_text_empty.

Definition shown := list (container * element).

Record ui (S A : Type) := UI { run : S -> shown * S * result A }.
Arguments UI {S A} _.
Arguments run {S A} _ _.

Section Monad.
Context {S : Type}.

#[global] Instance ui_bind : MBind (ui S) := fun A B k m =>
  UI (fun s =>
    match run m s with
    | (log, s, Return a) =>
      let '(log', s, r) := run (k a) s in (log ++ log', s, r)
    | (log, s, Raise e) => (log, s, Raise e)
    end).

#[global] Instance ui_ret : MRet (ui S) := fun A a =>
  UI (fun s => ([], s, Return a)).

(** A call of [st] made in a container. *)
Definition show (place : container) (e : element) : ui S unit :=
  UI (fun s => ([(place, e)], s, Return tt)).

(** A call that shows nothing and leaves the state. *)
Definition lift {A} (r : result A) : ui S A := UI (fun s => ([], s, r)).

(** A call that reads or changes the state. *)
Definition on_state {A} (f : S -> result A * S) : ui S A :=
  UI (fun s => let '(r, s) := f s in ([], s, r)).

Definition get_state : ui S S := UI (fun s => ([], s, Return s)).

(** [try: body except Exception as e: handler(e)] *)
Definition try_except {A} (body : ui S A) (handler : exn -> ui S A) : ui S A :=
  UI (fun s =>
    match run body s with
    | (log, s, Return a) => (log, s, Return a)
    | (log, s, Raise e) =>
      if isinstance e Exception_ then
        let '(log', s, r) := run (handler e) s in (log ++ log', s, r)
      else (log, s, Raise e)
    end).

(** [for x in items: body(x)] *)
Fixpoint for_each {A} (items : list A) (body : A -> ui S unit) : ui S unit :=
  match items with
  | [] => mret tt
  | x :: rest => body x;; for_each rest body
  end.

End Monad.

#[global] Instance container_eq_dec : EqDecision container.
Proof. solve_decision. Defined.

(** The elements shown in a container, in order. *)
Definition shown_in (place : container) (log : shown) : list element :=
  omap (fun '(c, e) => if bool_decide (c = place) then Some e else None) log.

(** The messages shown with [st.error]. *)
Definition errors (log : shown) : list str :=
  omap (fun '(_, e) => match e with st_error body => Some body | _ => None end) log.

End Streamlit.

(** ** prompts/rfp_prompts.py *)
Module Prompts.

(** [get_rfp_analysis_prompt()]: the text of the request.  (The literal is
    cut at its apostrophe, since [qq] reads a single quote as a double
    one.) *)
Definition get_rfp_analysis_prompt : str :=
  qq "You are an expert RFP analyst helping consulting teams quickly understand and respond to Requests for Proposals.

Analyze this RFP document thoroughly and extract the following information:

1. **Client Problems** (3-7 items): Identify the core issues, challenges, or pain points the client is trying to resolve. Look for business problems, operational challenges, strategic goals, or gaps they"
  ++ "'" ++
  qq "re trying to fill.

2. **Specific Requirements** (comprehensive list): Extract ALL must-have requirements, deliverables, technical specifications, compliance needs, and constraints. Include:
   - Technical requirements
   - Functional requirements
   - Deliverables and milestones
   - Team qualifications
   - Compliance/regulatory requirements
   - Budget constraints
   - Format requirements

3. **Gotchas & Ambiguities** (critical items): Identify red flags, unclear specifications, contradictory requirements, unrealistic expectations, missing information, or items that need clarification before proposal submission.

4. **Timeline** (all dates): Extract every important date mentioned:
   - Q&A deadline
   - Proposal submission deadline
   - Project start date
   - Project end date
   - Milestones
   - Other relevant dates

5. **Next Steps** (3-5 action items): Recommend specific, actionable steps for the proposal team to take immediately. Be concrete and tactical.

6. **Alignment Questions** (3-5 strategic questions): Generate the most important strategic questions the team should discuss and answer before drafting the proposal. These should help clarify positioning, approach, team composition, and win strategy.

Return your analysis in STRICT JSON format with this exact structure:

{
  'client_problems': [
    'Problem statement 1',
    'Problem statement 2'
  ],
  'requirements': [
    'Requirement 1',
    'Requirement 2'
  ],
  'gotchas': [
    'Gotcha/ambiguity 1',
    'Gotcha/ambiguity 2'
  ],
  'timeline': [
    {
      'event': 'Q&A Deadline',
      'date': 'YYYY-MM-DD'
    },
    {
      'event': 'Proposal Submission',
      'date': 'YYYY-MM-DD'
    }
  ],
  'next_steps': [
    'Action item 1',
    'Action item 2'
  ],
  'alignment_questions': [
    'Strategic question 1?',
    'Strategic question 2?'
  ]
}

IMPORTANT: 
- Return ONLY the JSON object, no other text
- Use double quotes for JSON strings
- Ensure all dates are in YYYY-MM-DD format
- If a section has no clear information, include an empty array []
- Be thorough and specific in your analysis".

End Prompts.

(** ** app.py: the pipeline, the summary and the downloads *)
Module AppFlow.
Import PdfHandler Streamlit.

Section Pipeline.

(** The client: the decoder, the text of its errors and the endpoint. *)
Variable json_loads : str -> option pyobj.
Variable decoder_message : str -> str.
Variable create : ClaudeRFPClient.request -> result (list ClaudeRFPClient.content_block).

(** The PDF reader and the text of its [PdfReadError]. *)
Variable PdfReader : list byte -> read_outcome * Z.
Variable read_error_text : list byte -> str.

(** [RFPAnalysisGenerator().generate_analysis_pdf(analysis, name)] and
    [RFPExcelGenerator().generate_workbook(steps, questions, name)], down to
    the bytes of the buffer they return. *)
Variable generate_analysis_pdf : pyobj -> str -> result (list byte).
Variable generate_workbook : pyobj -> pyobj -> str -> result (list byte).

(** [process_rfp]: the state is the uploaded file; the value returned is
    the triple, or [None] for [(None, None, None)].  [time.sleep(1)] shows
    nothing and changes nothing. *)
Definition process_rfp : ui UploadedFile (option (pyobj * list byte * list byte)) :=
  show page (st_progress 0);;
  show page st_empty;;
  try_except
    ((* Step 1: PDF conversion *)
     show page (status_text_text "📄 Converting PDF to base64...");;
     show page (progress_bar_progress 15);;
     converted ← on_state (pdf_to_base64 PdfReader read_error_text);
     let '(pdf_base64, page_count) := converted in
     show page (st_success ("✅ Loaded PDF with "
                            ++ str_of_int (Z.of_N page_count) ++ " pages"));;
     (* Step 2: Claude analysis *)
     show page (status_text_text
       "🤖 Analyzing RFP with Claude AI (this may take 20-40 seconds)...");;
     show page (progress_bar_progress 30);;
     let prompt := Prompts.get_rfp_analysis_prompt in
     analysis ← lift (ClaudeRFPClient.analyze_rfp json_loads decoder_message
                        create pdf_base64 prompt);
     (* Validate structure *)
     lift (ClaudeRFPClient.validate_analysis_structure analysis);;
     show page (progress_bar_progress 60);;
     show page (st_success "✅ Analysis complete!");;
     (* Step 3: Generate PDF report *)
     show page (status_text_text "📝 Generating PDF analysis report...");;
     show page (progress_bar_progress 75);;
     uploaded_file ← get_state;
     pdf_buffer ← lift (generate_analysis_pdf analysis (name uploaded_file));
     (* Step 4: Generate Excel workbook *)
     show page (status_text_text "📊 Generating Excel alignment questions...");;
     show page (progress_bar_progress 90);;
     next_steps ← lift (py_get analysis "next_steps" (PyList []));
     alignment_questions ←
       lift (py_get analysis "alignment_questions" (PyList []));
     excel_buffer ← lift (generate_workbook next_steps alignment_questions
                            (name uploaded_file));
     show page (progress_bar_progress 100);;
     show page (status_text_text "✅ All files generated successfully!");;
     (* Clear progress indicators after a moment *)
     show page progress_bar_empty;;
     show page status_text_empty;;
     mret (Some (analysis, pdf_buffer, excel_buffer)))
    (fun e =>
     show page progress_bar_empty;;
     show page status_text_empty;;
     show page (st_error ("❌ Error during processing: "
                          ++ ClaudeRFPClient.str_of_exn decoder_message e));;
     mret None).

End Pipeline.

Section Pages.
Context {S : Type}.

(** [repr(o)], as in the report generator. *)
Variable repr : pyobj -> str.

(** [f"{i}. {item}"] *)
Definition numbered (line : Z * pyobj) : str :=
  str_of_int (fst line) ++ ". " ++ RFPAnalysisGenerator.py_str repr (snd line).

(** [display_analysis_summary] *)
Definition display_analysis_summary (analysis : pyobj) : ui S unit :=
  show page (st_subheader "📋 Analysis Summary");;
  (* Create columns for metrics *)
  show page (st_columns 4);;
  items ← lift (py_get analysis "client_problems" (PyList []));
  n ← lift (py_len items);
  show (column 0) (st_metric "Client Problems" (PyInt n));;
  items ← lift (py_get analysis "requirements" (PyList []));
  n ← lift (py_len items);
  show (column 1) (st_metric "Requirements" (PyInt n));;
  items ← lift (py_get analysis "gotchas" (PyList []));
  n ← lift (py_len items);
  show (column 2) (st_metric "Gotchas" (PyInt n));;
  items ← lift (py_get analysis "timeline" (PyList []));
  n ← lift (py_len items);
  show (column 3) (st_metric "Timeline Events" (PyInt n));;
  show page st_divider;;
  (* Expandable sections *)
  show page (st_expander "🎯 Client Problems" true);;
  problems ← lift (py_get analysis "client_problems" (PyList []));
  (if truthy problems then
     each ← lift (py_iter problems);
     for_each (RFPExcelGenerator.enumerate each 1) (fun line =>
       show (inside "🎯 Client Problems") (st_write (numbered line)))
   else
     show (inside "🎯 Client Problems") (st_info "No client problems identified"));;
  show page (st_expander "📝 Specific Requirements" false);;
  requirements ← lift (py_get analysis "requirements" (PyList []));
  (if truthy requirements then
     each ← lift (py_iter requirements);
     for_each (RFPExcelGenerator.enumerate each 1) (fun line =>
       show (inside "📝 Specific Requirements") (st_write (numbered line)))
   else
     show (inside "📝 Specific Requirements") (st_info "No requirements identified"));;
  show page (st_expander "⚠️ Gotchas & Ambiguities" false);;
  gotchas ← lift (py_get analysis "gotchas" (PyList []));
  (if truthy gotchas then
     each ← lift (py_iter gotchas);
     for_each (RFPExcelGenerator.enumerate each 1) (fun line =>
       show (inside "⚠️ Gotchas & Ambiguities") (st_warning (numbered line)))
   else
     show (inside "⚠️ Gotchas & Ambiguities")
       (st_success "No major gotchas identified"));;
  show page (st_expander "📅 Timeline" false);;
  timeline ← lift (py_get analysis "timeline" (PyList []));
  (if truthy timeline then
     each ← lift (py_iter timeline);
     for_each each (fun item =>
       event ← lift (py_get item "event" (PyStr "Unknown"));
       date ← lift (py_get item "date" (PyStr "TBD"));
       show (inside "📅 Timeline")
         (st_write ("**" ++ RFPAnalysisGenerator.py_str repr event ++ ":** "
                    ++ RFPAnalysisGenerator.py_str repr date)))
   else
     show (inside "📅 Timeline") (st_info "No timeline information available")).

(** [create_download_section]; [timestamp] is
    [datetime.now().strftime("%Y%m%d_%H%M%S")]. *)
Definition create_download_section (pdf_buffer excel_buffer : list byte)
    (filename timestamp : str) : ui S unit :=
  show page (st_subheader "⬇️ Download Results");;
  (* Generate clean filenames *)
  let base_name := replace (replace filename ".pdf" "") " " "_" in
  show page (st_columns 2);;
  show (column 0)
    (st_download_button "📄 Download PDF Analysis" pdf_buffer
       (base_name ++ "_analysis_" ++ timestamp ++ ".pdf") "application/pdf");;
  show (column 0)
    (st_caption "Structured analysis with client problems, requirements, gotchas, and timeline");;
  show (column 1)
    (st_download_button "📊 Download Excel Report" excel_buffer
       (base_name ++ "_alignment_" ++ timestamp ++ ".xlsx")
       "application/vnd.openxmlformats-officedocument.spreadsheetml.sheet");;
  show (column 1)
    (st_caption "Next steps and strategic alignment questions for your team").

End Pages.
End AppFlow.


(** ** What the branches of [_parse_json_response] decode

    The text each fence branch hands to [json.loads]: from the end of the
    marker to [find("```", start)], which is [-1] when no fence follows;
    the slice then ends one character before the end of the reply. *)
Module Picks.

(** The [if "```json" in response_text] branch. *)
Definition tagged (reply : str) : option str :=
  if contains "```json" reply then
    let start := find reply "```json" + 7 in
    Some (strip (slice reply start (find_from reply "```" start)))
  else None.

(** The [elif "```" in response_text] branch, as it reads the reply; it
    runs when the first branch does not. *)
Definition fenced (reply : str) : option str :=
  if contains "```" reply then
    let start := find reply "```" + 3 in
    Some (strip (slice reply start (find_from reply "```" start)))
  else None.

End Picks.

(** ** The recovery algorithm as the specification words it

    "Try, in order, until one succeeds": the four strategies are four ways
    to pick a text out of the reply, each of which may not apply, and the
    reply is recovered by the first pick that decodes.  The picks follow
    the words of the specification: a fenced text lies between a marker
    and the next fence, so that a marker no fence follows gives no text. *)
Module RecoverySpec.

(** The text between a [```json] tag and the next fence, trimmed. *)
Definition tagged_fence (reply : str) : option str :=
  if contains "```json" reply then
    let start := find reply "```json" + 7 in
    let next := find_from reply "```" start in
    if next =? -1 then None else Some (strip (slice reply start next))
  else None.

(** The text between the first two fence markers, trimmed. *)
Definition first_fence (reply : str) : option str :=
  if contains "```" reply then
    let start := find reply "```" + 3 in
    let next := find_from reply "```" start in
    if next =? -1 then None else Some (strip (slice reply start next))
  else None.

(** A reply whose fence, if it opens one, is closed: a fence follows the
    [```json] tag when there is a tag, and the first marker otherwise. *)
Definition fence_closed (reply : str) : bool :=
  if contains "```json" reply then
    negb (find_from reply "```" (find reply "```json" + 7) =? -1)
  else if contains "```" reply then
    negb (find_from reply "```" (find reply "```" + 3) =? -1)
  else true.

(** The text from the first [{] to the last [}], inclusive. *)
Definition braces (reply : str) : option str :=
  let start := find reply "{" in
  let end_ := rfind reply "}" + 1 in
  if negb (start =? -1) && (start <? end_) then Some (slice reply start end_)
  else None.

Definition strategies (reply : str) : list (option str) :=
  [Some reply; tagged_fence reply; first_fence reply; braces reply].

Section Chain.
Variable json_loads : str -> option pyobj.

Fixpoint first_success (picks : list (option str)) : option pyobj :=
  match picks with
  | [] => None
  | None :: rest => first_success rest
  | Some text :: rest =>
    match json_loads text with
    | Some v => Some v
    | None => first_success rest
    end
  end.

Definition recovery (reply : str) : option pyobj :=
  first_success (strategies reply).

End Chain.

(** The value a call returned, if it returned. *)
Definition returned {A} (r : result A) : option A :=
  match r with Return a => Some a | Raise _ => None end.

End RecoverySpec.

(** ** The report as the specification describes it

    What the story of a well-formed analysis is: the title page, the three
    bulleted sections and the timeline section, a key that is absent
    counting as an empty sequence. *)
Module ReportSpec.
Import RFPAnalysisGenerator.

(** The row of one timeline record: its event and its date, with the
    substitutions for a missing field. *)
Definition timeline_row (entry : dict) : list pyobj :=
  [default (PyStr "Unknown Event") (dict_get "event" entry);
   default (PyStr "TBD") (dict_get "date" entry)].

(** The tables of a story, each as its rows. *)
Definition tables (story : list flowable) : list (list (list pyobj)) :=
  omap (fun f => match f with Table data _ _ => Some data | _ => None end) story.

Definition title_page (rfp_filename now : str) : list flowable :=
  [Spacer 1 (1.5 * inch);
   Paragraph "RFP Analysis Report" "CustomTitle";
   Spacer 1 (0.3 * inch);
   Paragraph ("Source: " ++ rfp_filename) "Metadata";
   Paragraph ("Generated: " ++ now) "Metadata";
   PageBreak].

Section Sections.
Variable repr : pyobj -> str.

(** A bulleted section: heading, intro line, one bullet per item or the
    "no items" line, closing space. *)
Definition bullet_section (title intro : str) (items : list pyobj)
  : list flowable :=
  [Paragraph title "SectionHeader"; Paragraph intro "Normal"; Spacer 1 12]
  ++ match items with
     | [] => [Paragraph "No items identified." "Normal"]
     | _ => map (bullet repr) items
     end
  ++ [Spacer 1 20].

Definition timeline_section (entries : list dict) : list flowable :=
  [Paragraph "Timeline & Key Dates" "SectionHeader";
   Paragraph "Important milestones and deadlines:" "Normal";
   Spacer 1 12]
  ++ match entries with
     | [] => [Paragraph "No timeline information available." "Normal"]
     | _ => [Table ([PyStr "Event"; PyStr "Date"] :: map timeline_row entries)
                   [4 * inch; 2 * inch]%Q timeline_table_style]
     end
  ++ [Spacer 1 20].

(** The items under a key of the analysis: those of its list, none when
    the key is absent. *)
Definition items_of (key : str) (analysis : dict) : list pyobj :=
  match dict_get key analysis with
  | Some (PyList l) => l
  | _ => []
  end.

Definition records_of (key : str) (analysis : dict) : list dict :=
  omap (fun o => match o with PyDict e => Some e | _ => None end)
       (items_of key analysis).

Definition report (analysis : dict) (rfp_filename now : str) : list flowable :=
  title_page rfp_filename now
  ++ bullet_section "Client Problems & Challenges"
       "Key issues and challenges the client is trying to resolve:"
       (items_of "client_problems" analysis)
  ++ bullet_section "Specific Requirements"
       "Must-have requirements, deliverables, and constraints:"
       (items_of "requirements" analysis)
  ++ bullet_section "Gotchas & Ambiguities"
       "Red-flag items that need clarification:"
       (items_of "gotchas" analysis)
  ++ timeline_section (records_of "timeline" analysis).

End Sections.

(** An analysis whose lists are lists and whose timeline entries are
    records, whichever of its keys are present. *)
Definition well_shaped (analysis : dict) : Prop :=
  (forall key v, key ∈ ["client_problems"; "requirements"; "gotchas"] ->
     dict_get key analysis = Some v -> exists l, v = PyList l) /\
  (forall v, dict_get "timeline" analysis = Some v ->
     exists entries : list dict, v = PyList (map PyDict entries)).

End ReportSpec.

(** ** Words the properties below are stated with *)

(** A contiguous part of a text. *)
Definition part_of (text reply : str) : Prop :=
  exists before after, reply = before ++ text ++ after.

(** A value that has no length and cannot be iterated: [None], a boolean,
    a number. *)
Definition unsized (o : pyobj) : Prop :=
  match o with
  | PyNone | PyBool _ | PyInt _ | PyFloat _ => True
  | _ => False
  end.

(** What [for item in items] visits: the elements of a list, the characters
    of a string, the keys of a dict. *)
Definition visited (items : pyobj) : list pyobj :=
  match items with
  | PyList l => l
  | PyStr s => map (fun c => PyStr [c]) s
  | PyDict d => map (fun kv => PyStr (fst kv)) d
  | _ => []
  end.

(** The section headings of a story, each as its text. *)
Definition headings (story : list RFPAnalysisGenerator.flowable) : list str :=
  omap (fun f => match f with
                 | RFPAnalysisGenerator.Paragraph text "SectionHeader" => Some text
                 | _ => None
                 end) story.

(** The cells of the two sheets, as they are read back. *)
Module SheetSpec.
Import RFPExcelGenerator.

(** A cell of a data row: the value, a thin border, and the alignment of
    its column; the answer cells of the questions sheet have a fill. *)
Definition data_cell (col : column) (v : pyobj) (background : option PatternFill)
  : cell :=
  {| value := v; font := None; fill := background;
     alignment :=
       Some (match col with
             | col_A => {| horizontal := Some "center"; vertical := Some "top";
                           wrap_text := false |}
             | _ => {| horizontal := None; vertical := Some "top";
                       wrap_text := true |}
             end);
     border := Some thin_border |}.

(** A cell of the header row. *)
Definition header_cell (v : str) : cell :=
  {| value := PyStr v; font := Some header_font; fill := Some header_fill;
     alignment := Some {| horizontal := Some "center"; vertical := Some "center";
                          wrap_text := false |};
     border := Some thin_border |}.

(** A cell of the heading: a value and a font. *)
Definition heading_cell (v : str) (f : Font) : cell :=
  {| value := PyStr v; font := Some f; fill := None; alignment := None;
     border := None |}.

(** The fill of the answer cells. *)
Definition grey : PatternFill :=
  {| start_color := "F3F4F6"; end_color := "F3F4F6"; fill_type := "solid" |}.

(** The frame of a sheet: the heading on rows 1 to 3, an empty row 4, the
    header on row 5, the merged ranges and the column widths. *)
Definition framed (ws : worksheet) (title rfp_filename now : str)
    (a b c : str) (width_a width_b width_c : Z) : Prop :=
  get_cell ws (col_A, 1)
  = heading_cell title {| bold := true; italic := false; size := 16;
                          color := None |} /\
  get_cell ws (col_A, 2)
  = heading_cell ("RFP: " ++ rfp_filename)
      {| bold := false; italic := true; size := 10; color := None |} /\
  get_cell ws (col_A, 3)
  = heading_cell ("Generated: " ++ now)
      {| bold := false; italic := true; size := 10; color := None |} /\
  (forall col, get_cell ws (col, 4) = empty_cell) /\
  get_cell ws (col_A, 5) = header_cell a /\
  get_cell ws (col_B, 5) = header_cell b /\
  get_cell ws (col_C, 5) = header_cell c /\
  merged_cells ws = ["A1:C1"; "A2:C2"; "A3:C3"] /\
  column_width ws !! col_A = Some width_a /\
  column_width ws !! col_B = Some width_b /\
  column_width ws !! col_C = Some width_c.

End SheetSpec.

(** The steps of [process_rfp] that can fail, in the order of the [try]
    block, without what they show. *)
Section Attempt.
Import PdfHandler ClaudeRFPClient.
Variable json_loads : str -> option pyobj.
Variable decoder_message : str -> str.
Variable create : request -> result (list content_block).
Variable PdfReader : list byte -> read_outcome * Z.
Variable read_error_text : list byte -> str.
Variable generate_analysis_pdf : pyobj -> str -> result (list byte).
Variable generate_workbook : pyobj -> pyobj -> str -> result (list byte).

Definition attempt (f : UploadedFile)
  : result (pyobj * list byte * list byte) :=
  converted ← fst (pdf_to_base64 PdfReader read_error_text f);
  analysis ← analyze_rfp json_loads decoder_message create (fst converted)
               Prompts.get_rfp_analysis_prompt;
  validate_analysis_structure analysis;;
  pdf_buffer ← generate_analysis_pdf analysis (name f);
  next_steps ← py_get analysis "next_steps" (PyList []);
  alignment_questions ← py_get analysis "alignment_questions" (PyList []);
  excel_buffer ← generate_workbook next_steps alignment_questions (name f);
  Return (analysis, pdf_buffer, excel_buffer).

End Attempt.

(** The line of a timeline record in the summary of the page. *)
Definition timeline_line (repr : pyobj -> str) (entry : dict) : str :=
  "**" ++ RFPAnalysisGenerator.py_str repr
            (default (PyStr "Unknown") (dict_get "event" entry))
  ++ ":** " ++ RFPAnalysisGenerator.py_str repr
                 (default (PyStr "TBD") (dict_get "date" entry)).

(** ** Uploads the examples below run on *)

(** A stand-in for the reader: a stream that starts with [%PDF] has one
    page, any other is refused once the reader has gone to its end, which
    is where PyPDF2 starts to read. *)
Definition toy_reader (data : list byte) : PdfHandler.read_outcome * Z :=
  match data with
  | "%"%byte :: "P"%byte :: "D"%byte :: "F"%byte :: _ => (PdfHandler.PageCount 1, 0)
  | _ => (PdfHandler.RaisesPdfReadError, len data)
  end.

Definition toy_pdf : PdfHandler.UploadedFile :=
  {| PdfHandler.name := "rfp.pdf";
     PdfHandler.getvalue := ["%"; "P"; "D"; "F"; "-"; "1"; "."; "7"]%byte;
     PdfHandler.tell := 0 |}.

Definition toy_text : PdfHandler.UploadedFile :=
  {| PdfHandler.name := "notes.pdf";
     PdfHandler.getvalue := ["h"; "e"; "l"; "l"; "o"]%byte;
     PdfHandler.tell := 0 |}.

(** ** Replies the examples below run on *)

(** A tagged fence that does not hold JSON, followed by a JSON object. *)
Definition no_fallback_reply : str :=
  "```json
not json
```
" ++ qq "{'a': 1}".

(** The text of a JSON object one of whose strings holds a fence marker. *)
Definition inner_fence_object : str := qq "{'note': 'use ``` to fence'}".

(** The reply of the end-to-end scenario: the analysis as one JSON object. *)
Definition scenario_reply : str :=
  qq "{'client_problems': ['Legacy system cannot scale'], 'requirements': ['Must support 10k concurrent users'], 'gotchas': ['Budget not disclosed'], 'timeline': [{'event': 'Proposal Due', 'date': '2025-03-01'}], 'next_steps': ['Schedule kickoff call'], 'alignment_questions': ['What is our differentiator?']}".

(** The bullets of a story, each as its text. *)
Definition bullets (story : list RFPAnalysisGenerator.flowable) : list str :=
  omap (fun f => match f with
                 | RFPAnalysisGenerator.Paragraph text "BulletText" => Some text
                 | _ => None
                 end) story.

(** * Properties *)

(** ** Facts about Python text *)
Section StrFacts.
Implicit Types (s t sub : str) (c x : N).

Lemma len_nonneg {A} (l : list A) : 0 <= len l.
Proof. unfold len. lia. Qed.

Lemma len_app {A} (l k : list A) : len (l ++ k) = len l + len k.
Proof. unfold len. rewrite length_app. lia. Qed.

Lemma clamp_inside n i : 0 <= i <= n -> clamp n i = i.
Proof.
  intros H. unfold clamp.
  destruct (Z.ltb_spec i 0); lia.
Qed.

Lemma slice_middle {A} (a m b : list A) :
  slice (a ++ m ++ b) (len a) (len a + len m) = m.
Proof.
  unfold slice.
  pose proof (len_nonneg a). pose proof (len_nonneg m). pose proof (len_nonneg b).
  rewrite !clamp_inside by (rewrite !len_app; lia).
  replace (len a + len m - len a) with (len m) by lia.
  unfold len. rewrite !Nat2Z.id.
  rewrite drop_app_length. apply take_app_length.
Qed.

Lemma startswith_app sub t : startswith sub (sub ++ t) = true.
Proof. induction sub as [|c sub IH]; simpl; [done|]. by rewrite N.eqb_refl. Qed.

Lemma startswith_prefix a b s :
  startswith (a ++ b) s = true -> startswith a s = true.
Proof.
  revert s. induction a as [|c a IH]; intros s; simpl; [done|].
  destruct s as [|d s]; [done|].
  destruct (c =? d)%N; [apply IH | done].
Qed.

Lemma startswith_head h sub c s :
  c <> h -> startswith (h :: sub) (c :: s) = false.
Proof. intros Hne. simpl. destruct (N.eqb_spec h c); congruence. Qed.

Lemma startswith_barrier sub a x b :
  x ∉ sub -> startswith sub (a ++ x :: b) = true -> startswith sub a = true.
Proof.
  revert a. induction sub as [|h sub IH]; intros a Hx; simpl; [done|].
  apply not_elem_of_cons in Hx as [Hxh Hx].
  destruct a as [|c a]; simpl.
  - destruct (N.eqb_spec h x); [congruence | done].
  - destruct (h =? c)%N; [by apply IH | done].
Qed.

Lemma index_of_eq sub s :
  index_of sub s =
  if startswith sub s then Some O
  else match s with
       | [] => None
       | _ :: t => option_map S (index_of sub t)
       end.
Proof. by destruct s. Qed.

Lemma index_of_here sub t : index_of sub (sub ++ t) = Some O.
Proof. by rewrite index_of_eq, startswith_app. Qed.

Lemma index_of_skip h sub P rest :
  Forall (fun c => c <> h) P ->
  index_of (h :: sub) (P ++ rest)
  = option_map (fun k => (length P + k)%nat) (index_of (h :: sub) rest).
Proof.
  induction 1 as [|c P Hc _ IH]; simpl app.
  - by destruct (index_of _ rest).
  - rewrite index_of_eq, startswith_head by done.
    rewrite IH. by destruct (index_of _ rest).
Qed.

Lemma contains_cons sub c s :
  contains sub (c :: s) = false ->
  startswith sub (c :: s) = false /\ contains sub s = false.
Proof.
  unfold contains. rewrite (index_of_eq sub (c :: s)).
  destruct (startswith sub (c :: s)); [done|].
  by destruct (index_of sub s).
Qed.

Lemma contains_startswith sub s :
  contains sub s = false -> startswith sub s = false.
Proof.
  unfold contains. rewrite index_of_eq.
  by destruct (startswith sub s).
Qed.

Lemma contains_index_of sub s : contains sub s = false -> index_of sub s = None.
Proof. unfold contains. by destruct (index_of sub s). Qed.

Lemma contains_prefix a b s :
  contains a s = false -> contains (a ++ b) s = false.
Proof.
  induction s as [|c s IH]; intros H.
  - apply contains_startswith in H. unfold contains. rewrite index_of_eq.
    destruct (startswith (a ++ b) []) eqn:E; [|done].
    apply startswith_prefix in E. congruence.
  - apply contains_cons in H as [H1 H2]. specialize (IH H2).
    unfold contains in *. rewrite index_of_eq.
    destruct (startswith (a ++ b) (c :: s)) eqn:E.
    + apply startswith_prefix in E. congruence.
    + by destruct (index_of (a ++ b) s).
Qed.

Lemma index_of_barrier sub a x b :
  sub <> [] -> x ∉ sub -> contains sub a = false ->
  index_of sub (a ++ x :: b)
  = option_map (fun k => (length a + 1 + k)%nat) (index_of sub b).
Proof.
  intros Hsub Hx. induction a as [|c a IH]; intros Ha; simpl app.
  - destruct sub as [|h sub]; [done|].
    apply not_elem_of_cons in Hx as [Hxh _].
    rewrite index_of_eq, startswith_head by done.
    by destruct (index_of _ b).
  - apply contains_cons in Ha as [H1 H2].
    rewrite index_of_eq.
    destruct (startswith sub (c :: a ++ x :: b)) eqn:E.
    + apply (startswith_barrier sub (c :: a)) in E; [congruence | done].
    + rewrite IH by done. by destruct (index_of sub b).
Qed.

(** An occurrence inside a part is an occurrence in the whole. *)
Lemma startswith_app_r sub s t :
  startswith sub s = true -> startswith sub (s ++ t) = true.
Proof.
  revert s. induction sub as [|h sub IH]; intros s; simpl; [done|].
  destruct s as [|c s]; [done|]. simpl.
  destruct (h =? c)%N; [apply IH | done].
Qed.

Lemma contains_app_r sub s t :
  contains sub s = true -> contains sub (s ++ t) = true.
Proof.
  unfold contains. induction s as [|c s IH].
  - rewrite index_of_eq. destruct (startswith sub []) eqn:E; [|done].
    intros _. rewrite index_of_eq.
    by rewrite (startswith_app_r sub [] t E).
  - rewrite (index_of_eq sub (c :: s)). simpl app.
    rewrite (index_of_eq sub (c :: s ++ t)).
    destruct (startswith sub (c :: s)) eqn:E.
    + intros _. pose proof (startswith_app_r sub (c :: s) t E) as E'.
      simpl app in E'. by rewrite E'.
    + destruct (startswith sub (c :: s ++ t)); [done|].
      destruct (index_of sub s); [|done].
      intros _. by destruct (index_of sub (s ++ t)); [|discriminate IH].
Qed.

Lemma contains_app_l sub s t :
  contains sub t = true -> contains sub (s ++ t) = true.
Proof.
  unfold contains. intros H. induction s as [|c s IH]; [done|].
  simpl app. rewrite index_of_eq.
  destruct (startswith sub (c :: s ++ t)); [done|].
  by destruct (index_of sub (s ++ t)).
Qed.

Lemma contains_inner sub a s b :
  contains sub (a ++ s ++ b) = false -> contains sub s = false.
Proof.
  intros H. destruct (contains sub s) eqn:E; [|done].
  apply (contains_app_r sub s b), (contains_app_l sub a) in E. congruence.
Qed.

Lemma find_from_inside s sub a :
  0 <= a <= len s ->
  find_from s sub a =
  match index_of sub (drop (Z.to_nat a) s) with
  | Some k => a + Z.of_nat k
  | None => -1
  end.
Proof.
  intros H. unfold find_from.
  destruct (Z.ltb_spec a 0); [lia|].
  destruct (Z.ltb_spec (len s) a); [lia | done].
Qed.

Lemma find_eq s sub :
  find s sub = match index_of sub s with
               | Some k => Z.of_nat k
               | None => -1
               end.
Proof.
  unfold find. rewrite find_from_inside by (pose proof (len_nonneg s); lia).
  change (Z.to_nat 0) with O. rewrite drop_0.
  destruct (index_of sub s); [lia | done].
Qed.

Lemma last_index_of_absent x b : x ∉ b -> last_index_of [x] b = None.
Proof.
  induction b as [|c b IH]; intros H; simpl; [done|].
  apply not_elem_of_cons in H as [Hxc H].
  rewrite IH by done. destruct (N.eqb_spec x c); [congruence | done].
Qed.

Lemma last_index_of_last x a b :
  x ∉ b -> last_index_of [x] (a ++ x :: b) = Some (length a).
Proof.
  intros H. induction a as [|c a IH]; simpl.
  - rewrite last_index_of_absent by done. by rewrite N.eqb_refl.
  - simpl in IH. by rewrite IH.
Qed.

Lemma lstrip_spaces w c s :
  Forall (fun c => isspace c = true) w -> isspace c = false ->
  lstrip (w ++ c :: s) = c :: s.
Proof.
  intros Hw Hc. induction Hw as [|d w Hd _ IH]; simpl.
  - by rewrite Hc.
  - by rewrite Hd.
Qed.

Lemma rstrip_spaces w c s :
  Forall (fun c => isspace c = true) w -> isspace c = false ->
  rstrip (s ++ c :: w) = s ++ [c].
Proof.
  intros Hw Hc. unfold rstrip.
  rewrite rev_app_distr. simpl rev. rewrite <- !app_assoc. simpl app.
  rewrite lstrip_spaces; [| by apply Forall_rev | done].
  change (c :: rev s) with ([c] ++ rev s).
  by rewrite rev_app_distr, rev_involutive.
Qed.

(** [strip] removes exactly the blanks around a text that starts and ends
    with a character that is not one. *)
Lemma strip_padded w1 w2 c body d :
  Forall (fun c => isspace c = true) w1 ->
  Forall (fun c => isspace c = true) w2 ->
  isspace c = false -> isspace d = false ->
  strip (w1 ++ (c :: body ++ [d]) ++ w2) = c :: body ++ [d].
Proof.
  intros H1 H2 Hc Hd. unfold strip.
  simpl app. rewrite lstrip_spaces by done.
  rewrite <- app_assoc. simpl app.
  apply (rstrip_spaces w2 d (c :: body)); done.
Qed.

End StrFacts.

(** ** The response recovery of the Analysis Client *)
Section Fences.
Implicit Types (s t sub pre post body w : str) (c x : N).

Lemma blank_not_backtick w : blank w -> Forall (fun c => c <> 96%N) w.
Proof.
  intros H. eapply Forall_impl; [exact H|].
  intros c Hc ->. discriminate Hc.
Qed.

Lemma index_of_fence_open tag_rest pre rest :
  Forall (fun c => c <> 96%N) pre ->
  index_of ("```" ++ tag_rest) (pre ++ ("```" ++ tag_rest) ++ rest)
  = Some (length pre).
Proof.
  intros Hpre.
  change ("```" ++ tag_rest) with (96%N :: ("``" ++ tag_rest)).
  rewrite index_of_skip by done.
  rewrite index_of_here. simpl. f_equal. lia.
Qed.

Lemma index_of_fence_close (w1 : str) body (w2 : str) post :
  blank w1 -> blank w2 ->
  contains "```" ("{" ++ body ++ "}") = false ->
  index_of "```" ((w1 ++ ("{" ++ body ++ "}") ++ w2) ++ "```" ++ post)
  = Some (length (w1 ++ ("{" ++ body ++ "}") ++ w2)).
Proof.
  intros H1 H2 Hs.
  pose proof (contains_inner "```" "{" body "}" Hs) as Hbody.
  change "```" with (96%N :: "``") at 1.
  replace ((w1 ++ ("{" ++ body ++ "}") ++ w2) ++ "```" ++ post)
    with ((w1 ++ "{") ++ body ++ 125%N :: w2 ++ "```" ++ post)
    by (rewrite <- !app_assoc; reflexivity).
  rewrite index_of_skip.
  2:{ apply Forall_app. split; [by apply blank_not_backtick|].
      by constructor. }
  change (96%N :: "``") with ("```" : str).
  rewrite index_of_barrier; [| done | | done].
  2:{ intros Hin. by repeat (apply elem_of_cons in Hin as [Hin|Hin]; [discriminate Hin|]); apply elem_of_nil in Hin. }
  change ("```" : str) with (96%N :: "``") at 1.
  rewrite index_of_skip by by apply blank_not_backtick.
  change (96%N :: "``") with ("```" : str).
  rewrite index_of_here. simpl. f_equal.
  repeat (rewrite ?length_app, ?length_cons; simpl). lia.
Qed.

(** The text a fenced strategy picks when the reply holds an object text,
    padded with blanks, between a fence that opens with [tag] and the next
    fence. *)
Lemma fence_pick tag_rest pre (w1 : str) body (w2 : str) post :
  let tag := "```" ++ tag_rest in
  let s := "{" ++ body ++ "}" in
  let reply := pre ++ tag ++ w1 ++ s ++ w2 ++ "```" ++ post in
  Forall (fun c => c <> 96%N) pre -> blank w1 -> blank w2 ->
  contains "```" s = false ->
  contains tag reply = true /\
  strip (slice reply (find reply tag + len tag)
           (find_from reply "```" (find reply tag + len tag))) = s.
Proof.
  intros tag s reply Hpre H1 H2 Hs.
  assert (Hopen : index_of tag reply = Some (length pre)).
  { subst tag reply. by apply index_of_fence_open. }
  split; [unfold contains; by rewrite Hopen|].
  rewrite find_eq, Hopen.
  set (X := w1 ++ s ++ w2).
  assert (Hreply : reply = (pre ++ tag) ++ X ++ "```" ++ post).
  { subst reply X. by rewrite <- !app_assoc. }
  assert (Hstart : Z.of_nat (length pre) + len tag = len (pre ++ tag)).
  { by rewrite len_app. }
  rewrite Hstart.
  rewrite find_from_inside.
  2:{ rewrite Hreply, !len_app.
      pose proof (len_nonneg pre); pose proof (len_nonneg tag);
      pose proof (len_nonneg X); pose proof (len_nonneg post).
      pose proof (len_nonneg ("```" : str)). lia. }
  replace (Z.to_nat (len (pre ++ tag))) with (length (pre ++ tag))
    by (unfold len; by rewrite Nat2Z.id).
  rewrite Hreply, drop_app_length.
  assert (Hclose : index_of "```" (X ++ "```" ++ post) = Some (length X))
    by (by apply index_of_fence_close).
  rewrite Hclose. fold (len X).
  rewrite (slice_middle (pre ++ tag)).
  apply (strip_padded w1 w2 123%N body 125%N); done.
Qed.

Lemma contains_char x t : contains [x] t = false -> x ∉ t.
Proof.
  induction t as [|c t IH]; intros H; [apply not_elem_of_nil|].
  apply contains_cons in H as [H1 H2].
  apply not_elem_of_cons. split; [|by apply IH].
  intros ->. simpl in H1. by rewrite N.eqb_refl in H1.
Qed.

Lemma contains_char_Forall x t :
  contains [x] t = false -> Forall (fun c => c <> x) t.
Proof.
  intros H%contains_char. apply Forall_forall. intros c Hc ->. done.
Qed.

Lemma brace_pick pre body post :
  let s := "{" ++ body ++ "}" in
  contains "{" pre = false -> contains "}" post = false ->
  RecoverySpec.braces (pre ++ s ++ post) = Some s.
Proof.
  intros s Hpre Hpost. unfold RecoverySpec.braces.
  assert (Hfind : find (pre ++ s ++ post) "{" = len pre).
  { rewrite find_eq. change ("{" : str) with (123%N :: []) at 1.
    rewrite index_of_skip by by apply contains_char_Forall.
    subst s. rewrite <- app_assoc.
    rewrite (index_of_here "{"). simpl. unfold len. lia. }
  assert (Hrfind : rfind (pre ++ s ++ post) "}" = len pre + len s - 1).
  { unfold rfind.
    replace (pre ++ s ++ post) with ((pre ++ "{" ++ body) ++ 125%N :: post)
      by (subst s; rewrite <- !app_assoc; reflexivity).
    rewrite (last_index_of_last 125%N) by by apply contains_char.
    subst s. unfold len. rewrite !length_app. simpl. lia. }
  rewrite Hfind, Hrfind.
  pose proof (len_nonneg pre). pose proof (len_nonneg body).
  assert (len s = len body + 2).
  { subst s. unfold len. rewrite !length_app. simpl. lia. }
  destruct (Z.eqb_spec (len pre) (-1)); [lia|].
  destruct (Z.ltb_spec (len pre) (len pre + len s - 1 + 1)); [|lia].
  cbn [negb andb]. f_equal.
  replace (len pre + len s - 1 + 1) with (len pre + len s) by lia.
  apply slice_middle.
Qed.

Lemma contains_fence_prose pre body post :
  contains "```" pre = false ->
  contains "```" ("{" ++ body ++ "}") = false ->
  contains "```" post = false ->
  contains "```" (pre ++ ("{" ++ body ++ "}") ++ post) = false.
Proof.
  intros Hpre Hs Hpost.
  pose proof (contains_inner "```" "{" body "}" Hs) as Hbody.
  assert (Hx : forall x, x <> 96%N -> x ∉ ("```" : str)).
  { intros x Hx Hin.
    repeat (apply elem_of_cons in Hin as [Hin|Hin]; [congruence|]).
    by apply elem_of_nil in Hin. }
  unfold contains.
  replace (pre ++ ("{" ++ body ++ "}") ++ post)
    with (pre ++ 123%N :: body ++ 125%N :: post)
    by (rewrite <- !app_assoc; reflexivity).
  rewrite index_of_barrier; [| done | by apply Hx | done].
  rewrite index_of_barrier; [| done | by apply Hx | done].
  by rewrite (contains_index_of _ _ Hpost).
Qed.
End Fences.

Section Recovery.
Import ClaudeRFPClient RecoverySpec.
Variable json_loads : str -> option pyobj.
#[local] Abbreviation parse := (_parse_json_response json_loads).

Lemma loads_returned text :
  returned (loads json_loads text) = json_loads text.
Proof. unfold loads. by destruct (json_loads text). Qed.

Lemma parse_direct reply v :
  json_loads reply = Some v -> parse reply = Return v.
Proof. intros H. unfold _parse_json_response. by rewrite H. Qed.

Lemma parse_braces reply :
  json_loads reply = None -> contains "```" reply = false ->
  parse reply =
  match braces reply with
  | Some text => loads json_loads text
  | None => Raise (JSONDecodeError "Could not find valid JSON in response"
                     reply 0)
  end.
Proof.
  intros H1 H3.
  assert (H2 : contains "```json" reply = false)
    by apply (contains_prefix "```" "json"), H3.
  unfold _parse_json_response, braces. rewrite H1, H2, H3.
  by destruct (negb _ && _).
Qed.


(** Claim C2, as the code has it.  Let [s] be the text of a JSON object
    [J]: it starts with [{], ends with [}], the decoder reads it as [J], and
    it holds no fence marker.  Then the recovery returns [J] from [s] alone;
    from [s], padded with blanks, between a [```json] tag and the next
    fence, after prose without a backtick; from the same inside an untagged
    fence, when the reply has no [```json] tag; and from [s] between prose
    that has no [{] before it, no [}] after it and no fence marker.  In the
    fenced cases the reply as a whole is not JSON; in the prose case it is
    not JSON or decodes to [J] too.  And a reply with no [{] and no fence
    marker that is not JSON raises the [JSONDecodeError] of the client,
    which carries the reply. *)
Theorem recovery_of_object_text :
  (forall (body : str) (J : pyobj),
     let s := "{" ++ body ++ "}" in
     json_loads s = Some J ->
     contains "```" s = false ->
     (* raw *)
     parse s = Return J /\
     (* inside a tagged fence *)
     (forall pre (w1 w2 : str) post,
        let reply := pre ++ "```json" ++ w1 ++ s ++ w2 ++ "```" ++ post in
        contains "`" pre = false -> blank w1 -> blank w2 ->
        json_loads reply = None ->
        parse reply = Return J) /\
     (* inside an untagged fence *)
     (forall pre (w1 w2 : str) post,
        let reply := pre ++ "```" ++ w1 ++ s ++ w2 ++ "```" ++ post in
        contains "`" pre = false -> blank w1 -> blank w2 ->
        contains "```json" reply = false ->
        json_loads reply = None ->
        parse reply = Return J) /\
     (* in prose *)
     (forall pre post,
        let reply := pre ++ s ++ post in
        contains "{" pre = false -> contains "}" post = false ->
        contains "```" pre = false -> contains "```" post = false ->
        json_loads reply = None \/ json_loads reply = Some J ->
        parse reply = Return J)) /\
  (forall reply,
     contains "{" reply = false -> contains "```" reply = false ->
     json_loads reply = None ->
     parse reply = Raise (JSONDecodeError "Could not find valid JSON in response"
                            reply 0)).
Proof.
  split.
  - intros body J s Hs Hfence.
    assert (Hloads : loads json_loads s = Return J)
      by (unfold loads; by rewrite Hs).
    split; [by apply parse_direct|].
    split; [|split].
    + intros pre w1 w2 post reply Hpre H1 H2 Hreply.
      destruct (fence_pick "json" pre w1 body w2 post
                  (contains_char_Forall _ _ Hpre) H1 H2 Hfence) as [Hc Hp].
      change (contains "```json" reply = true) in Hc.
      change (strip (slice reply (find reply "```json" + 7)
                       (find_from reply "```" (find reply "```json" + 7))) = s)
        in Hp.
      unfold _parse_json_response. by rewrite Hreply, Hc, Hp.
    + intros pre w1 w2 post reply Hpre H1 H2 Htag Hreply.
      destruct (fence_pick [] pre w1 body w2 post
                  (contains_char_Forall _ _ Hpre) H1 H2 Hfence) as [Hc Hp].
      change (contains "```" reply = true) in Hc.
      change (strip (slice reply (find reply "```" + 3)
                       (find_from reply "```" (find reply "```" + 3))) = s)
        in Hp.
      unfold _parse_json_response. by rewrite Hreply, Htag, Hc, Hp.
    + intros pre post reply Hpre Hpost Hf1 Hf2 [Hreply|Hreply];
        [|by apply parse_direct].
      rewrite parse_braces; [| done | by apply contains_fence_prose].
      pose proof (brace_pick pre body post Hpre Hpost) as Hb.
      change (braces reply = Some s) in Hb. by rewrite Hb.
  - intros reply Hbrace Hfence Hreply.
    rewrite parse_braces by done.
    unfold braces. rewrite find_eq, (contains_index_of _ _ Hbrace).
    reflexivity.
Qed.

Lemma parse_cases reply :
  parse reply =
  match json_loads reply with
  | Some v => Return v
  | None =>
    match Picks.tagged reply with
    | Some text => loads json_loads text
    | None =>
      match Picks.fenced reply with
      | Some text => loads json_loads text
      | None =>
        match braces reply with
        | Some text => loads json_loads text
        | None => Raise (JSONDecodeError "Could not find valid JSON in response"
                           reply 0)
        end
      end
    end
  end.
Proof.
  unfold _parse_json_response, Picks.tagged, Picks.fenced, braces.
  destruct (json_loads reply); [done|].
  destruct (contains "```json" reply); [done|].
  destruct (contains "```" reply); [done|].
  by destruct (negb _ && _).
Qed.

Lemma no_fence_no_tag reply :
  contains "```" reply = false -> contains "```json" reply = false.
Proof. apply (contains_prefix "```" "json"). Qed.

(** Where a fence is closed, the text between the markers is the text the
    branch decodes. *)
Lemma tagged_fence_pick reply text :
  tagged_fence reply = Some text -> Picks.tagged reply = Some text.
Proof.
  unfold tagged_fence, Picks.tagged.
  destruct (contains "```json" reply); [|done].
  by destruct (_ =? -1).
Qed.

Lemma first_fence_pick reply text :
  contains "```json" reply = false -> first_fence reply = Some text ->
  Picks.tagged reply = None /\ Picks.fenced reply = Some text.
Proof.
  unfold first_fence, Picks.tagged, Picks.fenced. intros ->.
  destruct (contains "```" reply); [|done].
  by destruct (_ =? -1).
Qed.

Lemma no_fence_picks reply :
  contains "```" reply = false ->
  Picks.tagged reply = None /\ Picks.fenced reply = None /\
  tagged_fence reply = None /\ first_fence reply = None.
Proof.
  intros H. unfold Picks.tagged, Picks.fenced, tagged_fence, first_fence.
  by rewrite H, (no_fence_no_tag _ H).
Qed.

Lemma fence_closed_picks reply :
  fence_closed reply = true ->
  tagged_fence reply = Picks.tagged reply /\
  (Picks.tagged reply = None -> first_fence reply = Picks.fenced reply).
Proof.
  unfold fence_closed, tagged_fence, first_fence, Picks.tagged, Picks.fenced.
  destruct (contains "```json" reply).
  - intros H. apply negb_true_iff in H. rewrite H. by split.
  - destruct (contains "```" reply); [|done].
    intros H. apply negb_true_iff in H. rewrite H. by split.
Qed.

(** Claim C1, as the code has it.  The whole reply is decoded first; when
    that fails, one strategy is chosen by what the reply contains and the
    outcome of decoding its pick is the outcome of the recovery: the text
    between a [```json] tag and the next fence; with no tag, the text
    between the first two markers; with no marker, the braces.  A pick
    that does not decode raises, and no later strategy runs.  So, on a
    reply whose fence is closed, a value the recovery returns is the value
    of the chain "try in order until one succeeds", and the two agree on
    every reply without a fence marker.  A fence that is opened and never
    closed has no text between two markers and is left out here. *)
Theorem parse_json_response_commits reply :
  (forall v, json_loads reply = Some v -> parse reply = Return v) /\
  (json_loads reply = None ->
     (forall text, tagged_fence reply = Some text ->
                   parse reply = loads json_loads text) /\
     (forall text, contains "```json" reply = false ->
                   first_fence reply = Some text ->
                   parse reply = loads json_loads text) /\
     (contains "```" reply = false ->
      parse reply =
      match braces reply with
      | Some text => loads json_loads text
      | None => Raise (JSONDecodeError "Could not find valid JSON in response"
                         reply 0)
      end)) /\
  (fence_closed reply = true ->
   forall v, parse reply = Return v -> recovery json_loads reply = Some v) /\
  (contains "```" reply = false ->
   returned (parse reply) = recovery json_loads reply).
Proof.
  rewrite parse_cases. unfold recovery, strategies, first_success.
  split; [|split; [|split]].
  - by intros v ->.
  - intros H. rewrite H. split; [|split].
    + intros text Ht. by rewrite (tagged_fence_pick _ _ Ht).
    + intros text Htag Ht.
      destruct (first_fence_pick _ _ Htag Ht) as [-> ->]. done.
    + intros Hf. destruct (no_fence_picks _ Hf) as (-> & -> & _). done.
  - intros Hclosed v.
    destruct (fence_closed_picks _ Hclosed) as [Ht Hf]. rewrite Ht.
    destruct (json_loads reply); [congruence|].
    destruct (Picks.tagged reply) as [text|].
    { unfold loads. destruct (json_loads text); [congruence | done]. }
    rewrite (Hf eq_refl).
    destruct (Picks.fenced reply) as [text|].
    { unfold loads. destruct (json_loads text); [congruence | done]. }
    destruct (braces reply) as [text|]; [|done].
    unfold loads. destruct (json_loads text); [congruence | done].
  - intros Hf. destruct (no_fence_picks _ Hf) as (-> & -> & -> & ->).
    destruct (json_loads reply); [done|].
    destruct (braces reply) as [text|]; [|done].
    rewrite loads_returned. by destruct (json_loads text).
Qed.
End Recovery.

(** Claim C1 fails here: the tagged fence holds no JSON, the braces after
    it hold an object; trying the strategies in order recovers the object,
    [_parse_json_response] raises on the fenced text. *)
Lemma parse_json_response_no_fallback :
  ClaudeRFPClient._parse_json_response Json.loads no_fallback_reply
  = Raise (DecoderError "not json") /\
  RecoverySpec.recovery Json.loads no_fallback_reply
  = Some (PyDict [("a", PyInt 1)]).
Proof. vm_compute. split; reflexivity. Qed.

(** Claim C2 fails here.  An object whose string holds a fence marker is
    not recovered from a tagged fence, since the pick stops at that marker.
    An object between the prose [[] and []], which has no fence and no
    brace, comes back inside a list, and a fenced object between two double
    quotes comes back as a string: the reply as a whole is JSON.  A reply
    with no [{] that is JSON is returned, and a fenced reply with no [{]
    raises on the fenced text, not on the reply. *)
Lemma recovery_of_object_text_limits :
  Json.loads inner_fence_object
  = Some (PyDict [("note", PyStr "use ``` to fence")]) /\
  ClaudeRFPClient._parse_json_response Json.loads
    ("```json
" ++ inner_fence_object ++ "
```")
  = Raise (DecoderError (qq "{'note': 'use")) /\
  ClaudeRFPClient._parse_json_response Json.loads ("[" ++ qq "{'a': 1}" ++ "]")
  = Return (PyList [PyDict [("a", PyInt 1)]]) /\
  ClaudeRFPClient._parse_json_response Json.loads (qq "'```json{}```'")
  = Return (PyStr "```json{}```") /\
  ClaudeRFPClient._parse_json_response Json.loads "[1, 2]"
  = Return (PyList [PyInt 1; PyInt 2]) /\
  ClaudeRFPClient._parse_json_response Json.loads "```
no json here
```"
  = Raise (DecoderError "no json here").
Proof. vm_compute. repeat split; reflexivity. Qed.

(** [parse_json_response_commits] at three replies, with the reference
    decoder: one whose tagged fence holds no JSON, where the outcome is the
    failure of that pick; one that holds an object in prose, and one that
    holds it in a closed fence, where the value returned is the value of
    the chain. *)
Lemma parse_json_response_commits_witness :
  ClaudeRFPClient._parse_json_response Json.loads no_fallback_reply
  = ClaudeRFPClient.loads Json.loads "not json" /\
  RecoverySpec.recovery Json.loads ("The analysis: " ++ qq "{'a': 1}")
  = Some (PyDict [("a", PyInt 1)]) /\
  RecoverySpec.recovery Json.loads ("Here it is:
```json
" ++ qq "{'a': 1}" ++ "
```")
  = Some (PyDict [("a", PyInt 1)]).
Proof.
  split; [|split].
  - destruct (parse_json_response_commits Json.loads no_fallback_reply)
      as (_ & Hcommit & _).
    destruct (Hcommit eq_refl) as (Htagged & _).
    apply Htagged. reflexivity.
  - destruct (parse_json_response_commits Json.loads
                ("The analysis: " ++ qq "{'a': 1}")) as (_ & _ & Hsound & _).
    apply Hsound; reflexivity.
  - destruct (parse_json_response_commits Json.loads
                ("Here it is:
```json
" ++ qq "{'a': 1}" ++ "
```")) as (_ & _ & Hsound & _).
    apply Hsound; reflexivity.
Defined.

(** The cases of [recovery_of_object_text] at the object [{"a": 1}], with
    the reference decoder. *)
Lemma recovery_of_object_text_witness :
  let s := qq "{'a': 1}" in
  let J := PyDict [("a", PyInt 1)] in
  let parse := ClaudeRFPClient._parse_json_response Json.loads in
  parse s = Return J /\
  parse ("Here you go:
```json
" ++ s ++ "
```
Done.") = Return J /\
  parse ("```
" ++ s ++ "
```") = Return J /\
  parse ("The analysis is " ++ s ++ " as requested.") = Return J /\
  parse "I cannot read this file."
  = Raise (JSONDecodeError "Could not find valid JSON in response"
             "I cannot read this file." 0).
Proof.
  intros s J parse.
  destruct (recovery_of_object_text Json.loads) as [Hobject Hnone].
  destruct (Hobject (qq "'a': 1") J) as (Hraw & Htagged & Hfenced & Hprose);
    [reflexivity | reflexivity |].
  split; [exact Hraw|].
  split.
  { apply (Htagged "Here you go:
" "
" "
" "
Done."); try reflexivity; repeat constructor. }
  split.
  { apply (Hfenced "" "
" "
" ""); try reflexivity; repeat constructor. }
  split.
  { apply (Hprose "The analysis is " " as requested."); try reflexivity.
    left. reflexivity. }
  apply Hnone; reflexivity.
Defined.

(** ** Structural validation and the errors of the Analysis Client *)
Section Validation.
Import ClaudeRFPClient.

Lemma missing_in_dict (d : dict) fields :
  missing_in (PyDict d) fields
  = Return (filter (fun k => dict_contains k d = false) fields).
Proof.
  induction fields as [|f fields IH]; [done|].
  simpl. rewrite IH. simpl.
  rewrite filter_cons.
  by destruct (dict_contains f d).
Qed.

(** Claim C3.  For a parsed object [d], the validation returns [True] when
    no required key is absent and otherwise raises the exception whose
    message lists the absent keys; no key is absent exactly when all six
    are present; the keys listed are exactly the required keys absent from
    [d]; and two objects with the same keys get the same outcome, whatever
    their values. *)
Theorem validate_analysis_structure_missing_keys (d : dict) :
  let missing := filter (fun k => dict_contains k d = false) required_fields in
  validate_analysis_structure (PyDict d)
  = match missing with
    | [] => Return true
    | _ => Raise (Error Exception_
                    ("Analysis missing required fields: " ++ join ", " missing))
    end /\
  (missing = [] <-> forall k, k ∈ required_fields -> dict_contains k d = true) /\
  (forall k, k ∈ missing <-> k ∈ required_fields /\ dict_contains k d = false) /\
  (forall d' : dict,
     (forall k, dict_contains k d' = dict_contains k d) ->
     validate_analysis_structure (PyDict d')
     = validate_analysis_structure (PyDict d)).
Proof.
  intros missing.
  assert (Hv : forall d0 : dict,
    validate_analysis_structure (PyDict d0)
    = match filter (fun k => dict_contains k d0 = false) required_fields with
      | [] => Return true
      | _ => Raise (Error Exception_
                      ("Analysis missing required fields: "
                       ++ join ", " (filter (fun k => dict_contains k d0 = false)
                                       required_fields)))
      end).
  { intros d0. unfold validate_analysis_structure.
    rewrite missing_in_dict. unfold mbind, result_bind.
    set (m := filter _ required_fields). by destruct m. }
  split; [apply Hv|].
  split; [|split].
  - split.
    + intros Hnil k Hk. destruct (dict_contains k d) eqn:E; [done|].
      assert (k ∈ missing) as Hin by (apply list_elem_of_filter; done).
      rewrite Hnil in Hin. by apply elem_of_nil in Hin.
    + intros Hall. apply elem_of_nil_inv. intros k Hin.
      apply list_elem_of_filter in Hin as [Hf Hk].
      rewrite (Hall k Hk) in Hf. done.
  - intros k. unfold missing. rewrite list_elem_of_filter. tauto.
  - intros d' Hsame. rewrite !Hv.
    replace (filter (fun k => dict_contains k d' = false) required_fields)
      with (filter (fun k => dict_contains k d = false) required_fields); [done|].
    apply list_filter_iff. intros k. by rewrite Hsame.
Qed.

End Validation.

(** [validate_analysis_structure_missing_keys] at an analysis whose six
    keys hold empty lists, and at one with two of the six keys. *)
Lemma validate_analysis_structure_missing_keys_witness :
  ClaudeRFPClient.validate_analysis_structure
    (PyDict [("client_problems", PyList []); ("requirements", PyList []);
             ("gotchas", PyList []); ("timeline", PyList []);
             ("next_steps", PyList []); ("alignment_questions", PyList [])])
  = Return true /\
  ClaudeRFPClient.validate_analysis_structure
    (PyDict [("timeline", PyList []); ("gotchas", PyStr "none")])
  = Raise (Error Exception_
             "Analysis missing required fields: client_problems, requirements, next_steps, alignment_questions").
Proof.
  split.
  - exact (proj1 (validate_analysis_structure_missing_keys
                    [("client_problems", PyList []); ("requirements", PyList []);
                     ("gotchas", PyList []); ("timeline", PyList []);
                     ("next_steps", PyList []);
                     ("alignment_questions", PyList [])])).
  - exact (proj1 (validate_analysis_structure_missing_keys
                    [("timeline", PyList []); ("gotchas", PyStr "none")])).
Defined.

Section Timeout.
Import ClaudeRFPClient.
Variable json_loads : str -> option pyobj.
Variable decoder_message : str -> str.

(** Claim C4, which the code breaks.  When the endpoint call raises
    [APITimeoutError], [analyze_rfp] raises the generic "Claude API error"
    message, since the [except anthropic.APIError] clause stands before the
    timeout clause and catches the subclass; no exception whatever makes
    the handlers produce the timeout message. *)
Theorem analyze_rfp_timeout_reported_as_api_error
    (timeout_text pdf_base64 prompt : str) :
  analyze_rfp json_loads decoder_message
    (fun _ => Raise (Error APITimeoutError_ timeout_text)) pdf_base64 prompt
  = Raise (Error Exception_ ("Claude API error: " ++ timeout_text)) /\
  (forall e, analyze_rfp_handlers decoder_message e
             <> Error Exception_ "Request timed out. Please try again.").
Proof.
  split; [reflexivity|].
  intros e. unfold analyze_rfp_handlers.
  destruct e as [msg doc pos | doc | c text].
  - vm_compute. discriminate.
  - vm_compute. discriminate.
  - destruct c; vm_compute; discriminate.
Qed.
End Timeout.

(** ** The Upload Validator *)
Section UploadFacts.
Import PdfHandler App.

Lemma size_over_limit (n : Z) :
  (10 < inject_Z n / inject_Z (1024 * 1024))%Q <-> 10 * 1024 * 1024 < n.
Proof.
  unfold Qlt, Qdiv, Qmult, Qinv, inject_Z. simpl. lia.
Qed.

Variable PdfReader : list byte -> read_outcome * Z.
Variable format_2f : Q -> str.

Lemma validate_file_upload_oversize f :
  10 * 1024 * 1024 < len (getvalue f) ->
  exists reason,
    validate_file_upload PdfReader format_2f f = (false, [reason], f)
    /\ reason <> [].
Proof.
  intros H. unfold validate_file_upload.
  destruct (Qlt_le_dec _ _) as [_|Hle].
  - eexists. split; [reflexivity | discriminate].
  - apply Qle_not_lt in Hle. destruct Hle.
    by apply (proj2 (size_over_limit _)).
Qed.

Lemma validate_file_upload_within f :
  len (getvalue f) <= 10 * 1024 * 1024 ->
  validate_file_upload PdfReader format_2f f =
  let '((is_valid, error_msg), f') := validate_pdf PdfReader f in
  if negb is_valid then (false, ["❌ " ++ error_msg], f') else (true, [], f').
Proof.
  intros H. unfold validate_file_upload.
  destruct (Qlt_le_dec _ _) as [Hlt|_]; [|done].
  apply (proj1 (size_over_limit _)) in Hlt. lia.
Qed.

(** Claim C5.  A stream of at most 10 MiB that the reader reads as a PDF
    of at least one page passes, in [validate_pdf] and in
    [validate_file_upload].  A stream over 10 MiB, or read as a PDF of zero
    pages, or on which the reader raises, fails with one non-empty message
    shown; and within the size limit [validate_pdf] returns a non-empty
    reason with its [False]. *)
Theorem upload_validator_verdict (f : UploadedFile) :
  let size := len (getvalue f) in
  let verdict := validate_file_upload PdfReader format_2f f in
  (forall n position,
     size <= 10 * 1024 * 1024 ->
     PdfReader (getvalue f) = (PageCount n, position) -> (1 <= n)%N ->
     fst (validate_pdf PdfReader f) = (true, []) /\
     fst verdict = (true, [])) /\
  (10 * 1024 * 1024 < size \/
   (exists position, PdfReader (getvalue f) = (PageCount 0, position)) \/
   (exists position, PdfReader (getvalue f) = (RaisesPdfReadError, position)) \/
   (exists text position,
      PdfReader (getvalue f) = (RaisesOther text, position)) ->
   (exists reason, fst verdict = (false, [reason]) /\ reason <> []) /\
   (size <= 10 * 1024 * 1024 ->
    exists reason, fst (validate_pdf PdfReader f) = (false, reason)
                   /\ reason <> [])).
Proof.
  intros size verdict. split.
  - intros n position Hsize Hread Hn. subst verdict.
    rewrite validate_file_upload_within by done.
    unfold validate_pdf. rewrite Hread.
    destruct (N.eqb_spec n 0); [lia | done].
  - intros Hbad.
    destruct (Z.lt_ge_cases (10 * 1024 * 1024) size) as [Hover|Hwithin].
    { split; [|lia]. destruct (validate_file_upload_oversize f Hover)
        as (reason & Hv & Hne).
      exists reason. subst verdict. by rewrite Hv. }
    assert (Hsize : size <= 10 * 1024 * 1024) by lia.
    assert (Hpdf : exists reason, fst (validate_pdf PdfReader f) = (false, reason)
                                  /\ reason <> []).
    { unfold validate_pdf.
      destruct Hbad as [?|[[p Hr]|[[p Hr]|(text & p & Hr)]]]; [lia| | |];
        rewrite Hr; simpl; eexists; (split; [reflexivity | discriminate]). }
    split; [|done].
    destruct Hpdf as (reason & Hv & Hne).
    exists ("❌ " ++ reason). subst verdict.
    rewrite validate_file_upload_within by done.
    destruct (validate_pdf PdfReader f) as [[ok msg] f'].
    simpl in Hv. injection Hv as -> ->. split; [done | discriminate].
Qed.

(** Claim C6, which the code breaks.  [validate_pdf] never changes the name
    or the bytes of the stream, and leaves its position at the start when
    the reader has read the stream (whatever the page count); when the
    reader raises, the position is the one the reader left. *)
Theorem validate_pdf_rewinds_only_when_read (f : UploadedFile) :
  let stream := snd (validate_pdf PdfReader f) in
  name stream = name f /\ getvalue stream = getvalue f /\
  tell stream = match PdfReader (getvalue f) with
                | (PageCount _, _) => 0
                | (_, position) => position
                end.
Proof.
  unfold validate_pdf.
  destruct (PdfReader (getvalue f)) as [[n| |text] position]; simpl;
    [destruct (n =? 0)%N | |]; done.
Qed.
End UploadFacts.


(** [upload_validator_verdict] at a one-page PDF and at a text file. *)
Lemma upload_validator_verdict_witness :
  fst (App.validate_file_upload toy_reader (fun _ => "") toy_pdf) = (true, []) /\
  exists reason,
    fst (App.validate_file_upload toy_reader (fun _ => "") toy_text)
    = (false, [reason]) /\ reason <> [].
Proof.
  split.
  - apply (proj1 (upload_validator_verdict toy_reader (fun _ => "") toy_pdf) 1%N 0);
      [vm_compute; discriminate | reflexivity | lia].
  - apply (proj2 (upload_validator_verdict toy_reader (fun _ => "") toy_text)).
    right. right. left. exists 5. reflexivity.
Defined.

(** After a failed read the position is not at the start. *)
Lemma validate_pdf_leaves_position :
  PdfHandler.tell (snd (PdfHandler.validate_pdf toy_reader toy_text)) = 5.
Proof. reflexivity. Qed.

(** ** The Report Renderer *)
Section Report.
Import RFPAnalysisGenerator ReportSpec.
Variable repr : pyobj -> str.

Lemma timeline_rows_records (entries : list dict) :
  timeline_rows (map PyDict entries) = Return (map timeline_row entries).
Proof.
  induction entries as [|e entries IH]; [done|].
  simpl. rewrite IH. reflexivity.
Qed.

Lemma create_timeline_section_records (entries : list dict) :
  _create_timeline_section (PyList (map PyDict entries))
  = Return (timeline_section entries).
Proof.
  unfold _create_timeline_section, timeline_section.
  destruct entries as [|e entries]; [reflexivity|].
  assert (Hlen : (0 <? len (map PyDict (e :: entries))) = true).
  { apply Z.ltb_lt. unfold len. simpl length. lia. }
  cbn [truthy map py_len mbind result_bind]. 
  change (PyDict e :: map PyDict entries) with (map PyDict (e :: entries)).
  rewrite Hlen. cbn [py_iter mbind result_bind].
  rewrite timeline_rows_records. reflexivity.
Qed.

Lemma create_bullet_section_list title intro (items : list pyobj) :
  intro <> [] ->
  _create_bullet_section repr title (PyList items) (Some intro)
  = Return (bullet_section repr title intro items).
Proof.
  intros Hintro. unfold _create_bullet_section, bullet_section.
  destruct intro as [|c intro]; [done|].
  destruct items as [|x items]; reflexivity.
Qed.

Lemma omap_records (entries : list dict) :
  omap (fun o => match o with PyDict e => Some e | _ => None end)
       (map PyDict entries) = entries.
Proof. induction entries as [|e entries IH]; simpl; [done | by f_equal]. Qed.

Lemma records_of_records key (analysis : dict) (entries : list dict) :
  dict_get key analysis = Some (PyList (map PyDict entries)) ->
  records_of key analysis = entries.
Proof.
  intros H. unfold records_of, items_of. rewrite H. apply omap_records.
Qed.

Lemma dict_get_set k k' v (d : dict) :
  dict_get k' (dict_set k v d)
  = if bool_decide (k' = k) then Some v else dict_get k' d.
Proof.
  induction d as [|[k0 v0] d IH]; simpl.
  - done.
  - destruct (bool_decide_reflect (k = k0)) as [->|Hne]; simpl.
    + by destruct (bool_decide (k' = k0)).
    + rewrite IH.
      destruct (bool_decide_reflect (k' = k0)) as [->|Hne'].
      * by rewrite bool_decide_eq_false_2.
      * done.
Qed.

Lemma py_get_dict (analysis : dict) key default :
  py_get (PyDict analysis) key default
  = Return (match dict_get key analysis with Some v => v | None => default end).
Proof. reflexivity. Qed.

Lemma py_get_set_absent (analysis : dict) key key' :
  dict_get key analysis = None ->
  py_get (PyDict (dict_set key (PyList []) analysis)) key' (PyList [])
  = py_get (PyDict analysis) key' (PyList []).
Proof.
  intros H. rewrite !py_get_dict, dict_get_set.
  destruct (bool_decide_reflect (key' = key)) as [->|]; [|done].
  by rewrite H.
Qed.

(** Claim C10.  For every analysis, a key that is absent has no items, and
    the generator does with the analysis what it does with the analysis
    where that key holds the empty list.  For every analysis whose present
    values have the shapes of the data model, the generator returns the
    story [report], each section rendered from the items under its key.
    The story of the analysis with no key at all is the title page, the
    three sections with the line "No items identified." and the timeline
    section with the line "No timeline information available."; these
    lines are what a section without items is rendered with. *)
Theorem report_total_over_missing_keys (analysis : dict)
    (rfp_filename now : str) :
  (forall key, dict_get key analysis = None ->
     items_of key analysis = [] /\ records_of key analysis = [] /\
     generate_analysis_pdf repr (PyDict (dict_set key (PyList []) analysis))
       rfp_filename now
     = generate_analysis_pdf repr (PyDict analysis) rfp_filename now) /\
  (well_shaped analysis ->
   generate_analysis_pdf repr (PyDict analysis) rfp_filename now
   = Return (report repr analysis rfp_filename now)) /\
  report repr [] rfp_filename now
  = title_page rfp_filename now
    ++ [Paragraph "Client Problems & Challenges" "SectionHeader";
        Paragraph "Key issues and challenges the client is trying to resolve:"
          "Normal";
        Spacer 1 12; Paragraph "No items identified." "Normal"; Spacer 1 20;
        Paragraph "Specific Requirements" "SectionHeader";
        Paragraph "Must-have requirements, deliverables, and constraints:"
          "Normal";
        Spacer 1 12; Paragraph "No items identified." "Normal"; Spacer 1 20;
        Paragraph "Gotchas & Ambiguities" "SectionHeader";
        Paragraph "Red-flag items that need clarification:" "Normal";
        Spacer 1 12; Paragraph "No items identified." "Normal"; Spacer 1 20;
        Paragraph "Timeline & Key Dates" "SectionHeader";
        Paragraph "Important milestones and deadlines:" "Normal";
        Spacer 1 12;
        Paragraph "No timeline information available." "Normal"; Spacer 1 20] /\
  (forall title intro,
     bullet_section repr title intro []
     = [Paragraph title "SectionHeader"; Paragraph intro "Normal"; Spacer 1 12;
        Paragraph "No items identified." "Normal"; Spacer 1 20]) /\
  timeline_section []
  = [Paragraph "Timeline & Key Dates" "SectionHeader";
     Paragraph "Important milestones and deadlines:" "Normal"; Spacer 1 12;
     Paragraph "No timeline information available." "Normal"; Spacer 1 20].
Proof.
  split; [|split; [|by repeat split]].
  - intros key Hkey. split; [|split].
    + unfold items_of. by rewrite Hkey.
    + unfold records_of, items_of. by rewrite Hkey.
    + unfold generate_analysis_pdf.
      by rewrite !py_get_set_absent.
  - intros [Hlists Hrecords].
    assert (Hsection : forall key title intro, intro <> [] ->
      key ∈ ["client_problems"; "requirements"; "gotchas"] ->
      exists items,
        py_get (PyDict analysis) key (PyList []) = Return items /\
        _create_bullet_section repr title items (Some intro)
        = Return (bullet_section repr title intro (items_of key analysis))).
    { intros key title intro Hintro Hkey.
      rewrite py_get_dict. unfold items_of.
      destruct (dict_get key analysis) as [v|] eqn:E.
      - destruct (Hlists key v Hkey E) as [l ->].
        eexists. split; [done|]. by apply create_bullet_section_list.
      - eexists. split; [done|]. by apply create_bullet_section_list. }
    assert (Htimeline : exists timeline,
      py_get (PyDict analysis) "timeline" (PyList []) = Return timeline /\
      _create_timeline_section timeline
      = Return (timeline_section (records_of "timeline" analysis))).
    { rewrite py_get_dict.
      destruct (dict_get "timeline" analysis) as [v|] eqn:E.
      - destruct (Hrecords v eq_refl) as [entries ->].
        rewrite (records_of_records _ _ _ E).
        eexists. split; [done|]. apply create_timeline_section_records.
      - eexists. split; [done|].
        unfold records_of, items_of. rewrite E. reflexivity. }
    unfold generate_analysis_pdf, report.
    destruct (Hsection "client_problems" "Client Problems & Challenges"
                "Key issues and challenges the client is trying to resolve:")
      as (v1 & Hg1 & Hs1); [done | repeat constructor |].
    rewrite Hg1. cbn [mbind result_bind]. rewrite Hs1. cbn [mbind result_bind].
    destruct (Hsection "requirements" "Specific Requirements"
                "Must-have requirements, deliverables, and constraints:")
      as (v2 & Hg2 & Hs2); [done | repeat constructor |].
    rewrite Hg2. cbn [mbind result_bind]. rewrite Hs2. cbn [mbind result_bind].
    destruct (Hsection "gotchas" "Gotchas & Ambiguities"
                "Red-flag items that need clarification:")
      as (v3 & Hg3 & Hs3); [done | repeat constructor |].
    rewrite Hg3. cbn [mbind result_bind]. rewrite Hs3. cbn [mbind result_bind].
    destruct Htimeline as (v4 & Hg4 & Hs4).
    rewrite Hg4. cbn [mbind result_bind]. rewrite Hs4. cbn [mbind result_bind].
    unfold title_page.
    by rewrite <- !app_assoc.
Qed.

(** Claim C7, as the code has it.  For a timeline of records the section is
    rendered without failure; when the timeline is not empty it holds one
    table, the header row (Event, Date) followed by the row of each entry
    in order, with "Unknown Event" and "TBD" for a missing field; when the
    timeline is empty it holds no table. *)
Theorem timeline_table_rows (entries : list dict) :
  exists story,
    _create_timeline_section (PyList (map PyDict entries)) = Return story /\
    tables story
    = match entries with
      | [] => []
      | _ => [[PyStr "Event"; PyStr "Date"] :: map timeline_row entries]
      end.
Proof.
  exists (timeline_section entries).
  split; [apply create_timeline_section_records|].
  by destruct entries.
Qed.
End Report.

(** [report_total_over_missing_keys] at an analysis with one key of six. *)
Lemma report_total_over_missing_keys_witness :
  RFPAnalysisGenerator.generate_analysis_pdf (fun _ => "")
    (PyDict [("gotchas", PyList [PyStr "Budget not disclosed"])]) "rfp.pdf" "now"
  = Return (ReportSpec.report (fun _ => "")
              [("gotchas", PyList [PyStr "Budget not disclosed"])] "rfp.pdf" "now").
Proof.
  apply (report_total_over_missing_keys (fun _ => "")).
  split.
  - intros key v _ Hv. simpl in Hv.
    destruct (bool_decide (key = "gotchas")); [|done].
    injection Hv as <-. eauto.
  - intros v Hv. discriminate Hv.
Defined.

(** [timeline_table_rows] at the entry [{"event": "Kickoff"}]: the row is
    ("Kickoff", "TBD"). *)
Lemma timeline_table_rows_witness :
  exists story,
    RFPAnalysisGenerator._create_timeline_section
      (PyList [PyDict [("event", PyStr "Kickoff")]]) = Return story /\
    ReportSpec.tables story
    = [[[PyStr "Event"; PyStr "Date"]; [PyStr "Kickoff"; PyStr "TBD"]]].
Proof.
  exact (timeline_table_rows [[("event", PyStr "Kickoff")]]).
Defined.

(** Claim C7 fails here: for the empty timeline the section has no table,
    hence no header row; it has the "no timeline information" line. *)
Lemma timeline_empty_has_no_table :
  exists story,
    RFPAnalysisGenerator._create_timeline_section (PyList []) = Return story /\
    ReportSpec.tables story = [] /\
    RFPAnalysisGenerator.Paragraph "No timeline information available." "Normal"
      ∈ story.
Proof.
  eexists. split; [reflexivity|]. split; [reflexivity|].
  repeat constructor.
Qed.

(** ** The Workbook Renderer *)
Section Sheets.
Import RFPExcelGenerator.
Implicit Types (ws : worksheet) (coord k : column * Z) (row : Z).

#[local] Abbreviation value_at ws coord := (value (get_cell ws coord)).

Lemma get_cell_update f coord k ws :
  get_cell (update_cell f coord ws) k
  = if decide (coord = k) then f (get_cell ws coord) else get_cell ws k.
Proof.
  unfold get_cell, update_cell. simpl.
  rewrite lookup_insert. by destruct (decide (coord = k)).
Qed.

Lemma value_at_style f coord k ws :
  (forall c, value (f c) = value c) ->
  value_at (update_cell f coord ws) k = value_at ws k.
Proof.
  intros Hf. rewrite get_cell_update.
  destruct (decide (coord = k)) as [->|]; [apply Hf | done].
Qed.

Lemma value_at_set_value coord v k ws :
  value_at (set_value coord v ws) k
  = if decide (coord = k) then v else value_at ws k.
Proof.
  unfold set_value. rewrite get_cell_update.
  by destruct (decide (coord = k)).
Qed.

Lemma is_Some_update f coord k ws :
  is_Some (cells (update_cell f coord ws) !! k)
  <-> coord = k \/ is_Some (cells ws !! k).
Proof.
  unfold update_cell. simpl. rewrite lookup_insert.
  destruct (decide (coord = k)) as [->|]; split; eauto.
  intros [?|?]; done.
Qed.

(** [max_row] is the greatest row with a cell. *)
Lemma max_row_spec ws last :
  1 <= last -> rows_within ws last ->
  (exists c, is_Some (cells ws !! (c, last))) ->
  max_row ws = last.
Proof.
  intros Hlast Hws [c Hc]. unfold max_row, rows_within in *.
  generalize dependent (cells ws). clear ws. intros m Hws Hc.
  assert (H : 1 <= map_fold (fun coord (_ : cell) r => Z.max (snd coord) r) 1 m /\
    (forall k, is_Some (m !! k) ->
       snd k <= map_fold (fun coord (_ : cell) r => Z.max (snd coord) r) 1 m) /\
    (map_fold (fun coord (_ : cell) r => Z.max (snd coord) r) 1 m = 1 \/
     exists k, is_Some (m !! k) /\
       snd k = map_fold (fun coord (_ : cell) r => Z.max (snd coord) r) 1 m)).
  { clear. apply (map_fold_weak_ind (fun r m =>
      1 <= r /\ (forall k, is_Some (m !! k) -> snd k <= r) /\
      (r = 1 \/ exists k, is_Some (m !! k) /\ snd k = r))).
    - split; [lia|]. split; [|by left].
      intros k Hk. rewrite lookup_empty in Hk. by destruct Hk.
    - intros k x m' r Hfresh (H1 & H2 & H3). split; [lia|]. split.
      + intros k' Hk'. rewrite lookup_insert in Hk'.
        destruct (decide (k = k')) as [->|]; [lia|].
        specialize (H2 k' Hk'). lia.
      + destruct (Z.max_spec (snd k) r) as [[Hlt ->]|[Hge ->]].
        * destruct H3 as [->|(k' & Hk' & <-)]; [by left|].
          right. exists k'. split; [|done].
          rewrite lookup_insert. destruct (decide (k = k')); [done|]. done.
        * right. exists k. split; [|done].
          rewrite lookup_insert_eq. done. }
  destruct H as (H1 & H2 & H3).
  specialize (H2 (c, last) Hc). simpl in H2.
  destruct H3 as [H3|((c', r') & Hk & H3)]; [lia|].
  specialize (Hws c' r' Hk). simpl in H3. lia.
Qed.

Lemma cells_merge_cells range ws : cells (merge_cells range ws) = cells ws.
Proof. reflexivity. Qed.

(** Formatting a row leaves every value as it is. *)
Lemma value_at_format_row row ws k :
  value_at (format_row row ws) k = value_at ws k.
Proof. sheet_updates. by rewrite !value_at_style. Qed.

Lemma is_Some_format_row row ws c r :
  is_Some (cells (format_row row ws) !! (c, r))
  <-> r = row \/ is_Some (cells ws !! (c, r)).
Proof.
  sheet_updates. rewrite !is_Some_update.
  destruct c; split; intros H; repeat destruct H as [H|H];
    simplify_eq; eauto 10.
Qed.

Lemma value_at_written_other row a b c ws col r :
  r <> row -> value_at (written row a b c ws) (col, r) = value_at ws (col, r).
Proof.
  intros Hr. unfold written.
  rewrite value_at_format_row, !value_at_set_value.
  rewrite !decide_False by congruence. done.
Qed.

Lemma row_values_written row a b c ws :
  row_values (written row a b c ws) row = (a, b, c).
Proof.
  unfold row_values, written.
  rewrite !value_at_format_row, !value_at_set_value.
  repeat (first [rewrite decide_True by done | rewrite decide_False by done]).
  done.
Qed.

Lemma is_Some_written row a b c ws col r :
  is_Some (cells (written row a b c ws) !! (col, r))
  <-> r = row \/ is_Some (cells ws !! (col, r)).
Proof.
  unfold written. rewrite is_Some_format_row.
  unfold set_value. rewrite !is_Some_update.
  split; intros H; repeat destruct H as [H|H]; simplify_eq; eauto 10.
Qed.

(** What a run of data rows leaves in the sheet, for any body of the loop
    that writes its row as [written] does, up to styles. *)
Section Rows.
Variable rows : list (Z * pyobj) -> Z -> worksheet -> worksheet.
Variable third : pyobj.
Variable style : Z -> worksheet -> worksheet.
Hypothesis rows_nil : forall row ws, rows [] row ws = ws.
Hypothesis rows_cons : forall idx x rest row ws,
  rows ((idx, x) :: rest) row ws
  = rows rest (row + 1) (style row (written row (PyInt idx) x third ws)).
Hypothesis style_value : forall row ws k,
  value_at (style row ws) k = value_at ws k.
Hypothesis style_keeps : forall row ws k,
  is_Some (cells ws !! k) -> is_Some (cells (style row ws) !! k).
Hypothesis style_adds : forall row ws c r,
  is_Some (cells (style row ws) !! (c, r)) ->
  r = row \/ is_Some (cells ws !! (c, r)).

Lemma rows_cells items start row ws c r :
  is_Some (cells (rows (enumerate items start) row ws) !! (c, r))
  <-> row <= r < row + len items \/ is_Some (cells ws !! (c, r)).
Proof.
  revert start row ws. induction items as [|x items IH]; intros start row ws.
  - simpl. rewrite rows_nil. unfold len. simpl. split; [eauto | intros [?|?]; [lia | done]].
  - simpl. rewrite rows_cons, IH.
    unfold len. rewrite length_cons, Nat2Z.inj_succ. split.
    + intros [H|H]; [left; lia|].
      apply style_adds in H as [H|H]; [left; lia|].
      apply is_Some_written in H as [H|H]; [left; lia | by right].
    + intros [H|H].
      * destruct (decide (r = row)); [right | left; lia].
        apply style_keeps, is_Some_written. by left.
      * right. apply style_keeps, is_Some_written. by right.
Qed.

Lemma rows_value_outside items start row ws c r :
  r < row \/ row + len items <= r ->
  value_at (rows (enumerate items start) row ws) (c, r) = value_at ws (c, r).
Proof.
  revert start row ws. induction items as [|x items IH]; intros start row ws Hr.
  - simpl. by rewrite rows_nil.
  - simpl. rewrite rows_cons. unfold len in *. simpl length in Hr.
    rewrite IH by (unfold len; lia).
    rewrite style_value. apply value_at_written_other. lia.
Qed.

Lemma rows_row_values items start row ws (i : nat) x :
  items !! i = Some x ->
  row_values (rows (enumerate items start) row ws) (row + Z.of_nat i)
  = (PyInt (start + Z.of_nat i), x, third).
Proof.
  revert start row ws i.
  induction items as [|y items IH]; intros start row ws i Hi; [done|].
  simpl. rewrite rows_cons. destruct i as [|i]; simpl in Hi.
  - injection Hi as ->. rewrite !Z.add_0_r.
    unfold row_values. rewrite !rows_value_outside by lia.
    rewrite !style_value. apply row_values_written.
  - replace (row + Z.of_nat (S i)) with (row + 1 + Z.of_nat i) by lia.
    rewrite (IH (start + 1) (row + 1) _ i Hi).
    by replace (start + 1 + Z.of_nat i) with (start + Z.of_nat (S i)) by lia.
Qed.

(** The rows read back from a sheet whose cells are those of [ws], a sheet
    that ends with its header row at row 5, after the loop has run. *)
Lemma rows_read_back items ws sheet_ :
  (forall c r, is_Some (cells ws !! (c, r)) -> r <= 5) ->
  is_Some (cells ws !! (col_A, 5)) ->
  cells sheet_ = cells (rows (enumerate items 1) 6 ws) ->
  iter_rows sheet_ 6
  = imap (fun i x => (PyInt (1 + Z.of_nat i), x, third)) items /\
  iter_rows sheet_ 5
  = row_values ws 5
    :: imap (fun i x => (PyInt (1 + Z.of_nat i), x, third)) items.
Proof.
  intros Hws Hheader Hcells.
  set (R := rows (enumerate items 1) 6 ws) in *.
  assert (Hsame : forall m, iter_rows sheet_ m = iter_rows R m).
  { intros m. unfold iter_rows, max_row, row_values, get_cell.
    by rewrite Hcells. }
  rewrite !Hsame. clear Hsame Hcells sheet_.
  assert (Hmax : max_row R = 5 + len items).
  { pose proof (len_nonneg items).
    apply max_row_spec; [lia | |].
    - intros c r [Hc|Hc]%rows_cells; [lia|]. specialize (Hws c r Hc). lia.
    - exists col_A. apply rows_cells.
      destruct (decide (len items = 0)) as [->|]; [by right | left; lia]. }
  assert (Hdata : map (row_values R) (seqZ 6 (len items))
                  = imap (fun i x => (PyInt (1 + Z.of_nat i), x, third)) items).
  { apply list_eq. intros i.
    rewrite list_lookup_fmap, list_lookup_imap.
    destruct (items !! i) as [x|] eqn:E; simpl.
    - rewrite lookup_seqZ_lt
        by (apply lookup_lt_Some in E; unfold len; lia).
      simpl. f_equal. by apply rows_row_values.
    - rewrite lookup_seqZ_ge; [done|].
      apply lookup_ge_None in E. unfold len. lia. }
  unfold iter_rows. rewrite Hmax. split.
  - by replace (5 + len items - 6 + 1) with (len items) by lia.
  - pose proof (len_nonneg items).
    rewrite seqZ_cons by lia. simpl map.
    replace (Z.succ 5) with 6 by lia.
    replace (Z.pred (5 + len items - 5 + 1)) with (len items) by lia.
    rewrite Hdata. f_equal.
    unfold row_values, R. by rewrite !rows_value_outside by lia.
Qed.
End Rows.

(** The sheet before its data rows: the heading on rows 1 to 3 and the
    header on row 5. *)
Lemma header_sheet_cells title rfp_filename now a b c col r :
  is_Some (cells (header_row 5 a b c
                    (sheet_heading title rfp_filename now empty_sheet))
           !! (col, r)) -> r <= 5.
Proof.
  sheet_updates.
  repeat (rewrite is_Some_update || rewrite cells_merge_cells).
  intros H. repeat (destruct H as [H|H]; [injection H as <- <-; lia|]).
  simpl in H. rewrite lookup_empty in H. by destruct H.
Qed.

Lemma header_sheet_header title rfp_filename now a b c :
  let ws := header_row 5 a b c
              (sheet_heading title rfp_filename now empty_sheet) in
  is_Some (cells ws !! (col_A, 5)) /\
  row_values ws 5 = (PyStr a, PyStr b, PyStr c).
Proof.
  intros ws. split.
  - unfold ws. sheet_updates. rewrite !is_Some_update.
    repeat (first [left; reflexivity | right]).
  - unfold ws, row_values, header_row, for_columns,
      set_fill, set_font, set_alignment, set_border.
    cbn [foldl]. rewrite !value_at_style by done.
    rewrite !value_at_set_value.
    repeat (first [rewrite decide_True by done | rewrite decide_False by done]).
    done.
Qed.

Lemma next_steps_sheet_read_back (steps : list pyobj) rfp_filename now :
  exists ws,
    _create_next_steps_sheet empty_sheet (PyList steps) rfp_filename now
    = Return ws /\
    iter_rows ws 6
    = imap (fun i x => (PyInt (1 + Z.of_nat i), x, PyStr "Pending")) steps /\
    iter_rows ws 5
    = (PyStr "#", PyStr "Action Item", PyStr "Status")
      :: imap (fun i x => (PyInt (1 + Z.of_nat i), x, PyStr "Pending")) steps.
Proof.
  eexists. split; [reflexivity|].
  destruct (header_sheet_header "Next Steps for Proposal Team" rfp_filename now
              "#" "Action Item" "Status") as [Hcell Hrow].
  rewrite <- Hrow.
  apply (rows_read_back next_steps_rows (PyStr "Pending") (fun _ ws => ws));
    try done.
  - intros row ws c r H. by right.
  - intros c r. apply header_sheet_cells.
Qed.

Lemma alignment_questions_sheet_read_back (questions : list pyobj)
    rfp_filename now :
  exists ws,
    _create_alignment_questions_sheet empty_sheet (PyList questions)
      rfp_filename now = Return ws /\
    iter_rows ws 6
    = imap (fun i x => (PyInt (1 + Z.of_nat i), x, PyStr "")) questions /\
    iter_rows ws 5
    = (PyStr "#", PyStr "Question", PyStr "Answer / Notes")
      :: imap (fun i x => (PyInt (1 + Z.of_nat i), x, PyStr "")) questions.
Proof.
  eexists. split; [reflexivity|].
  destruct (header_sheet_header "Strategic Alignment Questions" rfp_filename now
              "#" "Question" "Answer / Notes") as [Hcell Hrow].
  rewrite <- Hrow.
  apply (rows_read_back alignment_questions_rows (PyStr "")
           (fun row => set_fill (col_C, row)
              {| start_color := "F3F4F6"; end_color := "F3F4F6";
                 fill_type := "solid" |})); try done.
  - intros row ws k. by apply value_at_style.
  - intros row ws k H. apply is_Some_update. by right.
  - intros row ws c r [H|H]%is_Some_update; [|by right].
    injection H as <- <-. by left.
  - intros c r. apply header_sheet_cells.
Qed.

(** Claim C8.  The workbook has the two tabs "Next Steps" and "Alignment
    Questions", in this order; read back from the row after the header,
    the first has the rows (i, step i, "Pending") and the second the rows
    (i, question i, ""), i counting from 1, in the order of the lists, and
    no other row. *)
Theorem workbook_data_rows (next_steps alignment_questions : list str)
    (rfp_filename now : str) :
  exists steps_sheet questions_sheet,
    generate_workbook (PyList (map PyStr next_steps))
      (PyList (map PyStr alignment_questions)) rfp_filename now
    = Return [("Next Steps", steps_sheet);
              ("Alignment Questions", questions_sheet)] /\
    iter_rows steps_sheet 6
    = imap (fun i step => (PyInt (1 + Z.of_nat i), PyStr step, PyStr "Pending"))
           next_steps /\
    iter_rows questions_sheet 6
    = imap (fun i question => (PyInt (1 + Z.of_nat i), PyStr question, PyStr ""))
           alignment_questions.
Proof.
  destruct (next_steps_sheet_read_back (map PyStr next_steps) rfp_filename now)
    as (s & Hs & Hs6 & _).
  destruct (alignment_questions_sheet_read_back (map PyStr alignment_questions)
              rfp_filename now) as (q & Hq & Hq6 & _).
  exists s, q. unfold generate_workbook. rewrite Hs, Hq.
  split; [reflexivity|].
  rewrite Hs6, Hq6. by rewrite !imap_fmap.
Qed.

(** Claim C9.  With an empty [next_steps], and likewise with an empty
    [alignment_questions], the workbook is returned, the tab is there, its
    rows from row 5 on are the header row alone, and it has no data row. *)
Theorem workbook_empty_lists (others : list str) (rfp_filename now : str) :
  (exists steps_sheet questions_sheet,
     generate_workbook (PyList []) (PyList (map PyStr others)) rfp_filename now
     = Return [("Next Steps", steps_sheet);
               ("Alignment Questions", questions_sheet)] /\
     iter_rows steps_sheet 5 = [(PyStr "#", PyStr "Action Item", PyStr "Status")] /\
     iter_rows steps_sheet 6 = []) /\
  (exists steps_sheet questions_sheet,
     generate_workbook (PyList (map PyStr others)) (PyList []) rfp_filename now
     = Return [("Next Steps", steps_sheet);
               ("Alignment Questions", questions_sheet)] /\
     iter_rows questions_sheet 5
     = [(PyStr "#", PyStr "Question", PyStr "Answer / Notes")] /\
     iter_rows questions_sheet 6 = []).
Proof.
  split.
  - destruct (next_steps_sheet_read_back [] rfp_filename now)
      as (s & Hs & Hs6 & Hs5).
    destruct (alignment_questions_sheet_read_back (map PyStr others)
                rfp_filename now) as (q & Hq & _).
    exists s, q. unfold generate_workbook. by rewrite Hs, Hq.
  - destruct (next_steps_sheet_read_back (map PyStr others) rfp_filename now)
      as (s & Hs & _).
    destruct (alignment_questions_sheet_read_back [] rfp_filename now)
      as (q & Hq & Hq6 & Hq5).
    exists s, q. unfold generate_workbook. by rewrite Hs, Hq.
Qed.
End Sheets.

(** ** The end-to-end scenario, run *)

Example text_operations :
  find "ab```json{}```" "```json" = 2 /\
  find_from "ab```json{}```" "```" 9 = 11 /\
  rfind "{a}{b}" "}" = 5 /\ find "abc" "{" = -1 /\
  slice "hello" 1 (-1) = "ell" /\
  strip "
 {x}
" = "{x}" /\
  join ", " ["a"; "b"; "c"] = "a, b, c" /\
  str_of_int 1205 = "1205" /\ str_of_int (-7) = "-7" /\
  length "• x" = 3%nat.
Proof. vm_compute. repeat split. Qed.

(** The reference decoder refuses a text that starts with a backtick, so a
    reply that opens with a fence is never JSON as a whole. *)
Lemma loads_backtick (rest : str) : Json.loads ("`" ++ rest) = None.
Proof. reflexivity. Qed.

Example decoder_values :
  Json.loads (qq "{'a': [1, -2.5e0, true, null], 'b': 'x\u00e9y', 'a': 3}")
  = Some (PyDict [("a", PyInt 3); ("b", PyStr "xéy")]) /\
  Json.loads "[1,]" = None /\ Json.loads "01" = None /\
  Json.loads " [ ] " = Some (PyList []) /\
  Json.loads "0.1" = Some (PyFloat (S754_finite false 7205759403792794 (-56))).
Proof. vm_compute. repeat split. Qed.

Example scenario_analysis :
  exists analysis,
    ClaudeRFPClient._parse_json_response Json.loads
      ("Here is the analysis:
```json
" ++ scenario_reply ++ "
```") = Return (PyDict analysis) /\
    ClaudeRFPClient.validate_analysis_structure (PyDict analysis) = Return true /\
    exists story,
      RFPAnalysisGenerator.generate_analysis_pdf (fun _ => "")
        (PyDict analysis) "rfp.pdf" "March 01, 2025 at 09:00 AM" = Return story /\
      bullets story
      = ["• Legacy system cannot scale"; "• Must support 10k concurrent users";
         "• Budget not disclosed"] /\
      ReportSpec.tables story
      = [[[PyStr "Event"; PyStr "Date"];
          [PyStr "Proposal Due"; PyStr "2025-03-01"]]].
Proof.
  eexists. split; [vm_compute; reflexivity|].
  split; [vm_compute; reflexivity|].
  eexists. split; [vm_compute; reflexivity|].
  split; vm_compute; reflexivity.
Qed.

Example scenario_workbook :
  exists steps_sheet questions_sheet,
    RFPExcelGenerator.generate_workbook
      (PyList [PyStr "Schedule kickoff call"])
      (PyList [PyStr "What is our differentiator?"]) "rfp.pdf" "2025-03-01 09:00"
    = Return [("Next Steps", steps_sheet);
              ("Alignment Questions", questions_sheet)] /\
    RFPExcelGenerator.iter_rows steps_sheet 5
    = [(PyStr "#", PyStr "Action Item", PyStr "Status");
       (PyInt 1, PyStr "Schedule kickoff call", PyStr "Pending")] /\
    RFPExcelGenerator.iter_rows questions_sheet 5
    = [(PyStr "#", PyStr "Question", PyStr "Answer / Notes");
       (PyInt 1, PyStr "What is our differentiator?", PyStr "")].
Proof.
  eexists _, _. split; [vm_compute; reflexivity|].
  split; vm_compute; reflexivity.
Qed.

(** A timeline entry that is not a record passes the validation and fails
    in the renderer. *)
Example timeline_entry_not_a_record :
  RFPAnalysisGenerator._create_timeline_section (PyList [PyStr "Kickoff"])
  = Raise (Error AttributeError_ "'str' object has no attribute 'get'").
Proof. reflexivity. Qed.

(** * Further properties of the code *)

(** ** The Analysis Client: validation of values that are not objects *)
Section ValidationShapes.
Import ClaudeRFPClient.

Lemma list_has_str_elem (key : str) (l : list pyobj) :
  list_has_str key l = true <-> PyStr key ∈ l.
Proof.
  induction l as [|x l IH]; simpl.
  - split; [done | by intros ?%elem_of_nil].
  - rewrite elem_of_cons, <- IH.
    destruct x; try (split; [by right | by intros [?|?]]).
    rewrite orb_true_iff, bool_decide_eq_true.
    split; intros [H|H]; eauto; [left; congruence | left; congruence].
Qed.

Lemma missing_in_sized (o : pyobj) (has : str -> bool) fields :
  (forall f, py_in f o = Return (has f)) ->
  missing_in o fields = Return (filter (fun f => has f = false) fields).
Proof.
  intros Hin. induction fields as [|f fields IH]; [done|].
  simpl. rewrite Hin, IH. simpl. rewrite filter_cons.
  by destruct (has f).
Qed.

Lemma validate_sized (o : pyobj) (has : str -> bool) :
  (forall f, py_in f o = Return (has f)) ->
  validate_analysis_structure o = Return true
  <-> forall f, f ∈ required_fields -> has f = true.
Proof.
  intros Hin. unfold validate_analysis_structure.
  rewrite (missing_in_sized o has) by done. cbn [mbind result_bind].
  destruct (filter _ required_fields) as [|m ms] eqn:E.
  - split; [|done]. intros _ f Hf.
    destruct (has f) eqn:Hhas; [done|].
    assert (f ∈ filter (fun f => has f = false) required_fields)
      by (by apply list_elem_of_filter).
    rewrite E in H. by apply elem_of_nil in H.
  - split; [done|]. intros Hall.
    assert (m ∈ filter (fun f => has f = false) required_fields)
      by (rewrite E; left).
    apply list_elem_of_filter in H as [H1 H2].
    rewrite (Hall m H2) in H1. done.
Qed.

(** Property X1.  [validate_analysis_structure] tests the keys with [in],
    which is also defined on lists and on strings: a JSON array is accepted
    when the six names are among its elements, a JSON string when each name
    occurs in it; on [null], a boolean or a number the test raises
    [TypeError]. *)
Theorem validate_analysis_structure_accepts_any_container :
  (forall l : list pyobj,
     validate_analysis_structure (PyList l) = Return true
     <-> forall f, f ∈ required_fields -> PyStr f ∈ l) /\
  (forall s : str,
     validate_analysis_structure (PyStr s) = Return true
     <-> forall f, f ∈ required_fields -> contains f s = true) /\
  (forall o, unsized o ->
     exists text, validate_analysis_structure o = Raise (Error TypeError_ text)).
Proof.
  split; [|split].
  - intros l. rewrite (validate_sized (PyList l) (fun f => list_has_str f l)) by done.
    by setoid_rewrite list_has_str_elem.
  - intros s. by rewrite (validate_sized (PyStr s) (fun f => contains f s)).
  - intros o Ho. destruct o; try done; eexists; reflexivity.
Qed.
End ValidationShapes.

(** ** The Analysis Client: outcomes of [analyze_rfp] *)
Section Outcomes.
Import ClaudeRFPClient.
Variable json_loads : str -> option pyobj.
Variable decoder_message : str -> str.
Variable create : request -> result (list content_block).
#[local] Abbreviation parse := (_parse_json_response json_loads).
#[local] Abbreviation analyze := (analyze_rfp json_loads decoder_message create).
#[local] Abbreviation str_of := (str_of_exn decoder_message).

Lemma parse_raises reply e :
  parse reply = Raise e -> class_of e = JSONDecodeError_.
Proof.
  unfold _parse_json_response, loads.
  destruct (json_loads reply); [done|].
  repeat match goal with
  | |- context [if ?b then _ else _] => destruct b
  | |- context [match json_loads ?t with _ => _ end] => destruct (json_loads t)
  end; intros H; try done; by injection H as <-.
Qed.

Lemma handlers_plain e :
  isinstance e Exception_ = true ->
  exists text, analyze_rfp_handlers decoder_message e = Error Exception_ text.
Proof.
  intros H. unfold analyze_rfp_handlers.
  destruct (isinstance e APIError_); [by eexists|].
  destruct (isinstance e APITimeoutError_); [by eexists|].
  destruct (isinstance e JSONDecodeError_); [by eexists|].
  rewrite H. by eexists.
Qed.

Lemma handlers_decode_error e :
  class_of e = JSONDecodeError_ ->
  analyze_rfp_handlers decoder_message e
  = Error Exception_ ("Failed to parse Claude response as JSON: " ++ str_of e).
Proof.
  intros H. unfold analyze_rfp_handlers, isinstance. by rewrite H.
Qed.

Lemma errmsg_at_start msg doc :
  errmsg msg doc 0 = msg ++ ": line 1 column 1 (char 0)".
Proof.
  unfold errmsg.
  assert (H : slice doc 0 0 = []).
  { unfold slice. pose proof (len_nonneg doc).
    rewrite clamp_inside by lia. done. }
  rewrite H. reflexivity.
Qed.

(** Property X2.  [analyze_rfp] returns a value exactly when the endpoint
    returns a content whose first block is a text block and
    [_parse_json_response] returns that value on its text; the request is
    the one document and the prompt, for the fixed model and 16000 tokens;
    the blocks after the first are not read. *)
Theorem analyze_rfp_returns_iff (pdf_base64 prompt : str) (v : pyobj) :
  analyze pdf_base64 prompt = Return v
  <-> exists reply others,
        create {| model := "claude-sonnet-4-20250514"; max_tokens := 16000;
                  media_type := "application/pdf"; document := pdf_base64;
                  text := prompt |} = Return (TextBlock reply :: others)
        /\ parse reply = Return v.
Proof.
  unfold analyze_rfp.
  destruct (create _) as [content|e]; cbn [mbind result_bind].
  - destruct content as [|[reply|c] others]; cbn [first_text mbind result_bind].
    + split; [done | by intros (? & ? & ? & _)].
    + destruct (parse reply) as [w|e] eqn:E; cbn [mbind result_bind mret result_ret].
      * split; [intros [= ->]; eauto|].
        intros (r & o & [= <- <-] & Hp). congruence.
      * split; [done|]. intros (r & o & [= <- <-] & Hp). congruence.
    + split; [done | by intros (? & ? & ? & _)].
  - split; [done | by intros (? & ? & ? & _)].
Qed.

Lemma analyze_rfp_parse_error (pdf_base64 prompt reply : str) others e :
  create {| model := "claude-sonnet-4-20250514"; max_tokens := 16000;
            media_type := "application/pdf"; document := pdf_base64;
            text := prompt |} = Return (TextBlock reply :: others) ->
  parse reply = Raise e ->
  analyze pdf_base64 prompt
  = Raise (Error Exception_
             ("Failed to parse Claude response as JSON: " ++ str_of e)).
Proof.
  intros Hc Hp. unfold analyze_rfp.
  rewrite Hc. cbn [first_text mbind result_bind]. rewrite Hp.
  cbn [mbind result_bind]. f_equal.
  apply handlers_decode_error. by apply (parse_raises reply).
Qed.

Lemma analyze_rfp_no_json (pdf_base64 prompt reply : str) others :
  create {| model := "claude-sonnet-4-20250514"; max_tokens := 16000;
            media_type := "application/pdf"; document := pdf_base64;
            text := prompt |} = Return (TextBlock reply :: others) ->
  json_loads reply = None ->
  contains "```" reply = false -> contains "{" reply = false ->
  analyze pdf_base64 prompt
  = Raise (Error Exception_
             "Failed to parse Claude response as JSON: Could not find valid JSON in response: line 1 column 1 (char 0)").
Proof.
  intros Hc Hl Hf Hb.
  rewrite (analyze_rfp_parse_error pdf_base64 prompt reply others
             (JSONDecodeError "Could not find valid JSON in response" reply 0));
    [| done |].
  { cbn [str_of_exn]. by rewrite errmsg_at_start. }
  rewrite parse_braces by done.
  unfold RecoverySpec.braces. rewrite find_eq, (contains_index_of _ _ Hb).
  reflexivity.
Qed.

(** Property X3.  How [analyze_rfp] fails.  Whatever it raises that is an
    [Exception] is a plain [Exception] with a message; a reply that cannot
    be parsed gives "Failed to parse Claude response as JSON: " followed by
    the text of the decoder's error; for a reply with no fence and no
    brace that text is the client's own, at position 0; a reply with no
    content block gives "Unexpected error during RFP analysis: list index
    out of range". *)
Theorem analyze_rfp_errors (pdf_base64 prompt : str) :
  let request := {| model := "claude-sonnet-4-20250514"; max_tokens := 16000;
                    media_type := "application/pdf"; document := pdf_base64;
                    text := prompt |} in
  (forall e, analyze pdf_base64 prompt = Raise e ->
     (exists text, e = Error Exception_ text) \/ isinstance e Exception_ = false) /\
  (forall reply others e,
     create request = Return (TextBlock reply :: others) ->
     parse reply = Raise e ->
     analyze pdf_base64 prompt
     = Raise (Error Exception_
                ("Failed to parse Claude response as JSON: " ++ str_of e))) /\
  (forall reply others,
     create request = Return (TextBlock reply :: others) ->
     json_loads reply = None ->
     contains "```" reply = false -> contains "{" reply = false ->
     analyze pdf_base64 prompt
     = Raise (Error Exception_
                "Failed to parse Claude response as JSON: Could not find valid JSON in response: line 1 column 1 (char 0)")) /\
  (create request = Return [] ->
   analyze pdf_base64 prompt
   = Raise (Error Exception_
              "Unexpected error during RFP analysis: list index out of range")).
Proof.
  intros request.
  split; [|split; [|split]].
  - intros e. unfold analyze_rfp. fold request.
    assert (Hh : forall e0, Raise (A := pyobj) (analyze_rfp_handlers decoder_message e0) = Raise e ->
      (exists text, e = Error Exception_ text) \/ isinstance e Exception_ = false).
    { intros e0 [= <-].
      destruct (isinstance e0 Exception_) eqn:E.
      - left. by apply handlers_plain.
      - right. unfold analyze_rfp_handlers.
        assert (Hsub : forall c, issubclass c Exception_ = true ->
                  isinstance e0 c = false).
        { intros c Hc. unfold isinstance in *.
          destruct (class_of e0), c; vm_compute in E, Hc |- *; congruence. }
        rewrite !Hsub by reflexivity. done. }
    destruct (create request) as [content|e0]; cbn [mbind result_bind]; [|apply Hh].
    destruct content as [|[reply|c] others]; cbn [first_text mbind result_bind];
      [apply Hh | | apply Hh].
    destruct (parse reply); cbn [mbind result_bind mret result_ret]; [done|apply Hh].
  - intros reply others e. apply analyze_rfp_parse_error.
  - intros reply others. apply analyze_rfp_no_json.
  - intros Hc. unfold analyze_rfp. fold request. by rewrite Hc.
Qed.
End Outcomes.

(** ** The Analysis Client: what the recovery reads *)
Section Parts.
Implicit Types (s t : str).

Lemma part_of_refl s : part_of s s.
Proof. exists [], []. by rewrite app_nil_r. Qed.

Lemma part_of_trans s t u : part_of s t -> part_of t u -> part_of s u.
Proof.
  intros (a & b & ->) (c & d & ->).
  exists (c ++ a), (b ++ d). by rewrite <- !app_assoc.
Qed.

Lemma slice_part s (i j : Z) : part_of (slice s i j) s.
Proof.
  unfold slice.
  set (a := Z.to_nat (clamp (len s) i)).
  set (k := Z.to_nat (clamp (len s) j - clamp (len s) i)).
  exists (take a s), (drop k (drop a s)).
  by rewrite take_drop, take_drop.
Qed.

Lemma lstrip_part s : part_of (lstrip s) s.
Proof.
  induction s as [|c s IH]; simpl; [apply part_of_refl|].
  destruct (isspace c); [|apply part_of_refl].
  destruct IH as (a & b & H). exists (c :: a), b. simpl. by f_equal.
Qed.

Lemma rev_part s t : part_of s t -> part_of (rev s) (rev t).
Proof.
  intros (a & b & ->). exists (rev b), (rev a).
  by rewrite !rev_app_distr, <- app_assoc.
Qed.

Lemma strip_part s : part_of (strip s) s.
Proof.
  unfold strip, rstrip.
  eapply part_of_trans; [|apply lstrip_part].
  rewrite <- (rev_involutive (lstrip s)) at 2.
  apply rev_part, lstrip_part.
Qed.
End Parts.

Section Reads.
Import ClaudeRFPClient RecoverySpec.
Variable json_loads : str -> option pyobj.
#[local] Abbreviation parse := (_parse_json_response json_loads).

Lemma picks_are_parts reply text :
  Picks.tagged reply = Some text \/ Picks.fenced reply = Some text
  \/ braces reply = Some text -> part_of text reply.
Proof.
  unfold Picks.tagged, Picks.fenced, braces.
  intros [H|[H|H]];
    repeat match type of H with
    | (if ?b then _ else _) = _ => destruct b; [|done]
    end; injection H as <-.
  - eapply part_of_trans; [apply strip_part | apply slice_part].
  - eapply part_of_trans; [apply strip_part | apply slice_part].
  - apply slice_part.
Qed.

(** Property X4.  What [_parse_json_response] decodes is a contiguous part
    of the reply.  A value it returns is the decoding of such a part; when
    it raises, the reply as a whole does not decode, and the error is the
    decoder's on one such part, or the client's "Could not find valid JSON
    in response" on the reply at position 0. *)
Theorem parse_json_response_reads_a_part reply :
  (forall v, parse reply = Return v ->
     exists text, part_of text reply /\ json_loads text = Some v) /\
  (forall e, parse reply = Raise e ->
     json_loads reply = None /\
     ((exists text, part_of text reply /\ json_loads text = None
                    /\ e = DecoderError text)
      \/ e = JSONDecodeError "Could not find valid JSON in response" reply 0)).
Proof.
  rewrite parse_cases.
  destruct (json_loads reply) as [w|] eqn:Hw.
  { split; [|done]. intros v [= <-]. exists reply. split; [apply part_of_refl | done]. }
  assert (Hpick : forall text, part_of text reply ->
    (forall v, loads json_loads text = Return v ->
       exists text, part_of text reply /\ json_loads text = Some v) /\
    (forall e, loads json_loads text = Raise e ->
       None = None (A := pyobj) /\
       ((exists text, part_of text reply /\ json_loads text = None
                      /\ e = DecoderError text)
        \/ e = JSONDecodeError "Could not find valid JSON in response" reply 0))).
  { intros text Hpart. unfold loads.
    destruct (json_loads text) as [u|] eqn:Hu.
    - split; [|done]. intros v [= <-]. eauto.
    - split; [done|]. intros e [= <-]. split; [done|]. left. eauto. }
  destruct (Picks.tagged reply) as [text|] eqn:E1.
  { apply Hpick, picks_are_parts. eauto. }
  destruct (Picks.fenced reply) as [text|] eqn:E2.
  { apply Hpick, picks_are_parts. eauto. }
  destruct (braces reply) as [text|] eqn:E3.
  { apply Hpick, picks_are_parts. eauto. }
  split; [done|]. intros e [= <-]. split; [done|]. by right.
Qed.

Lemma unterminated_pick tag_rest pre rest :
  let tag := "```" ++ tag_rest in
  let reply := pre ++ tag ++ rest in
  Forall (fun c => c <> 96%N) pre ->
  contains "```" rest = false ->
  contains tag reply = true /\
  slice reply (find reply tag + len tag)
    (find_from reply "```" (find reply tag + len tag)) = removelast rest.
Proof.
  intros tag reply Hpre Hrest.
  assert (Hopen : index_of tag reply = Some (length pre)).
  { subst tag reply. by apply index_of_fence_open. }
  split; [unfold contains; by rewrite Hopen|].
  rewrite find_eq, Hopen.
  assert (Hreply : reply = (pre ++ tag) ++ rest).
  { subst reply. by rewrite <- !app_assoc. }
  assert (Hstart : Z.of_nat (length pre) + len tag = len (pre ++ tag)).
  { by rewrite len_app. }
  rewrite Hstart.
  assert (Htag : 3 <= len tag).
  { subst tag. rewrite len_app. pose proof (len_nonneg tag_rest).
    change (len ("```" : str)) with 3. lia. }
  pose proof (len_nonneg pre) as Hp. pose proof (len_nonneg rest) as Hr.
  rewrite find_from_inside by (rewrite Hreply, !len_app; lia).
  replace (Z.to_nat (len (pre ++ tag))) with (length (pre ++ tag))
    by (unfold len; by rewrite Nat2Z.id).
  assert (Hdrop : drop (length (pre ++ tag)) reply = rest)
    by (rewrite Hreply; apply drop_app_length).
  rewrite Hdrop, (contains_index_of _ _ Hrest).
  unfold slice.
  assert (Hlen : len reply = len (pre ++ tag) + len rest)
    by (by rewrite Hreply, len_app).
  rewrite (clamp_inside _ (len (pre ++ tag))) by (rewrite Hlen, len_app; lia).
  assert (Hend : clamp (len reply) (-1) = len reply - 1).
  { assert (3 <= len reply) by (rewrite Hlen, len_app; lia).
    unfold clamp. change (-1 <? 0) with true. cbv iota. lia. }
  rewrite Hend, Hlen.
  replace (Z.to_nat (len (pre ++ tag))) with (length (pre ++ tag))
    by (unfold len; by rewrite Nat2Z.id).
  rewrite Hdrop.
  replace (Z.to_nat (len (pre ++ tag) + len rest - 1 - len (pre ++ tag)))
    with (Nat.pred (length rest)) by (unfold len; lia).
  symmetry. apply removelast_firstn_len.
Qed.

(** Property X5.  A fence that is opened and never closed.  [find] then
    returns [-1] for the closing marker and the slice ends one character
    before the end of the reply: the text handed to the decoder is what
    follows the opening marker without its last character, stripped.  This
    holds for a tagged fence and for an untagged one. *)
Theorem parse_unterminated_fence pre rest :
  contains "`" pre = false -> contains "```" rest = false ->
  (json_loads (pre ++ "```json" ++ rest) = None ->
   parse (pre ++ "```json" ++ rest)
   = loads json_loads (strip (removelast rest))) /\
  (json_loads (pre ++ "```" ++ rest) = None ->
   contains "```json" (pre ++ "```" ++ rest) = false ->
   parse (pre ++ "```" ++ rest)
   = loads json_loads (strip (removelast rest))).
Proof.
  intros Hpre Hrest. split.
  - intros Hreply.
    destruct (unterminated_pick "json" pre rest
                (contains_char_Forall _ _ Hpre) Hrest) as [Hc Hp].
    set (reply := pre ++ "```json" ++ rest) in *.
    change (contains "```json" reply = true) in Hc.
    change (slice reply (find reply "```json" + 7)
              (find_from reply "```" (find reply "```json" + 7))
            = removelast rest) in Hp.
    unfold _parse_json_response. by rewrite Hreply, Hc, Hp.
  - intros Hreply Htag.
    destruct (unterminated_pick [] pre rest
                (contains_char_Forall _ _ Hpre) Hrest) as [Hc Hp].
    set (reply := pre ++ "```" ++ rest) in *.
    change (contains "```" reply = true) in Hc.
    change (slice reply (find reply "```" + 3)
              (find_from reply "```" (find reply "```" + 3))
            = removelast rest) in Hp.
    unfold _parse_json_response. by rewrite Hreply, Htag, Hc, Hp.
Qed.
End Reads.

Lemma parse_unterminated_fence_witness :
  ClaudeRFPClient._parse_json_response Json.loads
    ("Here it is:
```json
" ++ qq "{'a': 1}")
  = Raise (DecoderError (qq "{'a': 1")) /\
  ClaudeRFPClient._parse_json_response Json.loads
    ("```
" ++ qq "{'a': 1}" ++ "
")
  = Return (PyDict [("a", PyInt 1)]).
Proof.
  split.
  - apply (proj1 (parse_unterminated_fence Json.loads "Here it is:
" ("
" ++ qq "{'a': 1}") eq_refl eq_refl)). reflexivity.
  - apply (proj2 (parse_unterminated_fence Json.loads "" ("
" ++ qq "{'a': 1}" ++ "
") eq_refl eq_refl)); reflexivity.
Defined.

(** ** Base 64 and the conversion of the upload *)
Section Base64Facts.
Import Base64.

Lemma value_of_digit (n : N) : (n < 64)%N -> value_of (digit n) = Some n.
Proof.
  intros H. rewrite <- (N2Nat.id n) at 2.
  assert (Hk : (N.to_nat n < 64)%nat) by lia.
  unfold digit. revert Hk. generalize (N.to_nat n). clear. intros k Hk.
  do 64 (destruct k as [|k]; [reflexivity|]). lia.
Qed.

Lemma digit_not_pad (n : N) : (n < 64)%N -> (digit n =? 61)%N = false.
Proof.
  intros H.
  assert (Hk : (N.to_nat n < 64)%nat) by lia.
  unfold digit. revert Hk. generalize (N.to_nat n). clear. intros k Hk.
  do 64 (destruct k as [|k]; [reflexivity|]). lia.
Qed.

Lemma of_N_to_N (a : byte) (n : N) : n = Byte.to_N a -> Byte.of_N n = Some a.
Proof. intros ->. apply Byte.of_to_N. Qed.

Ltac sextets :=
  repeat match goal with
  | a : byte |- _ =>
    lazymatch goal with
    | H : (Byte.to_N a < 256)%N |- _ => fail
    | _ => assert (Byte.to_N a < 256)%N
             by (pose proof (Byte.to_N_bounded a); lia)
    end
  end.

Lemma decode_group (a b c : byte) (rest : str) :
  let n := ((Byte.to_N a * 256 + Byte.to_N b) * 256 + Byte.to_N c)%N in
  standard_b64decode
    ([digit (n / 262144); digit ((n / 4096) mod 64);
      digit ((n / 64) mod 64); digit (n mod 64)]%N ++ rest)
  = more ← standard_b64decode rest; Some ([a; b; c] ++ more).
Proof.
  intros n. sextets.
  assert (Hn : (n < 16777216)%N) by (subst n; lia).
  assert (Hs0 : (n / 262144 < 64)%N) by (apply N.Div0.div_lt_upper_bound; lia).
  assert (Hs1 : ((n / 4096) mod 64 < 64)%N) by (apply N.mod_lt; lia).
  assert (Hs2 : ((n / 64) mod 64 < 64)%N) by (apply N.mod_lt; lia).
  assert (Hs3 : (n mod 64 < 64)%N) by (apply N.mod_lt; lia).
  cbn [app standard_b64decode].
  rewrite !value_of_digit by done. cbn [mbind option_bind].
  rewrite digit_not_pad by done.
  assert (Hre : ((((n / 262144) * 64 + (n / 4096) mod 64) * 64
                  + (n / 64) mod 64) * 64 + n mod 64 = n)%N).
  { zify. Z.to_euclidean_division_equations. lia. }
  rewrite Hre. unfold bytes_of.
  rewrite (of_N_to_N a (n / 65536)), (of_N_to_N b ((n / 256) mod 256)),
    (of_N_to_N c (n mod 256)); [reflexivity | | |];
    subst n; zify; Z.to_euclidean_division_equations; lia.
Qed.

Lemma decode_pair (a b : byte) :
  let n := ((Byte.to_N a * 256 + Byte.to_N b) * 4)%N in
  standard_b64decode
    [digit (n / 4096); digit ((n / 64) mod 64); digit (n mod 64); 61]%N
  = Some [a; b].
Proof.
  intros n. sextets.
  assert (Hn : (n < 262144)%N) by (subst n; lia).
  assert (Hs0 : (n / 4096 < 64)%N) by (apply N.Div0.div_lt_upper_bound; lia).
  assert (Hs1 : ((n / 64) mod 64 < 64)%N) by (apply N.mod_lt; lia).
  assert (Hs2 : (n mod 64 < 64)%N) by (apply N.mod_lt; lia).
  cbn [standard_b64decode].
  rewrite !value_of_digit by done. cbn [mbind option_bind].
  change (61 =? 61)%N with true. cbv iota.
  rewrite digit_not_pad by done.
  assert (Hre : (((n / 4096) * 64 + (n / 64) mod 64) * 64 + n mod 64 = n)%N).
  { zify. Z.to_euclidean_division_equations. lia. }
  rewrite Hre. unfold bytes_of.
  rewrite (of_N_to_N a (n * 64 / 65536)),
    (of_N_to_N b ((n * 64 / 256) mod 256)); [reflexivity | |];
    subst n; zify; Z.to_euclidean_division_equations; lia.
Qed.

Lemma decode_single (a : byte) :
  let n := (Byte.to_N a * 16)%N in
  standard_b64decode [digit (n / 64); digit (n mod 64); 61; 61]%N = Some [a].
Proof.
  intros n. sextets.
  assert (Hn : (n < 4096)%N) by (subst n; lia).
  assert (Hs0 : (n / 64 < 64)%N) by (apply N.Div0.div_lt_upper_bound; lia).
  assert (Hs1 : (n mod 64 < 64)%N) by (apply N.mod_lt; lia).
  cbn [standard_b64decode].
  rewrite !value_of_digit by done. cbn [mbind option_bind].
  change (61 =? 61)%N with true. cbv iota.
  assert (Hre : ((n / 64) * 64 + n mod 64 = n)%N).
  { zify. Z.to_euclidean_division_equations. lia. }
  rewrite Hre. unfold bytes_of.
  rewrite (of_N_to_N a (n * 4096 / 65536)); [reflexivity|].
  subst n; zify; Z.to_euclidean_division_equations; lia.
Qed.

(** Decoding gives back the bytes that were encoded. *)
Lemma b64decode_b64encode (data : list byte) :
  standard_b64decode (standard_b64encode data) = Some data.
Proof.
  assert (H : standard_b64decode (standard_b64encode data) = Some data /\
    (forall a, standard_b64decode (standard_b64encode (a :: data))
               = Some (a :: data)) /\
    (forall a b, standard_b64decode (standard_b64encode (a :: b :: data))
                 = Some (a :: b :: data))); [|apply H].
  induction data as [|c data (IH0 & IH1 & IH2)].
  - split; [reflexivity|]. split; [apply decode_single | apply decode_pair].
  - split; [apply IH1|]. split; [intros a; apply IH2|].
    intros a b. cbn [standard_b64encode]. rewrite decode_group.
    by rewrite IH0.
Qed.
End Base64Facts.

Section ConversionFacts.
Import PdfHandler Base64 App.
Variable PdfReader : list byte -> read_outcome * Z.
Variable read_error_text : list byte -> str.
Variable format_2f : Q -> str.
Variable round_2 : Q -> spec_float.

(** Property X6.  [pdf_to_base64] converts what is left of the stream from
    its position on, not the whole upload.  When it returns, the reader
    has counted the pages of those bytes, the text decodes back to exactly
    those bytes, and the stream is rewound to 0; when it raises, the error
    is a plain [Exception] "Failed to process PDF: ..." and the stream is
    left at its end, not rewound.  The name and the bytes of the stream
    are never changed. *)
Theorem pdf_to_base64_reads_from_the_position (f : UploadedFile) :
  let unread := drop (Z.to_nat (tell f)) (getvalue f) in
  let outcome := fst (pdf_to_base64 PdfReader read_error_text f) in
  let stream := snd (pdf_to_base64 PdfReader read_error_text f) in
  name stream = name f /\ getvalue stream = getvalue f /\
  match outcome with
  | Return (base64_pdf, page_count) =>
    fst (PdfReader unread) = PageCount page_count /\
    standard_b64decode base64_pdf = Some unread /\
    tell stream = 0
  | Raise e =>
    (exists reason, e = Error Exception_ ("Failed to process PDF: " ++ reason)) /\
    tell stream = Z.max (tell f) (len (getvalue f))
  end.
Proof.
  unfold pdf_to_base64, read. cbv zeta.
  destruct (fst (PdfReader _)) as [n| |text] eqn:E; cbn [fst snd].
  - repeat split; try done. apply b64decode_b64encode.
  - repeat split; try done. by eexists.
  - repeat split; try done. by eexists.
Qed.

(** Property X7.  An upload that [validate_file_upload] has accepted is
    converted in full: on the stream the check leaves, [pdf_to_base64]
    returns, the page count is at least 1, the text decodes to all the
    bytes of the upload, and the stream is left as it was. *)
Theorem validated_upload_converts (f stream : UploadedFile) (shown : list str) :
  validate_file_upload PdfReader format_2f f = (true, shown, stream) ->
  exists base64_pdf page_count,
    pdf_to_base64 PdfReader read_error_text stream
    = (Return (base64_pdf, page_count), stream) /\
    (1 <= page_count)%N /\
    standard_b64decode base64_pdf = Some (getvalue f).
Proof.
  unfold validate_file_upload.
  destruct (Qlt_le_dec _ _); [done|].
  unfold validate_pdf.
  destruct (PdfReader (getvalue f)) as [[n| |text] position] eqn:E;
    cbn [negb]; try done.
  destruct (N.eqb_spec n 0); [done|]. cbn [negb].
  intros [= <- <-]. exists (standard_b64encode (getvalue f)), n.
  split; [|split; [lia | apply b64decode_b64encode]].
  unfold pdf_to_base64, read, seek. cbn [tell getvalue name].
  change (Z.to_nat 0) with O. rewrite drop_0, E. reflexivity.
Qed.

(** Property X8.  [get_pdf_info] never raises: its dictionary always has
    the name of the upload, a size and a page count.  The count is
    positive exactly when [validate_pdf] accepts the same upload, and it
    is 0 whenever the dictionary has an "error" entry. *)
Theorem get_pdf_info_agrees_with_validate_pdf (f : UploadedFile) :
  let info := get_pdf_info PdfReader read_error_text round_2 f in
  dict_get "name" info = Some (PyStr (name f)) /\
  is_Some (dict_get "size_mb" info) /\
  exists pages,
    dict_get "pages" info = Some (PyInt pages) /\
    (0 < pages <-> fst (fst (validate_pdf PdfReader f)) = true) /\
    (dict_contains "error" info = true -> pages = 0).
Proof.
  unfold get_pdf_info, validate_pdf.
  destruct (PdfReader (getvalue f)) as [[n| |text] position]; cbn [fst].
  - split; [done|]. split; [by eexists|]. exists (Z.of_N n).
    split; [done|]. split; [|done].
    destruct (N.eqb_spec n 0); cbn [fst]; split; (done || lia).
  - split; [done|]. split; [by eexists|]. exists 0.
    split; [done|]. split; [|done]. cbn [fst]. split; (done || lia).
  - split; [done|]. split; [by eexists|]. exists 0.
    split; [done|]. split; [|done]. cbn [fst]. split; (done || lia).
Qed.
End ConversionFacts.

Lemma validated_upload_converts_witness :
  exists base64_pdf,
    PdfHandler.pdf_to_base64 toy_reader (fun _ => "") toy_pdf
    = (Return (base64_pdf, 1%N), toy_pdf) /\
    Base64.standard_b64decode base64_pdf = Some (PdfHandler.getvalue toy_pdf).
Proof.
  destruct (validated_upload_converts toy_reader (fun _ => "") (fun _ => "")
              toy_pdf toy_pdf [] eq_refl) as (b & n & H & Hn & Hd).
  exists b. split; [|exact Hd].
  rewrite H. injection H as _ <-. reflexivity.
Defined.

(** ** The Workbook Renderer: cells, formats and frame *)
Section SheetCells.
Import RFPExcelGenerator SheetSpec.
Implicit Types (ws : worksheet) (coord k : column * Z) (row : Z).

Lemma get_cell_absent ws k : cells ws !! k = None -> get_cell ws k = empty_cell.
Proof. unfold get_cell. by intros ->. Qed.

Lemma merged_cells_update f coord ws :
  merged_cells (update_cell f coord ws) = merged_cells ws.
Proof. reflexivity. Qed.

Lemma column_width_update f coord ws :
  column_width (update_cell f coord ws) = column_width ws.
Proof. reflexivity. Qed.

(** The loop over the data rows, for any body that changes the cells of
    its own row only, and neither the merged ranges nor the widths. *)
Section DataRows.
Variable rows : list (Z * pyobj) -> Z -> worksheet -> worksheet.
Variable body : Z -> Z -> pyobj -> worksheet -> worksheet.
Variable cell_of : column -> Z -> pyobj -> cell.
Hypothesis rows_nil : forall row ws, rows [] row ws = ws.
Hypothesis rows_cons : forall idx x rest row ws,
  rows ((idx, x) :: rest) row ws = rows rest (row + 1) (body row idx x ws).
Hypothesis body_other : forall row idx x ws c r,
  r <> row -> get_cell (body row idx x ws) (c, r) = get_cell ws (c, r).
Hypothesis body_row : forall row idx x ws c,
  get_cell ws (c, row) = empty_cell ->
  get_cell (body row idx x ws) (c, row) = cell_of c idx x.
Hypothesis body_frame : forall row idx x ws,
  merged_cells (body row idx x ws) = merged_cells ws /\
  column_width (body row idx x ws) = column_width ws.

Lemma rows_get_cell_before items start row ws c r :
  r < row ->
  get_cell (rows (enumerate items start) row ws) (c, r) = get_cell ws (c, r).
Proof.
  revert start row ws. induction items as [|x items IH]; intros start row ws Hr.
  - simpl. by rewrite rows_nil.
  - simpl. rewrite rows_cons, IH by lia. apply body_other. lia.
Qed.

Lemma rows_get_cell items start row ws (i : nat) x c :
  (forall c r, row <= r -> get_cell ws (c, r) = empty_cell) ->
  items !! i = Some x ->
  get_cell (rows (enumerate items start) row ws) (c, row + Z.of_nat i)
  = cell_of c (start + Z.of_nat i) x.
Proof.
  revert start row ws i.
  induction items as [|y items IH]; intros start row ws i Hws Hi; [done|].
  simpl. rewrite rows_cons. destruct i as [|i]; simpl in Hi.
  - injection Hi as ->. rewrite !Z.add_0_r.
    rewrite rows_get_cell_before by lia.
    apply body_row, Hws. lia.
  - replace (row + Z.of_nat (S i)) with (row + 1 + Z.of_nat i) by lia.
    replace (start + Z.of_nat (S i)) with (start + 1 + Z.of_nat i) by lia.
    apply IH; [|done].
    intros c' r Hr. rewrite body_other by lia. apply Hws. lia.
Qed.

Lemma rows_frame items start row ws :
  merged_cells (rows (enumerate items start) row ws) = merged_cells ws /\
  column_width (rows (enumerate items start) row ws) = column_width ws.
Proof.
  revert start row ws. induction items as [|x items IH]; intros start row ws.
  - simpl. by rewrite rows_nil.
  - simpl. rewrite rows_cons.
    destruct (IH (start + 1) (row + 1) (body row start x ws)) as [-> ->].
    apply body_frame.
Qed.
End DataRows.

Ltac cell_updates :=
  unfold written, format_row, header_row, sheet_heading, for_columns,
    set_value, set_font, set_fill, set_alignment, set_border;
  cbn [foldl];
  repeat (rewrite get_cell_update;
          first [rewrite decide_True by done
                | rewrite decide_False by congruence]).

Lemma next_steps_body_other row idx x ws c r :
  r <> row ->
  get_cell (written row (PyInt idx) x (PyStr "Pending") ws) (c, r)
  = get_cell ws (c, r).
Proof. intros Hr. by cell_updates. Qed.

Lemma next_steps_body_row row idx x ws c :
  get_cell ws (c, row) = empty_cell ->
  get_cell (written row (PyInt idx) x (PyStr "Pending") ws) (c, row)
  = data_cell c (match c with
                 | col_A => PyInt idx | col_B => x | col_C => PyStr "Pending"
                 end) None.
Proof. intros Hc. destruct c; cell_updates; by rewrite Hc. Qed.

Lemma questions_body_other row idx x ws c r :
  r <> row ->
  get_cell (set_fill (col_C, row) grey
              (written row (PyInt idx) x (PyStr "") ws)) (c, r)
  = get_cell ws (c, r).
Proof. intros Hr. by cell_updates. Qed.

Lemma questions_body_row row idx x ws c :
  get_cell ws (c, row) = empty_cell ->
  get_cell (set_fill (col_C, row) grey
              (written row (PyInt idx) x (PyStr "") ws)) (c, row)
  = data_cell c (match c with
                 | col_A => PyInt idx | col_B => x | col_C => PyStr ""
                 end)
      (match c with col_C => Some grey | _ => None end).
Proof. intros Hc. destruct c; cell_updates; by rewrite Hc. Qed.

Lemma header_sheet_above title rfp_filename now a b c col r :
  5 < r ->
  get_cell (header_row 5 a b c
              (sheet_heading title rfp_filename now empty_sheet)) (col, r)
  = empty_cell.
Proof.
  intros Hr. apply get_cell_absent.
  destruct (cells _ !! (col, r)) eqn:E; [|done].
  assert (r <= 5); [|lia].
  eapply header_sheet_cells. by rewrite E.
Qed.

(** The cells of a sheet made of the heading, the header row, the data
    rows of a loop and the column widths. *)
Lemma sheet_cells rows body cell_of title rfp_filename now a b c
    width_a width_b width_c (items : list pyobj) :
  (forall row ws, rows [] row ws = ws) ->
  (forall idx x rest row ws,
     rows ((idx, x) :: rest) row ws = rows rest (row + 1) (body row idx x ws)) ->
  (forall row idx x ws c r,
     r <> row -> get_cell (body row idx x ws) (c, r) = get_cell ws (c, r)) ->
  (forall row idx x ws c,
     get_cell ws (c, row) = empty_cell ->
     get_cell (body row idx x ws) (c, row) = cell_of c idx x) ->
  (forall row idx x ws,
     merged_cells (body row idx x ws) = merged_cells ws /\
     column_width (body row idx x ws) = column_width ws) ->
  let ws := set_width col_C width_c (set_width col_B width_b
              (set_width col_A width_a
                 (rows (enumerate items 1) 6
                    (header_row 5 a b c
                       (sheet_heading title rfp_filename now empty_sheet))))) in
  (forall (i : nat) x col, items !! i = Some x ->
     get_cell ws (col, 6 + Z.of_nat i) = cell_of col (1 + Z.of_nat i) x) /\
  framed ws title rfp_filename now a b c width_a width_b width_c.
Proof.
  intros Hnil Hcons Hother Hrow Hframe.
  set (H := header_row 5 a b c (sheet_heading title rfp_filename now empty_sheet)).
  set (R := rows (enumerate items 1) 6 H).
  intros ws.
  assert (Hcell : forall k, get_cell ws k = get_cell R k) by done.
  assert (Hbefore : forall c r, r < 6 -> get_cell R (c, r) = get_cell H (c, r)).
  { intros col r Hr. by apply (rows_get_cell_before rows body). }
  split.
  - intros i x col Hi. rewrite Hcell.
    apply (rows_get_cell rows body cell_of); try done.
    intros col' r Hr. apply header_sheet_above. lia.
  - unfold framed. rewrite !Hcell.
    destruct (rows_frame rows body Hnil Hcons Hframe items 1 6 H) as [Hm Hw].
    repeat split;
      try (rewrite Hbefore by lia; subst H; by cell_updates).
    + intros col. rewrite Hcell, Hbefore by lia. subst H.
      destruct col; by cell_updates.
    + change (merged_cells R = ["A1:C1"; "A2:C2"; "A3:C3"]).
      unfold R. by rewrite Hm.
    + change ((<[col_C:=width_c]> (<[col_B:=width_b]>
                 (<[col_A:=width_a]> (column_width R)))) !! col_A
              = Some width_a).
      by rewrite lookup_insert_ne, lookup_insert_ne, lookup_insert_eq.
    + change ((<[col_C:=width_c]> (<[col_B:=width_b]>
                 (<[col_A:=width_a]> (column_width R)))) !! col_B
              = Some width_b).
      by rewrite lookup_insert_ne, lookup_insert_eq.
    + change ((<[col_C:=width_c]> (<[col_B:=width_b]>
                 (<[col_A:=width_a]> (column_width R)))) !! col_C
              = Some width_c).
      by rewrite lookup_insert_eq.
Qed.

Lemma next_steps_sheet_cells (steps : list pyobj) rfp_filename now :
  exists ws,
    _create_next_steps_sheet empty_sheet (PyList steps) rfp_filename now
    = Return ws /\
    (forall (i : nat) x col, steps !! i = Some x ->
       get_cell ws (col, 6 + Z.of_nat i)
       = data_cell col (match col with
                        | col_A => PyInt (1 + Z.of_nat i)
                        | col_B => x
                        | col_C => PyStr "Pending"
                        end) None) /\
    framed ws "Next Steps for Proposal Team" rfp_filename now
      "#" "Action Item" "Status" 8 70 15.
Proof.
  eexists. split; [reflexivity|].
  apply (sheet_cells next_steps_rows
           (fun row idx x => written row (PyInt idx) x (PyStr "Pending"))
           (fun c idx x => data_cell c (match c with
                             | col_A => PyInt idx | col_B => x
                             | col_C => PyStr "Pending" end) None));
    try done.
  - intros. by apply next_steps_body_other.
  - intros. by apply next_steps_body_row.
Qed.

Lemma alignment_questions_sheet_cells (questions : list pyobj) rfp_filename now :
  exists ws,
    _create_alignment_questions_sheet empty_sheet (PyList questions)
      rfp_filename now = Return ws /\
    (forall (i : nat) x col, questions !! i = Some x ->
       get_cell ws (col, 6 + Z.of_nat i)
       = data_cell col (match col with
                        | col_A => PyInt (1 + Z.of_nat i)
                        | col_B => x
                        | col_C => PyStr ""
                        end)
           (match col with col_C => Some grey | _ => None end)) /\
    framed ws "Strategic Alignment Questions" rfp_filename now
      "#" "Question" "Answer / Notes" 8 50 50.
Proof.
  eexists. split; [reflexivity|].
  apply (sheet_cells alignment_questions_rows
           (fun row idx x ws => set_fill (col_C, row) grey
                                  (written row (PyInt idx) x (PyStr "") ws))
           (fun c idx x => data_cell c (match c with
                             | col_A => PyInt idx | col_B => x
                             | col_C => PyStr "" end)
                             (match c with col_C => Some grey | _ => None end)));
    try done.
  - intros. by apply questions_body_other.
  - intros. by apply questions_body_row.
Qed.

(** Property X9.  The format of the data rows.  For lists, item [i] of
    either sheet is on row [6 + i]; each of its three cells has a thin
    border and no font; column A is centred at the top, columns B and C
    are wrapped and aligned at the top; only the answer cell of the
    questions sheet has a fill, the grey one. *)
Theorem workbook_data_row_format (next_steps alignment_questions : list pyobj)
    (rfp_filename now : str) :
  exists steps_sheet questions_sheet,
    generate_workbook (PyList next_steps) (PyList alignment_questions)
      rfp_filename now
    = Return [("Next Steps", steps_sheet);
              ("Alignment Questions", questions_sheet)] /\
    (forall (i : nat) step col, next_steps !! i = Some step ->
       get_cell steps_sheet (col, 6 + Z.of_nat i)
       = data_cell col (match col with
                        | col_A => PyInt (1 + Z.of_nat i)
                        | col_B => step
                        | col_C => PyStr "Pending"
                        end) None) /\
    (forall (i : nat) question col, alignment_questions !! i = Some question ->
       get_cell questions_sheet (col, 6 + Z.of_nat i)
       = data_cell col (match col with
                        | col_A => PyInt (1 + Z.of_nat i)
                        | col_B => question
                        | col_C => PyStr ""
                        end)
           (match col with col_C => Some grey | _ => None end)).
Proof.
  destruct (next_steps_sheet_cells next_steps rfp_filename now)
    as (s & Hs & Hsd & _).
  destruct (alignment_questions_sheet_cells alignment_questions rfp_filename now)
    as (q & Hq & Hqd & _).
  exists s, q. unfold generate_workbook. rewrite Hs, Hq.
  split; [reflexivity|]. by split.
Qed.

(** Property X10.  The frame of the two sheets, whatever the items: the
    title, the file name and the date on rows 1 to 3 of column A, an empty
    row 4, the styled header on row 5, the three merged ranges, and the
    column widths 8, 70, 15 and 8, 50, 50. *)
Theorem workbook_sheet_frames (next_steps alignment_questions : list pyobj)
    (rfp_filename now : str) :
  exists steps_sheet questions_sheet,
    generate_workbook (PyList next_steps) (PyList alignment_questions)
      rfp_filename now
    = Return [("Next Steps", steps_sheet);
              ("Alignment Questions", questions_sheet)] /\
    framed steps_sheet "Next Steps for Proposal Team" rfp_filename now
      "#" "Action Item" "Status" 8 70 15 /\
    framed questions_sheet "Strategic Alignment Questions" rfp_filename now
      "#" "Question" "Answer / Notes" 8 50 50.
Proof.
  destruct (next_steps_sheet_cells next_steps rfp_filename now)
    as (s & Hs & _ & Hsf).
  destruct (alignment_questions_sheet_cells alignment_questions rfp_filename now)
    as (q & Hq & _ & Hqf).
  exists s, q. unfold generate_workbook. rewrite Hs, Hq.
  split; [reflexivity|]. by split.
Qed.

(** Property X11.  A value that is [null], a number or a boolean cannot be
    enumerated: [generate_workbook] raises [TypeError] when the next steps
    are such a value, and when the questions are, the steps being a
    list. *)
Theorem generate_workbook_needs_iterables (next_steps alignment_questions : pyobj)
    (rfp_filename now : str) :
  (unsized next_steps ->
   generate_workbook next_steps alignment_questions rfp_filename now
   = Raise (Error TypeError_
              ("'" ++ type_name next_steps ++ "' object is not iterable"))) /\
  (forall steps : list pyobj,
   unsized alignment_questions ->
   generate_workbook (PyList steps) alignment_questions rfp_filename now
   = Raise (Error TypeError_
              ("'" ++ type_name alignment_questions
               ++ "' object is not iterable"))).
Proof.
  split.
  - intros H. by destruct next_steps.
  - intros steps H. by destruct alignment_questions.
Qed.

End SheetCells.

(** ** The Report Renderer: values of any shape *)
Section ReportShapes.
Import RFPAnalysisGenerator ReportSpec.
Variable repr : pyobj -> str.

Lemma truthy_visited items :
  truthy items = false -> visited items = [].
Proof.
  destruct items as [| | | |s|l|d]; try done; simpl.
  - destruct s; [done|]. by rewrite bool_decide_eq_false_2.
  - by destruct l.
  - by destruct d.
Qed.

Lemma create_bullet_section_visited title intro items :
  intro <> [] ->
  _create_bullet_section repr title items (Some intro)
  = match items with
    | PyList _ | PyStr _ | PyDict _ =>
      Return (bullet_section repr title intro (visited items))
    | _ =>
      if truthy items
      then Raise (Error TypeError_
                    ("'" ++ type_name items ++ "' object is not iterable"))
      else Return (bullet_section repr title intro [])
    end.
Proof.
  intros Hintro. destruct intro as [|c intro]; [done|].
  unfold _create_bullet_section, bullet_section.
  destruct items as [|b|z|f|s|l|d]; cbn [truthy].
  - reflexivity.
  - by destruct b.
  - by destruct (z =? 0).
  - by destruct f.
  - destruct s; reflexivity.
  - destruct l; reflexivity.
  - destruct d; reflexivity.
Qed.

(** Property X12.  A bullet section by the shape of its value.  A falsy
    value ([null], [false], 0, an empty string, list or object) gives the
    section with no bullet; a list gives one bullet per element; a string
    one bullet per character; an object one bullet per key; a number or
    [true] raises [TypeError]. *)
Theorem bullet_section_by_shape (title intro : str) (items : pyobj) :
  intro <> [] ->
  let section := _create_bullet_section repr title items (Some intro) in
  (truthy items = false ->
   section = Return (bullet_section repr title intro [])) /\
  (forall l, items = PyList l ->
   section = Return (bullet_section repr title intro l)) /\
  (forall s, items = PyStr s ->
   section = Return (bullet_section repr title intro
                       (map (fun c => PyStr [c]) s))) /\
  (forall d, items = PyDict d ->
   section = Return (bullet_section repr title intro
                       (map (fun kv => PyStr (fst kv)) d))) /\
  (unsized items -> truthy items = true ->
   section = Raise (Error TypeError_
                      ("'" ++ type_name items ++ "' object is not iterable"))).
Proof.
  intros Hintro section. subst section.
  rewrite create_bullet_section_visited by done.
  repeat split.
  - intros Hf. pose proof (truthy_visited items Hf) as Hv.
    destruct items; try (by rewrite Hf); by rewrite Hv.
  - by intros l ->.
  - by intros s ->.
  - by intros d ->.
  - intros Hu Ht. destruct items; try done; by rewrite Ht.
Qed.

Lemma timeline_rows_returns (items : list pyobj) :
  (exists rows, timeline_rows items = Return rows)
  <-> exists entries : list dict, items = map PyDict entries.
Proof.
  split.
  - induction items as [|x items IH]; intros [rows H].
    + by exists [].
    + simpl in H. destruct x as [| | | | | |e]; try done.
      cbn [py_get mbind result_bind] in H.
      destruct (timeline_rows items) as [rows'|] eqn:E; [|done].
      destruct IH as [entries ->]; [by eexists|].
      by exists (e :: entries).
  - intros [entries ->]. rewrite timeline_rows_records. by eexists.
Qed.

(** Property X13.  The timeline section is built exactly for a falsy value
    and for a list of objects; a falsy value gives the section of the
    empty timeline.  Any other value (a list with an entry that is not an
    object, a string, a non-empty object, a number) makes it raise. *)
Theorem timeline_section_needs_records (timeline : pyobj) :
  (truthy timeline = false ->
   _create_timeline_section timeline = Return (timeline_section [])) /\
  ((exists story, _create_timeline_section timeline = Return story)
   <-> truthy timeline = false
       \/ exists entries : list dict, timeline = PyList (map PyDict entries)).
Proof.
  assert (Hfalsy : truthy timeline = false ->
    _create_timeline_section timeline = Return (timeline_section [])).
  { intros H. unfold _create_timeline_section. by rewrite H. }
  split; [exact Hfalsy|]. split.
  - intros [story H].
    destruct (truthy timeline) eqn:Ht; [right | by left].
    unfold _create_timeline_section in H. rewrite Ht in H.
    destruct timeline as [|b|z|f|s|l|d]; try done.
    + cbn [py_len mbind result_bind mret result_ret] in H.
      destruct s as [|c s]; [done|].
      assert (Hlen : (0 <? len (c :: s)) = true)
        by (apply Z.ltb_lt; unfold len; simpl length; lia).
      rewrite Hlen in H. done.
    + cbn [py_len mbind result_bind mret result_ret] in H.
      destruct (0 <? len l) eqn:Hlen.
      * cbn [py_iter mbind result_bind] in H.
        destruct (timeline_rows l) as [rows|] eqn:E; [|done].
        destruct (proj1 (timeline_rows_returns l)) as [entries ->];
          [by eexists | by eexists].
      * destruct l; [done|]. apply Z.ltb_ge in Hlen.
        unfold len in Hlen. simpl length in Hlen. lia.
    + cbn [py_len mbind result_bind mret result_ret] in H.
      destruct d as [|[k v] d]; [done|].
      assert (Hlen : (0 <? len ((k, v) :: d)) = true)
        by (apply Z.ltb_lt; unfold len; simpl length; lia).
      rewrite Hlen in H. done.
  - intros [H|[entries ->]].
    + eexists. by apply Hfalsy.
    + eexists. apply create_timeline_section_records.
Qed.

Lemma headings_app a b : headings (a ++ b) = headings a ++ headings b.
Proof. apply omap_app. Qed.

Lemma headings_bullets (l : list pyobj) : headings (map (bullet repr) l) = [].
Proof. induction l as [|x l IH]; [done | exact IH]. Qed.

Lemma create_bullet_section_headings title intro items section :
  _create_bullet_section repr title items intro = Return section ->
  headings section = headings [Paragraph title "SectionHeader"].
Proof.
  unfold _create_bullet_section.
  set (head := match intro with
               | Some (c :: i) => _
               | _ => _
               end).
  assert (Hhead : headings head = headings [Paragraph title "SectionHeader"]).
  { subst head. by destruct intro as [[|c i]|]. }
  destruct (truthy items).
  - destruct (py_iter items) as [each|]; [|done].
    cbn [mbind result_bind mret result_ret]. intros [= <-].
    by rewrite !headings_app, headings_bullets, Hhead, !app_nil_r.
  - cbn [mbind result_bind mret result_ret]. intros [= <-].
    by rewrite !headings_app, Hhead.
Qed.

Lemma create_timeline_section_headings timeline section :
  _create_timeline_section timeline = Return section ->
  headings section = ["Timeline & Key Dates"].
Proof.
  unfold _create_timeline_section.
  destruct (if truthy timeline then _ else _) as [[]|]; [| |done].
  - destruct (py_iter timeline) as [items|]; [|done].
    cbn [mbind result_bind mret result_ret].
    destruct (timeline_rows items); [|done].
    cbn [mbind result_bind mret result_ret]. by intros [= <-].
  - cbn [mbind result_bind mret result_ret]. by intros [= <-].
Qed.

(** Property X14.  Every report that is built starts with the title page
    and has the four sections in the same order, each under its own
    heading once, whatever the analysis holds. *)
Theorem report_sections_in_order (analysis : pyobj) (rfp_filename now : str)
    (story : list flowable) :
  generate_analysis_pdf repr analysis rfp_filename now = Return story ->
  take 6 story = title_page rfp_filename now /\
  headings story
  = ["Client Problems & Challenges"; "Specific Requirements";
     "Gotchas & Ambiguities"; "Timeline & Key Dates"].
Proof.
  unfold generate_analysis_pdf.
  destruct (py_get analysis "client_problems" _) as [v1|]; [|done].
  cbn [mbind result_bind].
  destruct (_create_bullet_section repr _ v1 _) as [s1|] eqn:E1; [|done].
  cbn [mbind result_bind].
  destruct (py_get analysis "requirements" _) as [v2|]; [|done].
  cbn [mbind result_bind].
  destruct (_create_bullet_section repr _ v2 _) as [s2|] eqn:E2; [|done].
  cbn [mbind result_bind].
  destruct (py_get analysis "gotchas" _) as [v3|]; [|done].
  cbn [mbind result_bind].
  destruct (_create_bullet_section repr _ v3 _) as [s3|] eqn:E3; [|done].
  cbn [mbind result_bind].
  destruct (py_get analysis "timeline" _) as [v4|]; [|done].
  cbn [mbind result_bind].
  destruct (_create_timeline_section v4) as [s4|] eqn:E4; [|done].
  cbn [mbind result_bind mret result_ret]. intros [= <-].
  split; [by rewrite <- !app_assoc|].
  change (headings (title_page rfp_filename now ++ ((s1 ++ s2) ++ s3) ++ s4)
          = ["Client Problems & Challenges"; "Specific Requirements";
             "Gotchas & Ambiguities"; "Timeline & Key Dates"]).
  rewrite !headings_app.
  rewrite (create_bullet_section_headings _ _ _ _ E1),
    (create_bullet_section_headings _ _ _ _ E2),
    (create_bullet_section_headings _ _ _ _ E3),
    (create_timeline_section_headings _ _ E4).
  reflexivity.
Qed.

(** A section whose value is [null] is rendered as the empty section. *)
Lemma py_get_set_present (analysis : dict) key key' v w :
  key' <> key ->
  py_get (PyDict (dict_set key v analysis)) key' w
  = py_get (PyDict analysis) key' w.
Proof.
  intros Hne. rewrite !py_get_dict, dict_get_set.
  by rewrite bool_decide_eq_false_2.
Qed.

End ReportShapes.

Lemma bullet_section_by_shape_witness :
  RFPAnalysisGenerator._create_bullet_section (fun _ => "") "Gotchas"
    (PyStr "ab") (Some "Items to clarify:")
  = Return (ReportSpec.bullet_section (fun _ => "") "Gotchas"
              "Items to clarify:" [PyStr "a"; PyStr "b"]).
Proof.
  exact (proj1 (proj2 (proj2
           (bullet_section_by_shape (fun _ => "") "Gotchas" "Items to clarify:"
              (PyStr "ab") ltac:(discriminate)))) "ab" eq_refl).
Defined.

Lemma report_sections_in_order_witness :
  exists story,
    RFPAnalysisGenerator.generate_analysis_pdf (fun _ => "")
      (PyDict [("gotchas", PyNone); ("timeline", PyList [])])
      "rfp.pdf" "March 01, 2025 at 09:00 AM" = Return story /\
    headings story
    = ["Client Problems & Challenges"; "Specific Requirements";
       "Gotchas & Ambiguities"; "Timeline & Key Dates"].
Proof.
  eexists. split; [reflexivity|].
  exact (proj2 (report_sections_in_order (fun _ => "")
                  (PyDict [("gotchas", PyNone); ("timeline", PyList [])])
                  "rfp.pdf" "March 01, 2025 at 09:00 AM" _ eq_refl)).
Defined.

(** ** app.py: what a run shows *)
Section UiFacts.
Import Streamlit.
Context {S : Type}.

Lemma run_bind {A B} (m : ui S A) (k : A -> ui S B) s :
  run (m ≫= k) s
  = match run m s with
    | (log, s, Return a) =>
      let '(log', s, r) := run (k a) s in (log ++ log', s, r)
    | (log, s, Raise e) => (log, s, Raise e)
    end.
Proof. reflexivity. Qed.

Lemma run_show {B} place e (k : unit -> ui S B) s :
  run (show place e ≫= k) s
  = let '(log, s, r) := run (k tt) s in ((place, e) :: log, s, r).
Proof. rewrite run_bind. simpl. by destruct (run (k tt) s) as [[? ?] ?]. Qed.

Lemma run_lift {A B} (r : result A) (k : A -> ui S B) s :
  run (lift r ≫= k) s
  = match r with
    | Return a => run (k a) s
    | Raise e => ([], s, Raise e)
    end.
Proof.
  rewrite run_bind. simpl. destruct r as [a|e]; [|done].
  by destruct (run (k a) s) as [[? ?] ?].
Qed.

Lemma run_for_each_show {A} (items : list A) place (line : A -> element) (s : S) :
  run (for_each items (fun x => show place (line x))) s
  = (map (fun x => (place, line x)) items, s, Return tt).
Proof.
  induction items as [|x items IH]; [done|].
  cbn [for_each]. rewrite run_show, IH. reflexivity.
Qed.

Lemma shown_in_app place (a b : shown) :
  shown_in place (a ++ b) = shown_in place a ++ shown_in place b.
Proof. apply omap_app. Qed.

Lemma omap_map_Some {A B C} (f : B -> option C) (g : A -> B) (h : A -> C) l :
  (forall x, f (g x) = Some (h x)) -> omap f (map g l) = map h l.
Proof.
  intros H. induction l as [|x l IH]; [done|].
  cbn [map]. change (omap f (g x :: map g l))
    with (match f (g x) with Some y => y :: omap f (map g l) | None => omap f (map g l) end).
  by rewrite H, IH.
Qed.

Lemma omap_map_None {A B C} (f : B -> option C) (g : A -> B) l :
  (forall x, f (g x) = None) -> omap f (map g l) = [].
Proof.
  intros H. induction l as [|x l IH]; [done|].
  cbn [map]. change (omap f (g x :: map g l))
    with (match f (g x) with Some y => y :: omap f (map g l) | None => omap f (map g l) end).
  by rewrite H, IH.
Qed.

Lemma shown_in_map {A} place place' (line : A -> element) (items : list A) :
  shown_in place (map (fun x => (place', line x)) items)
  = if bool_decide (place' = place) then map line items else [].
Proof.
  unfold shown_in. destruct (bool_decide (place' = place)) eqn:E.
  - apply omap_map_Some. intros x. by rewrite E.
  - apply omap_map_None. intros x. by rewrite E.
Qed.

Lemma shown_in_cons place c e (log : shown) :
  shown_in place ((c, e) :: log)
  = if bool_decide (c = place) then e :: shown_in place log
    else shown_in place log.
Proof. unfold shown_in. simpl. by destruct (bool_decide (c = place)). Qed.

Lemma shown_in_cons_same place e (log : shown) :
  shown_in place ((place, e) :: log) = e :: shown_in place log.
Proof. rewrite shown_in_cons. by rewrite bool_decide_eq_true_2. Qed.

Lemma shown_in_cons_other place c e (log : shown) :
  c <> place -> shown_in place ((c, e) :: log) = shown_in place log.
Proof. intros H. rewrite shown_in_cons. by rewrite bool_decide_eq_false_2. Qed.

Lemma shown_in_section {A B} place place' (note : element)
    (line : B -> element) (items : list A) (lines : list B) :
  shown_in place (match items with
                  | [] => [(place', note)]
                  | _ => map (fun l => (place', line l)) lines
                  end)
  = if bool_decide (place' = place)
    then match items with [] => [note] | _ => map line lines end
    else [].
Proof.
  destruct items as [|x items].
  - rewrite shown_in_cons. by destruct (bool_decide _).
  - apply shown_in_map.
Qed.

Lemma shown_in_section_same {A B} place (note : element)
    (line : B -> element) (items : list A) (lines : list B) :
  shown_in place (match items with
                  | [] => [(place, note)]
                  | _ => map (fun l => (place, line l)) lines
                  end)
  = match items with [] => [note] | _ => map line lines end.
Proof. rewrite shown_in_section. by rewrite bool_decide_eq_true_2. Qed.

Lemma shown_in_section_other {A B} place place' (note : element)
    (line : B -> element) (items : list A) (lines : list B) :
  place' <> place ->
  shown_in place (match items with
                  | [] => [(place', note)]
                  | _ => map (fun l => (place', line l)) lines
                  end) = [].
Proof. intros H. rewrite shown_in_section. by rewrite bool_decide_eq_false_2. Qed.

End UiFacts.

(** ** app.py: the pipeline *)
Section PipelineFacts.
Import PdfHandler ClaudeRFPClient Streamlit AppFlow.
Variable json_loads : str -> option pyobj.
Variable decoder_message : str -> str.
Variable create : request -> result (list content_block).
Variable PdfReader : list byte -> read_outcome * Z.
Variable read_error_text : list byte -> str.
Variable generate_analysis_pdf : pyobj -> str -> result (list byte).
Variable generate_workbook : pyobj -> pyobj -> str -> result (list byte).

#[local] Abbreviation process :=
  (process_rfp json_loads decoder_message create PdfReader read_error_text
     generate_analysis_pdf generate_workbook).
#[local] Abbreviation tried :=
  (attempt json_loads decoder_message create PdfReader read_error_text
     generate_analysis_pdf generate_workbook).

Lemma pdf_to_base64_name (f : UploadedFile) :
  name (snd (pdf_to_base64 PdfReader read_error_text f)) = name f.
Proof.
  unfold pdf_to_base64, read.
  by destruct (fst (PdfReader _)).
Qed.

Ltac handler_runs :=
  destruct (isinstance _ Exception_);
  repeat (rewrite ?run_show; cbn [run mret ui_ret]); by repeat split.

(** The run of [process_rfp], by the outcome of its steps. *)
Lemma process_rfp_run (f : UploadedFile) :
  let '(log, stream, outcome) := run process f in
  stream = snd (pdf_to_base64 PdfReader read_error_text f) /\
  match tried f with
  | Return results => outcome = Return (Some results) /\ errors log = []
  | Raise e =>
    if isinstance e Exception_ then
      outcome = Return None /\
      errors log
      = ["❌ Error during processing: " ++ str_of_exn decoder_message e] /\
      drop (length log - 3) log
      = [(page, progress_bar_empty); (page, status_text_empty);
         (page, st_error ("❌ Error during processing: "
                          ++ str_of_exn decoder_message e))]
    else outcome = Raise e /\ errors log = []
  end.
Proof.
  pose proof (pdf_to_base64_name f) as Hname.
  unfold process_rfp, attempt.
  rewrite !run_show. unfold try_except. cbn [run].
  rewrite !run_show. rewrite run_bind. cbn [on_state run].
  destruct (pdf_to_base64 PdfReader read_error_text f) as [[[b64 pages]|e] stream];
    cbn [fst snd mbind result_bind] in *.
  2:{ handler_runs. }
  rewrite !run_show, run_lift.
  destruct (analyze_rfp _ _ _ b64 _) as [analysis|e]; cbn [mbind result_bind].
  2:{ handler_runs. }
  rewrite run_lift.
  destruct (validate_analysis_structure analysis) as [ok|e]; cbn [mbind result_bind].
  2:{ handler_runs. }
  rewrite !run_show, run_bind. cbn [get_state run]. rewrite run_lift, Hname.
  destruct (generate_analysis_pdf analysis (name f)) as [pdf|e];
    cbn [mbind result_bind].
  2:{ handler_runs. }
  rewrite !run_show, run_lift.
  destruct (py_get analysis "next_steps" _) as [steps|e]; cbn [mbind result_bind].
  2:{ handler_runs. }
  rewrite run_lift.
  destruct (py_get analysis "alignment_questions" _) as [questions|e];
    cbn [mbind result_bind].
  2:{ handler_runs. }
  rewrite run_lift.
  destruct (generate_workbook steps questions (name f)) as [xlsx|e];
    cbn [mbind result_bind].
  2:{ handler_runs. }
  rewrite !run_show. cbn [run mret ui_ret]. by repeat split.
Qed.

(** Property X15.  What [process_rfp] hands back.  When it returns results,
    the analysis is a JSON object that holds the six required keys; it is
    what [analyze_rfp] returned for the base-64 text of the upload and the
    analysis prompt; the PDF is generated from that analysis, the workbook
    from the values under "next_steps" and "alignment_questions" (the
    defaults of the two [get] calls are never used), both named after the
    upload; the stream is left as [pdf_to_base64] leaves it, and no error
    has been shown. *)
Theorem process_rfp_results (f stream : UploadedFile) (log : shown)
    (analysis : pyobj) (pdf_buffer excel_buffer : list byte) :
  run process f
  = (log, stream, Return (Some (analysis, pdf_buffer, excel_buffer))) ->
  exists (d : dict) pdf_base64 page_count next_steps alignment_questions,
    analysis = PyDict d /\
    (forall key, key ∈ required_fields -> dict_contains key d = true) /\
    pdf_to_base64 PdfReader read_error_text f
    = (Return (pdf_base64, page_count), stream) /\
    analyze_rfp json_loads decoder_message create pdf_base64
      Prompts.get_rfp_analysis_prompt = Return analysis /\
    generate_analysis_pdf analysis (name f) = Return pdf_buffer /\
    dict_get "next_steps" d = Some next_steps /\
    dict_get "alignment_questions" d = Some alignment_questions /\
    generate_workbook next_steps alignment_questions (name f)
    = Return excel_buffer /\
    errors log = [].
Proof.
  intros Hrun. pose proof (process_rfp_run f) as H. rewrite Hrun in H.
  destruct H as [Hstream H].
  destruct (tried f) as [results|e] eqn:Ea.
  2:{ destruct (isinstance e Exception_); by destruct H. }
  destruct H as [[= <-] Hlog].
  unfold attempt in Ea.
  destruct (pdf_to_base64 PdfReader read_error_text f)
    as [[[b64 pages]|e] stream'] eqn:Ec; [|done].
  cbn [fst snd mbind result_bind] in *. subst stream'.
  destruct (analyze_rfp _ _ _ b64 _) as [a|e] eqn:Ean; [|done].
  cbn [mbind result_bind] in Ea.
  destruct (validate_analysis_structure a) as [ok|e] eqn:Ev; [|done].
  cbn [mbind result_bind] in Ea.
  destruct (generate_analysis_pdf a (name f)) as [pdf|e] eqn:Ep; [|done].
  cbn [mbind result_bind] in Ea.
  destruct a as [| | | | | |d]; try done.
  cbn [py_get mbind result_bind] in Ea.
  destruct (generate_workbook _ _ (name f)) as [xlsx|e] eqn:Ex; [|done].
  cbn [mbind result_bind] in Ea. injection Ea as <- <- <-.
  assert (Hkeys : forall key, key ∈ required_fields -> dict_contains key d = true).
  { apply (validate_sized (PyDict d) (fun k => dict_contains k d)); [done|].
    unfold validate_analysis_structure in *.
    destruct (missing_in (PyDict d) required_fields) as [[|m ms]|]; by try done. }
  assert (Hget : forall key, key ∈ required_fields ->
            exists v, dict_get key d = Some v).
  { intros key Hk. specialize (Hkeys key Hk). unfold dict_contains in Hkeys.
    destruct (dict_get key d); [by eexists | done]. }
  destruct (Hget "next_steps") as [steps Hs]; [repeat constructor|].
  destruct (Hget "alignment_questions") as [questions Hq]; [repeat constructor|].
  rewrite Hs, Hq in Ex.
  exists d, b64, pages, steps, questions. by repeat split.
Qed.

(** Property X16.  How [process_rfp] ends.  It raises nothing that is an
    [Exception]; when it returns results it has shown no error; when it
    returns [(None, None, None)] it has shown exactly one error, of the
    form "Error during processing: reason", as the last thing, right after
    emptying the progress bar and the status line. *)
Theorem process_rfp_reports_failures (f : UploadedFile) :
  let '(log, stream, outcome) := run process f in
  match outcome with
  | Return (Some _) => errors log = []
  | Return None =>
    exists reason,
      errors log = ["❌ Error during processing: " ++ reason] /\
      drop (length log - 3) log
      = [(page, progress_bar_empty); (page, status_text_empty);
         (page, st_error ("❌ Error during processing: " ++ reason))]
  | Raise e => isinstance e Exception_ = false /\ errors log = []
  end.
Proof.
  pose proof (process_rfp_run f) as H.
  destruct (run process f) as [[log stream] outcome].
  destruct H as [_ H].
  destruct (tried f) as [results|e].
  - by destruct H as [-> ?].
  - destruct (isinstance e Exception_) eqn:E.
    + destruct H as (-> & ? & ?). by eexists.
    + by destruct H as [-> ?].
Qed.

(** Property X17.  The messages of three failures.  An analysis that lacks
    required keys, a reply that holds no JSON, and an API error (a timeout
    included) each end the processing with [(None, None, None)] and one
    error line, which wraps the text of the step that failed; the
    generators play no part in it. *)
Theorem process_rfp_failure_messages (f : UploadedFile)
    (pdf_base64 : str) (page_count : N) (stream : UploadedFile) :
  pdf_to_base64 PdfReader read_error_text f
  = (Return (pdf_base64, page_count), stream) ->
  let outcome := analyze_rfp json_loads decoder_message create pdf_base64
                   Prompts.get_rfp_analysis_prompt in
  let ended_with (reason : str) :=
    exists log,
      run process f = (log, stream, Return None) /\
      errors log = ["❌ Error during processing: " ++ reason] in
  (forall d : dict,
     outcome = Return (PyDict d) ->
     filter (fun k => dict_contains k d = false) required_fields <> [] ->
     ended_with ("Analysis missing required fields: "
                 ++ join ", " (filter (fun k => dict_contains k d = false)
                                 required_fields))) /\
  (forall reply others,
     create {| model := "claude-sonnet-4-20250514"; max_tokens := 16000;
               media_type := "application/pdf"; document := pdf_base64;
               text := Prompts.get_rfp_analysis_prompt |}
     = Return (TextBlock reply :: others) ->
     json_loads reply = None ->
     contains "```" reply = false -> contains "{" reply = false ->
     ended_with "Failed to parse Claude response as JSON: Could not find valid JSON in response: line 1 column 1 (char 0)") /\
  (forall e,
     create {| model := "claude-sonnet-4-20250514"; max_tokens := 16000;
               media_type := "application/pdf"; document := pdf_base64;
               text := Prompts.get_rfp_analysis_prompt |} = Raise e ->
     isinstance e APIError_ = true ->
     ended_with ("Claude API error: " ++ str_of_exn decoder_message e)).
Proof.
  intros Hc outcome ended_with.
  assert (Hend : forall text,
    tried f = Raise (Error Exception_ text) -> ended_with text).
  { intros text Ha. pose proof (process_rfp_run f) as H.
    destruct (run process f) as [[log s] r]. rewrite Ha, Hc in H.
    change (isinstance (Error Exception_ text) Exception_) with true in H.
    cbn [snd str_of_exn] in H. destruct H as (-> & -> & He & _).
    by exists log. }
  assert (Hraise : forall text,
    outcome = Raise (Error Exception_ text) -> ended_with text).
  { intros text Ho. apply Hend. unfold attempt. rewrite Hc.
    cbn [fst mbind result_bind]. fold outcome. by rewrite Ho. }
  split; [|split].
  - intros d Ho Hmissing. apply Hend. unfold attempt. rewrite Hc.
    cbn [fst mbind result_bind]. fold outcome. rewrite Ho.
    cbn [mbind result_bind]. unfold validate_analysis_structure.
    rewrite missing_in_dict. cbn [mbind result_bind].
    by destruct (filter _ required_fields).
  - intros reply others Hcreate Hl Hf Hb. apply Hraise.
    by apply (analyze_rfp_no_json json_loads decoder_message create
                pdf_base64 Prompts.get_rfp_analysis_prompt reply others).
  - intros e Hcreate He. apply Hraise. subst outcome.
    unfold analyze_rfp. rewrite Hcreate. cbn [mbind result_bind].
    unfold analyze_rfp_handlers. by rewrite He.
Qed.

End PipelineFacts.

Lemma process_rfp_results_witness :
  exists log stream analysis pdf_buffer excel_buffer,
    Streamlit.run
      (AppFlow.process_rfp Json.loads (fun _ => "")
         (fun _ => Return [ClaudeRFPClient.TextBlock scenario_reply])
         toy_reader (fun _ => "")
         (fun _ _ => Return []) (fun _ _ _ => Return [])) toy_pdf
    = (log, stream, Return (Some (analysis, pdf_buffer, excel_buffer))) /\
    Streamlit.errors log = [].
Proof.
  eexists _, _, _, _, _.
  match goal with
  | |- ?A /\ _ => assert (H : A) by (vm_compute; reflexivity)
  end.
  split; [exact H|].
  destruct (process_rfp_results _ _ _ _ _ _ _ _ _ _ _ _ _ H)
    as (d & b & n & steps & questions & _ & _ & _ & _ & _ & _ & _ & _ & He).
  exact He.
Defined.

Lemma process_rfp_failure_messages_witness :
  exists log stream,
    Streamlit.run
      (AppFlow.process_rfp Json.loads (fun _ => "")
         (fun _ => Raise (Error APITimeoutError_ "Request timed out."))
         toy_reader (fun _ => "")
         (fun _ _ => Return []) (fun _ _ _ => Return [])) toy_pdf
    = (log, stream, Return None) /\
    Streamlit.errors log
    = ["❌ Error during processing: Claude API error: Request timed out."].
Proof.
  destruct (proj2 (proj2
    (process_rfp_failure_messages Json.loads (fun _ => "")
       (fun _ => Raise (Error APITimeoutError_ "Request timed out."))
       toy_reader (fun _ => "") (fun _ _ => Return []) (fun _ _ _ => Return [])
       toy_pdf _ _ _ eq_refl))
    (Error APITimeoutError_ "Request timed out.") eq_refl eq_refl)
    as (log & Hrun & Herr).
  exists log. eexists. split; [exact Hrun | exact Herr].
Defined.

(** ** app.py: the summary *)
Section SummaryFacts.
Import Streamlit AppFlow RFPAnalysisGenerator ReportSpec.
Variable repr : pyobj -> str.
Context {S : Type}.

#[local] Abbreviation display := (display_analysis_summary (S := S) repr).

Lemma run_timeline_lines (entries : list dict) place (s : S) :
  run (for_each (map PyDict entries) (fun item =>
         event ← lift (py_get item "event" (PyStr "Unknown"));
         date ← lift (py_get item "date" (PyStr "TBD"));
         show place (st_write ("**" ++ py_str repr event ++ ":** "
                               ++ py_str repr date)))) s
  = (map (fun e => (place, st_write (timeline_line repr e))) entries, s, Return tt).
Proof.
  induction entries as [|e entries IH]; [done|].
  cbn [map for_each]. rewrite run_bind.
  rewrite !run_lift. cbn [py_get]. rewrite run_lift.
  cbn [show run]. rewrite IH. unfold timeline_line.
  by destruct (dict_get "event" e), (dict_get "date" e).
Qed.

(** A numbered section of the summary, for a list of items. *)
Lemma run_numbered_section {B} (items : list pyobj) place
    (line : str -> element) (note : element) (k : unit -> ui S B) (s : S) :
  run ((if truthy (PyList items) then
          each ← lift (py_iter (PyList items));
          for_each (RFPExcelGenerator.enumerate each 1) (fun l =>
            show place (line (numbered repr l)))
        else show place note) ≫= k) s
  = let '(log, s', r) := run (k tt) s in
    (match items with
     | [] => [(place, note)]
     | _ => map (fun l => (place, line (numbered repr l)))
              (RFPExcelGenerator.enumerate items 1)
     end ++ log, s', r).
Proof.
  destruct items as [|x items].
  - cbn [truthy]. rewrite run_show. by destruct (run (k tt) s) as [[? ?] ?].
  - cbn [truthy]. rewrite run_bind, run_lift. cbn [py_iter].
    rewrite (run_for_each_show _ place (fun l => line (numbered repr l))).
    by destruct (run (k tt) s) as [[? ?] ?].
Qed.

Lemma run_timeline_section (entries : list dict) place (note : element) (s : S) :
  run (if truthy (PyList (map PyDict entries)) then
         each ← lift (py_iter (PyList (map PyDict entries)));
         for_each each (fun item =>
           event ← lift (py_get item "event" (PyStr "Unknown"));
           date ← lift (py_get item "date" (PyStr "TBD"));
           show place (st_write ("**" ++ py_str repr event ++ ":** "
                                 ++ py_str repr date)))
       else show place note) s
  = (match entries with
     | [] => [(place, note)]
     | _ => map (fun e => (place, st_write (timeline_line repr e))) entries
     end, s, Return tt).
Proof.
  destruct entries as [|e entries]; [done|].
  change (truthy (PyList (map PyDict (e :: entries)))) with true. cbv iota.
  rewrite run_lift. cbn [py_iter]. apply run_timeline_lines.
Qed.

Lemma py_get_items (d : dict) key :
  well_shaped d -> key ∈ ["client_problems"; "requirements"; "gotchas"] ->
  py_get (PyDict d) key (PyList []) = Return (PyList (items_of key d)).
Proof.
  intros [Hlists _] Hkey. rewrite py_get_dict. unfold items_of.
  destruct (dict_get key d) as [v|] eqn:E; [|done].
  by destruct (Hlists key v Hkey E) as [l ->].
Qed.

Lemma py_get_records (d : dict) :
  well_shaped d ->
  py_get (PyDict d) "timeline" (PyList [])
  = Return (PyList (map PyDict (records_of "timeline" d))).
Proof.
  intros [_ Hrecords]. rewrite py_get_dict.
  destruct (dict_get "timeline" d) as [v|] eqn:E.
  - destruct (Hrecords v eq_refl) as [entries ->].
    by rewrite (records_of_records _ _ _ E).
  - unfold records_of, items_of. by rewrite E.
Qed.

(** Property X18.  The summary of a well-shaped analysis.  It raises
    nothing and leaves the state; the four metrics are the lengths of the
    four lists, a missing key counting 0; each expander shows its items in
    order, numbered from 1 (the gotchas as warnings), or its one note when
    the list is empty or missing; a timeline record is shown as
    "**event:** date", with "Unknown" and "TBD" for a missing event or
    date. *)
Theorem summary_counts_and_lines (d : dict) (s : S) :
  well_shaped d ->
  exists log,
    run (display (PyDict d)) s = (log, s, Return tt) /\
    shown_in (column 0) log
    = [st_metric "Client Problems" (PyInt (len (items_of "client_problems" d)))] /\
    shown_in (column 1) log
    = [st_metric "Requirements" (PyInt (len (items_of "requirements" d)))] /\
    shown_in (column 2) log
    = [st_metric "Gotchas" (PyInt (len (items_of "gotchas" d)))] /\
    shown_in (column 3) log
    = [st_metric "Timeline Events" (PyInt (len (records_of "timeline" d)))] /\
    shown_in (inside "🎯 Client Problems") log
    = match items_of "client_problems" d with
      | [] => [st_info "No client problems identified"]
      | items => map (fun line => st_write (numbered repr line))
                   (RFPExcelGenerator.enumerate items 1)
      end /\
    shown_in (inside "📝 Specific Requirements") log
    = match items_of "requirements" d with
      | [] => [st_info "No requirements identified"]
      | items => map (fun line => st_write (numbered repr line))
                   (RFPExcelGenerator.enumerate items 1)
      end /\
    shown_in (inside "⚠️ Gotchas & Ambiguities") log
    = match items_of "gotchas" d with
      | [] => [st_success "No major gotchas identified"]
      | items => map (fun line => st_warning (numbered repr line))
                   (RFPExcelGenerator.enumerate items 1)
      end /\
    shown_in (inside "📅 Timeline") log
    = match records_of "timeline" d with
      | [] => [st_info "No timeline information available"]
      | entries => map (fun e => st_write (timeline_line repr e)) entries
      end.
Proof.
  intros Hd.
  pose proof (py_get_items d "client_problems" Hd ltac:(repeat constructor)) as H1.
  pose proof (py_get_items d "requirements" Hd ltac:(repeat constructor)) as H2.
  pose proof (py_get_items d "gotchas" Hd ltac:(repeat constructor)) as H3.
  pose proof (py_get_records d Hd) as H4.
  set (P := items_of "client_problems" d) in *.
  set (R := items_of "requirements" d) in *.
  set (G := items_of "gotchas" d) in *.
  set (T := records_of "timeline" d) in *.
  unfold display_analysis_summary.
  rewrite !run_show, run_lift, H1, run_lift. cbn [py_len].
  rewrite !run_show, run_lift, H2, run_lift. cbn [py_len].
  rewrite !run_show, run_lift, H3, run_lift. cbn [py_len].
  rewrite !run_show, run_lift, H4, run_lift. cbn [py_len].
  rewrite !run_show, run_lift.
  rewrite (run_numbered_section P (inside "🎯 Client Problems") st_write).
  rewrite !run_show, run_lift.
  rewrite (run_numbered_section R (inside "📝 Specific Requirements") st_write).
  rewrite !run_show, run_lift.
  rewrite (run_numbered_section G (inside "⚠️ Gotchas & Ambiguities") st_warning).
  rewrite !run_show, run_lift.
  rewrite run_timeline_section.
  eexists. split; [reflexivity|].
  assert (HT : len (map PyDict T) = len T) by (unfold len; by rewrite length_map).
  rewrite HT. clearbody P R G T.
  repeat split;
    repeat first
      [ rewrite shown_in_cons_same
      | rewrite shown_in_cons_other by discriminate
      | rewrite shown_in_app
      | rewrite shown_in_section_same
      | rewrite shown_in_section_other by discriminate ];
    rewrite ?app_nil_r;
    first [reflexivity | by destruct P | by destruct R | by destruct G
          | by destruct T].
Qed.

Lemma py_len_raises (o : pyobj) e :
  py_len o = Raise e -> exists text, e = Error TypeError_ text.
Proof. destruct o; try done; intros [= <-]; by eexists. Qed.

Lemma py_len_unsized (o : pyobj) :
  unsized o -> exists text, py_len o = Raise (Error TypeError_ text).
Proof. destruct o; try done; intros _; by eexists. Qed.

Lemma falsy_bullet_section title (v : pyobj) intro :
  truthy v = false ->
  _create_bullet_section repr title v intro
  = _create_bullet_section repr title (PyList []) intro.
Proof. intros H. unfold _create_bullet_section. by rewrite H. Qed.

Lemma falsy_timeline_section (v : pyobj) :
  truthy v = false ->
  _create_timeline_section v = _create_timeline_section (PyList []).
Proof. intros H. unfold _create_timeline_section. by rewrite H. Qed.

(** Property X19.  A section that is [null], [false] or 0 passes the
    validation, which only looks for the key.  The report renders it as
    the empty list; the summary of the page takes its [len] for the
    metrics and raises [TypeError]. *)
Theorem null_section_renders_but_breaks_summary (d : dict) (key : str)
    (v : pyobj) (rfp_filename now : str) (s : S) :
  key ∈ ["client_problems"; "requirements"; "gotchas"; "timeline"] ->
  dict_get key d = Some v -> unsized v -> truthy v = false ->
  generate_analysis_pdf repr (PyDict d) rfp_filename now
  = generate_analysis_pdf repr (PyDict (dict_set key (PyList []) d))
      rfp_filename now /\
  exists log text,
    run (display (PyDict d)) s = (log, s, Raise (Error TypeError_ text)).
Proof.
  intros Hkey Hv Hu Hf. split.
  - unfold generate_analysis_pdf. rewrite !py_get_dict, !dict_get_set.
    repeat (apply elem_of_cons in Hkey as [->|Hkey]);
      [| | | | by apply elem_of_nil in Hkey];
      rewrite Hv;
      repeat (first [rewrite bool_decide_eq_true_2 by done
                    | rewrite bool_decide_eq_false_2 by done]);
      cbn [mbind result_bind];
      by rewrite ?(falsy_bullet_section _ v _ Hf), ?(falsy_timeline_section v Hf).
  - unfold display_analysis_summary.
    pose (value := fun k : str =>
      match dict_get k d with Some v => v | None => PyList [] end).
    assert (Hlen : exists text,
      py_len (value key) = Raise (Error TypeError_ text)).
    { unfold value. rewrite Hv. by apply py_len_unsized. }
    destruct Hlen as [text Hlen].
    rewrite !run_show, run_lift, py_get_dict, run_lift.
    fold (value "client_problems").
    destruct (py_len (value "client_problems")) as [n1|e] eqn:E1;
      [|destruct (py_len_raises _ _ E1) as [t ->]; eexists _, _; reflexivity].
    rewrite !run_show, run_lift, py_get_dict, run_lift.
    fold (value "requirements").
    destruct (py_len (value "requirements")) as [n2|e] eqn:E2;
      [|destruct (py_len_raises _ _ E2) as [t ->]; eexists _, _; reflexivity].
    rewrite !run_show, run_lift, py_get_dict, run_lift.
    fold (value "gotchas").
    destruct (py_len (value "gotchas")) as [n3|e] eqn:E3;
      [|destruct (py_len_raises _ _ E3) as [t ->]; eexists _, _; reflexivity].
    rewrite !run_show, run_lift, py_get_dict, run_lift.
    fold (value "timeline").
    destruct (py_len (value "timeline")) as [n4|e] eqn:E4;
      [|destruct (py_len_raises _ _ E4) as [t ->]; eexists _, _; reflexivity].
    exfalso.
    repeat (apply elem_of_cons in Hkey as [->|Hkey]);
      [| | | | by apply elem_of_nil in Hkey]; congruence.
Qed.

End SummaryFacts.

Lemma summary_counts_and_lines_witness :
  exists log,
    Streamlit.run
      (AppFlow.display_analysis_summary (fun _ => "")
         (PyDict [("client_problems", PyList [PyStr "Legacy system"; PyStr "No owner"]);
                  ("timeline", PyList [PyDict [("event", PyStr "Proposal Due")]])]))
      tt = (log, tt, Return tt) /\
    Streamlit.shown_in (Streamlit.column 0) log
    = [Streamlit.st_metric "Client Problems" (PyInt 2)] /\
    Streamlit.shown_in (Streamlit.inside "📅 Timeline") log
    = [Streamlit.st_write "**Proposal Due:** TBD"].
Proof.
  assert (Hd : ReportSpec.well_shaped
    [("client_problems", PyList [PyStr "Legacy system"; PyStr "No owner"]);
     ("timeline", PyList [PyDict [("event", PyStr "Proposal Due")]])]).
  { split.
    - intros key v _ H. simpl in H.
      repeat match type of H with
      | (if ?b then _ else _) = _ => destruct b
      end; try done; injection H as <-; by eexists.
    - intros v [= <-]. by exists [[("event", PyStr "Proposal Due")]]. }
  destruct (summary_counts_and_lines (fun _ => "") _ tt Hd)
    as (log & Hrun & H0 & _ & _ & _ & _ & _ & _ & Ht).
  exists log. split; [exact Hrun|]. split; [exact H0 | exact Ht].
Defined.

Lemma null_section_renders_but_breaks_summary_witness :
  exists log text,
    Streamlit.run
      (AppFlow.display_analysis_summary (fun _ => "")
         (PyDict [("client_problems", PyList []); ("gotchas", PyNone)])) tt
    = (log, tt, Raise (Error TypeError_ text)).
Proof.
  exact (proj2 (null_section_renders_but_breaks_summary (fun _ => "")
                  [("client_problems", PyList []); ("gotchas", PyNone)]
                  "gotchas" PyNone "rfp.pdf" "now" tt
                  ltac:(do 2 right; left)
                  eq_refl I eq_refl)).
Defined.
(** ** app.py: the names of the downloads *)
Section ReplaceFacts.
Implicit Types (old new s t : str).

Lemma replace_from_skip old new (a t : str) :
  replace_from old new (length a) (a ++ t) = replace_from old new O t.
Proof. induction a as [|c a IH]; [done | exact IH]. Qed.

Lemma replace_from_absent old new s :
  old <> [] -> contains old s = false -> replace_from old new O s = s.
Proof.
  intros Hold. induction s as [|c s IH]; [done|].
  intros [H1 H2]%contains_cons. cbn [replace_from].
  rewrite H1. f_equal. by apply IH.
Qed.

Lemma replace_from_suffix h rest new stem :
  h ∉ rest -> contains (h :: rest) stem = false ->
  replace_from (h :: rest) new O (stem ++ h :: rest) = stem ++ new.
Proof.
  intros Hh. induction stem as [|c stem IH].
  - intros _. cbn [app replace_from].
    pose proof (startswith_app (h :: rest) []) as Hs.
    rewrite app_nil_r in Hs. rewrite Hs.
    replace (length (h :: rest) - 1)%nat with (length rest) by (simpl; lia).
    pose proof (replace_from_skip (h :: rest) new rest []) as Hk.
    rewrite app_nil_r in Hk. rewrite Hk. by rewrite app_nil_r.
  - intros [H1 H2]%contains_cons.
    change ((c :: stem) ++ h :: rest) with (c :: (stem ++ h :: rest)).
    cbn [replace_from].
    assert (Hs : startswith (h :: rest) (c :: stem ++ h :: rest) = false).
    { destruct (startswith (h :: rest) (c :: stem ++ h :: rest)) eqn:E; [|done].
      simpl in E, H1. destruct (h =? c)%N; [|done].
      apply startswith_barrier in E; [congruence | done]. }
    rewrite Hs. simpl. f_equal. by apply IH.
Qed.

Lemma replace_from_char (a b : N) s :
  replace_from [a] [b] O s = map (fun c => if (c =? a)%N then b else c) s.
Proof.
  induction s as [|c s IH]; [done|].
  cbn [replace_from map startswith]. rewrite (N.eqb_sym c a).
  destruct (a =? c)%N; simpl; by rewrite IH.
Qed.

End ReplaceFacts.

Section DownloadFacts.
Import Streamlit AppFlow.
Context {S : Type}.

(** Property X20.  The names of the two downloads.  Every ".pdf" of the
    file name is removed, wherever it stands, then every space becomes an
    underscore; the PDF is offered as "base_analysis_timestamp.pdf" in the
    first column and the workbook as "base_alignment_timestamp.xlsx" in
    the second, each with its bytes and its caption.  For a name with one
    ".pdf", at its end, the base is the name without the extension; a
    name in which ".pdf" does not occur in lower case keeps its
    extension. *)
Theorem download_file_names (pdf_buffer excel_buffer : list byte)
    (filename timestamp : str) (s : S) :
  let stem := replace filename ".pdf" "" in
  let base_name := map (fun c => if (c =? 32)%N then 95%N else c) stem in
  (exists log,
     run (create_download_section pdf_buffer excel_buffer filename timestamp) s
     = (log, s, Return tt) /\
     shown_in (column 0) log
     = [st_download_button "📄 Download PDF Analysis" pdf_buffer
          (base_name ++ "_analysis_" ++ timestamp ++ ".pdf") "application/pdf";
        st_caption "Structured analysis with client problems, requirements, gotchas, and timeline"] /\
     shown_in (column 1) log
     = [st_download_button "📊 Download Excel Report" excel_buffer
          (base_name ++ "_alignment_" ++ timestamp ++ ".xlsx")
          "application/vnd.openxmlformats-officedocument.spreadsheetml.sheet";
        st_caption "Next steps and strategic alignment questions for your team"]) /\
  (forall name, filename = name ++ ".pdf" -> contains ".pdf" name = false ->
     stem = name) /\
  (contains ".pdf" filename = false -> stem = filename).
Proof.
  intros stem base_name.
  assert (Hbase : replace stem " " "_" = base_name).
  { unfold replace. apply (replace_from_char 32 95). }
  split; [|split].
  - unfold create_download_section. fold stem. rewrite Hbase.
    eexists. split; [reflexivity|]. split; reflexivity.
  - intros name -> Hname. unfold stem, replace.
    rewrite (replace_from_suffix 46%N "pdf" "" name); [by rewrite app_nil_r| |done].
    intros H. repeat (apply elem_of_cons in H as [H|H]; [done|]).
    by apply elem_of_nil in H.
  - intros H. unfold stem, replace. by apply replace_from_absent.
Qed.

End DownloadFacts.

(** ** The prompt and the client *)

(** Property X21.  The prompt and the client agree.  The prompt text has
    no fence, and the only braces in it are those of the structure it
    asks for; parsed by the client, it gives that structure: an object
    whose keys are exactly the six required ones, in the order of the
    validator, which the validator accepts, with lists of strings and a
    timeline of records with an event and a date. *)
Theorem prompt_template_is_accepted :
  exists template : dict,
    ClaudeRFPClient._parse_json_response Json.loads Prompts.get_rfp_analysis_prompt
    = Return (PyDict template) /\
    map fst template = ClaudeRFPClient.required_fields /\
    ClaudeRFPClient.validate_analysis_structure (PyDict template) = Return true /\
    ReportSpec.records_of "timeline" template
    = [[("event", PyStr "Q&A Deadline"); ("date", PyStr "YYYY-MM-DD")];
       [("event", PyStr "Proposal Submission"); ("date", PyStr "YYYY-MM-DD")]].
Proof.
  eexists. split; [vm_compute; reflexivity|].
  split; [vm_compute; reflexivity|].
  split; vm_compute; reflexivity.
Qed.
